(** * glab-setup-git-identity: the library module [src/index.js]

    The repository configures [git config user.name] / [user.email] from the
    account the GitLab CLI ([glab]) is logged into, and installs [glab] as a
    git credential helper.  Every exported operation is a short sequence of
    subprocess calls whose exit code and output decide what happens next.

    [src/index.js] exists in two variants, both embedded here:
    - [CommandStream]: runs commands through the [command-stream] template
      tag and parses the user record with [JSON.parse];
    - [ChildProcess]: runs commands through [execCommand] /
      [execInteractiveCommand] over [node:child_process] and lets
      [glab api user --jq] pick the field.

    The operating system and the JavaScript runtime are a parameter of the
    development (class [Runtime]); an operation is a function from the state
    of the machine to a completion (returned value or thrown error), the new
    state and the list of events (processes run, lines logged). *)

From Stdlib Require Import String Ascii List ZArith Bool Lia.
Import ListNotations.
Local Open Scope list_scope.
Local Open Scope string_scope.

Set Implicit Arguments.
Set Warnings "-register-all".

(** ** JavaScript strings *)

Module JsString.

(** ASCII part of the ECMAScript WhiteSpace and LineTerminator classes
    (TAB, LF, VT, FF, CR, SPACE); strings are sequences of 8-bit
    characters here, so the non-ASCII members are outside the model. *)
Definition isWhiteSpace (c : ascii) : bool :=
  let n := nat_of_ascii c in
  Nat.eqb n 9 || Nat.eqb n 10 || Nat.eqb n 11 || Nat.eqb n 12
  || Nat.eqb n 13 || Nat.eqb n 32.

Fixpoint trimStart (s : string) : string :=
  match s with
  | EmptyString => EmptyString
  | String c r => if isWhiteSpace c then trimStart r else s
  end.

Fixpoint trimEnd (s : string) : string :=
  match s with
  | EmptyString => EmptyString
  | String c r =>
      match trimEnd r with
      | EmptyString => if isWhiteSpace c then EmptyString else String c EmptyString
      | r' => String c r'
      end
  end.

(** [String.prototype.trim] *)
Definition trim (s : string) : string := trimEnd (trimStart s).

Definition LF : ascii := ascii_of_nat 10.

(** [s.split('\n')[0]]: the text before the first line feed. *)
Fixpoint firstLine (s : string) : string :=
  match s with
  | EmptyString => EmptyString
  | String c r => if Ascii.eqb c LF then EmptyString else String c (firstLine r)
  end.

(** [hay.includes(needle)] *)
Fixpoint includes (hay needle : string) : bool :=
  String.prefix needle hay
  || match hay with
     | EmptyString => false
     | String _ r => includes r needle
     end.

(** [xs.join(sep)] *)
Definition join (sep : string) (xs : list string) : string :=
  String.concat sep xs.

(** ToBoolean on a string: only the empty string is falsy. *)
Definition truthy (s : string) : bool :=
  match s with EmptyString => false | _ => true end.

Definition NL : string := String LF EmptyString.

(** A text between double quotes, as in [`"${x}"`]. *)
Definition quoted (s : string) : string :=
  String (ascii_of_nat 34) (s ++ String (ascii_of_nat 34) EmptyString).

End JsString.
Import JsString.

(** ** JavaScript values, errors and completions *)

(** The values [JSON.parse] can produce, plus [undefined] for an absent
    property.  A number is kept by the two observations the program makes
    of a field value: whether it is truthy and how it prints. *)
Inductive JsValue : Type :=
| JUndefined
| JNull
| JBool (b : bool)
| JNumber (nonzero : bool) (text : string)
| JString (s : string)
| JArray (items : list JsValue)
| JObject (members : list (string * JsValue)).

(** ToBoolean, as applied by [!x] and [if (x)]. *)
Definition toBoolean (v : JsValue) : bool :=
  match v with
  | JUndefined | JNull => false
  | JBool b => b
  | JNumber nz _ => nz
  | JString s => truthy s
  | JArray _ | JObject _ => true
  end.

(** ToString, as applied by a template literal. *)
Fixpoint toString (v : JsValue) : string :=
  match v with
  | JUndefined => "undefined"
  | JNull => "null"
  | JBool true => "true"
  | JBool false => "false"
  | JNumber _ text => text
  | JString s => s
  | JArray items =>
      join "," (map (fun x => match x with
                              | JUndefined | JNull => ""
                              | _ => toString x
                              end) items)
  | JObject _ => "[object Object]"
  end.

Inductive JsError : Type :=
| Error (message : string)
| TypeError (message : string).

Definition message (e : JsError) : string :=
  match e with Error m | TypeError m => m end.

Inductive Completion (A : Type) : Type :=
| Returned (a : A)
| Thrown (e : JsError).
Arguments Thrown {A} e.

Fixpoint assoc (k : string) (ms : list (string * JsValue)) : JsValue :=
  match ms with
  | [] => JUndefined
  | (k', v) :: rest => if String.eqb k k' then v else assoc k rest
  end.

(** [v.k] for a key no prototype defines (the program reads [username] and
    [email] only): the member of an object, [undefined] on any other value
    that can be boxed, a TypeError on [null] and [undefined]. *)
Definition getProperty (v : JsValue) (k : string) : Completion JsValue :=
  match v with
  | JNull =>
      Thrown (TypeError ("Cannot read properties of null (reading '" ++ k ++ "')"))
  | JUndefined =>
      Thrown (TypeError ("Cannot read properties of undefined (reading '" ++ k ++ "')"))
  | JObject ms => Returned (assoc k ms)
  | _ => Returned JUndefined
  end.

(** ** Processes, events and the runtime *)

(** How the standard streams of a child are wired. *)
Inductive Stdio : Type :=
| Capture                         (* output buffered for the caller *)
| Mirror (inheritStdin : bool)    (* output mirrored to the terminal *)
| Inherit                         (* all three streams inherited *)
| PipeInput (input : string).     (* stdin fed from [input], then closed *)

Record Invocation : Type := { argv : list string; stdio : Stdio }.

(** How a subprocess call ends: the child closed with an exit code ([None]
    is JavaScript's [null], a child ended by a signal), or the call itself
    failed (the ['error'] event of a child process, a rejected run of the
    template tag). *)
Inductive Outcome : Type :=
| Exited (code : option Z) (out err : string)
| Failed (msg : string) (out : string).

Inductive Level : Type := LogLevel | ErrorLevel | WarnLevel | DebugLevel.

Inductive Event : Type :=
| Exec (i : Invocation) (o : Outcome)
| Log (l : Level) (line : string).

Class Runtime (W : Type) : Type := {
  (** [process.platform] *)
  platform : string;
  (** run one process to its end *)
  os_run : W -> Invocation -> Outcome * W;
  (** [JSON.parse]: the value, or the message of the SyntaxError *)
  JSON_parse : string -> JsValue + string;
  (** which of two children started together is reported first *)
  first_settles_first : W -> bool
}.

(** The processes run, in order, with how they ended. *)
Fixpoint execs (t : list Event) : list (Invocation * Outcome) :=
  match t with
  | [] => []
  | Exec i o :: r => (i, o) :: execs r
  | Log _ _ :: r => execs r
  end.

(** ** The monad of operations *)

Section Operations.
Context {W : Type} `{RT : Runtime W}.

Definition M (A : Type) : Type := W -> Completion A * W * list Event.

Definition ret {A} (a : A) : M A := fun w => (Returned a, w, []).

Definition throw {A} (e : JsError) : M A := fun w => (Thrown e, w, []).

Definition bind {A B} (m : M A) (k : A -> M B) : M B :=
  fun w =>
    match m w with
    | (Returned a, w1, t1) =>
        match k a w1 with
        | (r, w2, t2) => (r, w2, (t1 ++ t2)%list)
        end
    | (Thrown e, w1, t1) => (Thrown e, w1, t1)
    end.

(** [try { m } catch (error) { h error }] *)
Definition try_catch {A} (m : M A) (h : JsError -> M A) : M A :=
  fun w =>
    match m w with
    | (Returned a, w1, t1) => (Returned a, w1, t1)
    | (Thrown e, w1, t1) =>
        match h e w1 with
        | (r, w2, t2) => (r, w2, (t1 ++ t2)%list)
        end
    end.

Definition lift {A} (c : Completion A) : M A := fun w => (c, w, []).

(** One subprocess, run to its end and recorded. *)
Definition run_process (i : Invocation) : M Outcome :=
  fun w => (Returned (fst (os_run w i)), snd (os_run w i),
            [Exec i (fst (os_run w i))]).

Definition emit (l : Level) (line : string) : M unit :=
  fun w => (Returned tt, w, [Log l line]).

(** Projections of a run. *)
Definition result {A} (x : Completion A * W * list Event) : Completion A := fst (fst x).
Definition final {A} (x : Completion A * W * list Event) : W := snd (fst x).
Definition trace {A} (x : Completion A * W * list Event) : list Event := snd x.

End Operations.

Notation "x <- m ;; k" := (bind m (fun x => k))
  (at level 61, m at next level, right associativity).
Notation "m ;;; k" := (bind m (fun _ => k))
  (at level 61, right associativity).

(** [createDefaultLogger]: the logger is the console; [debug] prints in
    verbose mode only. *)
Record Logger (W : Type) : Type := {
  log : string -> @M W unit;
  error : string -> @M W unit;
  warn : string -> @M W unit;
  debug : string -> @M W unit
}.

Definition createDefaultLogger {W : Type} (verbose : bool) : Logger W :=
  {| log := fun line => emit LogLevel line;
     error := fun line => emit ErrorLevel line;
     warn := fun line => emit WarnLevel line;
     debug := fun line => if verbose then emit DebugLevel line else ret tt |}.

(** ** Options and results *)

(** The options object.  Every operation destructures the fields it knows
    and ignores the rest; [None] is JavaScript's [undefined].  The logger is
    the console throughout. *)
Record Options : Type := {
  hostname : option string;
  token : option string;
  gitProtocol : option string;
  apiProtocol : option string;
  apiHost : option string;
  useKeyring : option bool;
  jobToken : option string;
  stdin : bool;
  force : bool;
  scope : option string;
  dryRun : bool;
  verbose : bool
}.

(** [{}] *)
Definition noOptions : Options :=
  {| hostname := None; token := None; gitProtocol := None; apiProtocol := None;
     apiHost := None; useKeyring := None; jobToken := None; stdin := false;
     force := false; scope := None; dryRun := false; verbose := false |}.

(** A destructuring default: [const { x = d } = options]. *)
Definition orDefault {A} (d : A) (o : option A) : A :=
  match o with Some x => x | None => d end.

(** [if (x)] on an optional string. *)
Definition given (o : option string) : bool :=
  match o with Some s => truthy s | None => false end.

(** [if (cond) { args.push(...items) }] *)
Definition pushIf (cond : bool) (items : list string) (args : list string) : list string :=
  if cond then (args ++ items)%list else args.

(** [{ username, email }], for the fetched account ([A] the type of a field
    value) and for the identity read back from git ([A := option string]). *)
Record Identity (A : Type) : Type := { username : A; email : A }.

Definition NOT_FOUND : string :=
  "glab CLI not found. Please install glab: https://gitlab.com/gitlab-org/cli#installation".

Definition INSTALL_URL : string := "https://gitlab.com/gitlab-org/cli#installation".

Definition NO_USERNAME : string :=
  "No username found in GitLab user data. Please ensure your GitLab account has a username.".

Definition NO_EMAIL : string :=
  "No email found on GitLab account. Please set a primary email in your GitLab settings.".

(** [scope === 'local' ? '--local' : '--global'] *)
Definition scopeFlag (scope : string) : string :=
  if String.eqb scope "local" then "--local" else "--global".

(** [process.platform === 'win32' ? 'where' : 'which'] *)
Definition lookupCommand {W} `{Runtime W} : string :=
  if String.eqb platform "win32" then "where" else "which".

(** ** The [node:child_process] variant *)

Module ChildProcess.

Record ExecResult : Type := { stdout : string; stderr : string; exitCode : Z }.

(** [exitCode || 0] *)
Definition orZero (code : option Z) : Z :=
  match code with Some n => n | None => 0%Z end.

(** [defaultAuthOptions] *)
Definition default_hostname : string := "gitlab.com".
Definition default_gitProtocol : string := "https".
Definition default_useKeyring : bool := false.

(** What the handlers of [execCommand] resolve the promise with: on
    ['close'] the trimmed output and [exitCode || 0], on ['error'] the
    message of the error and exit code 1. *)
Definition resolved (o : Outcome) : ExecResult :=
  match o with
  | Exited code out err =>
      {| stdout := trim out; stderr := trim err; exitCode := orZero code |}
  | Failed msg out =>
      {| stdout := trim out; stderr := msg; exitCode := 1 |}
  end.

(** [spawn(command, args, { stdio: 'pipe', shell: false })] *)
Definition captured (command : string) (args : list string) : Invocation :=
  {| argv := command :: args; stdio := Capture |}.

(** [spawn(command, args, { stdio: input ? ['pipe', 'inherit', 'inherit']
    : 'inherit', shell: false })], the input written to the pipe. *)
Definition interactive (command : string) (args : list string)
    (input : option string) : Invocation :=
  {| argv := command :: args;
     stdio := match input with
              | Some text => if truthy text then PipeInput text else Inherit
              | None => Inherit
              end |}.

Section WithRuntime.
Context {W : Type} `{RT : Runtime W}.

(** The promise is settled by whichever of ['close'] and ['error']
    comes first; both handlers resolve. *)
Definition execCommand (command : string) (args : list string) : M ExecResult :=
  o <- run_process (captured command args) ;;
  ret (resolved o).

(** Resolves with [{ exitCode }]. *)
Definition execInteractiveCommand (command : string) (args : list string)
    (input : option string) : M Z :=
  o <- run_process (interactive command args input) ;;
  match o with
  | Exited code _ _ => ret (orZero code)
  | Failed msg _ =>
      emit ErrorLevel ("Failed to execute command: " ++ msg) ;;;
      ret 1%Z
  end.

Definition getGlabPath (options : Options) : M string :=
  let logger := createDefaultLogger options.(verbose) in
  logger.(debug) "Detecting glab installation path..." ;;;
  let command := lookupCommand in
  result <- execCommand command ["glab"] ;;
  if negb (Z.eqb result.(exitCode) 0) || negb (truthy result.(stdout)) then
    throw (Error NOT_FOUND)
  else
    let glabPath := trim (firstLine result.(stdout)) in
    logger.(debug) ("Found glab at: " ++ glabPath) ;;;
    ret glabPath.

(** The argument vector [runGlabAuthLogin] builds before it runs glab. *)
Definition loginArgs (options : Options) : list string :=
  let hostname := orDefault default_hostname options.(hostname) in
  let gitProtocol := orDefault default_gitProtocol options.(gitProtocol) in
  let useKeyring := orDefault default_useKeyring options.(useKeyring) in
  let args := ["auth"; "login"] in
  let args := pushIf (truthy hostname) ["--hostname"; hostname] args in
  let args := pushIf (truthy gitProtocol) ["--git-protocol"; gitProtocol] args in
  let args := pushIf useKeyring ["--use-keyring"] args in
  (* If token is provided, use stdin mode *)
  let args := pushIf (given options.(token)) ["--stdin"] args in
  args.

Definition runGlabAuthLogin (options : Options) : M bool :=
  let logger := createDefaultLogger options.(verbose) in
  let args := loginArgs options in
  logger.(debug) ("Running: glab " ++ join " " args) ;;;
  exitCode <- execInteractiveCommand "glab" args
                (match options.(token) with
                 | Some token => if truthy token then Some (token ++ NL) else None
                 | None => None
                 end) ;;
  if negb (Z.eqb exitCode 0) then
    logger.(error) "GitLab CLI authentication failed" ;;;
    ret false
  else
    logger.(log) (NL ++ "GitLab CLI authentication successful!") ;;;
    ret true.

Definition runGlabAuthSetupGit (options : Options) : M bool :=
  let hostname := orDefault default_hostname options.(hostname) in
  let force := options.(force) in
  let logger := createDefaultLogger options.(verbose) in
  logger.(debug) "Configuring git credential helper for GitLab CLI..." ;;;
  try_catch
    (glabPath <- getGlabPath options ;;
     let credentialUrl := "https://" ++ hostname in
     let credentialHelper := "!" ++ glabPath ++ " auth git-credential" in
     existingHelper <- execCommand "git"
         ["config"; "--global"; "--get"; "credential." ++ credentialUrl ++ ".helper"] ;;
     if Z.eqb existingHelper.(exitCode) 0 && truthy existingHelper.(stdout) && negb force then
       logger.(debug) ("Existing credential helper found for " ++ hostname ++ ": "
                    ++ existingHelper.(stdout)) ;;;
       logger.(log) ("Git credential helper already configured for " ++ hostname
                  ++ ". Use force: true to overwrite.") ;;;
       ret true
     else
       logger.(debug) ("Clearing existing credential helpers for " ++ credentialUrl ++ "...") ;;;
       _ <- execCommand "git"
              ["config"; "--global"; "credential." ++ credentialUrl ++ ".helper"; ""] ;;
       logger.(debug) ("Setting credential helper: " ++ credentialHelper) ;;;
       result <- execCommand "git"
           ["config"; "--global"; "--add"; "credential." ++ credentialUrl ++ ".helper";
            credentialHelper] ;;
       if negb (Z.eqb result.(exitCode) 0) then
         logger.(error) ("Failed to set git credential helper: " ++ result.(stderr)) ;;;
         ret false
       else
         logger.(log) ("Git credential helper configured for " ++ hostname) ;;;
         logger.(debug) ("  URL: " ++ credentialUrl) ;;;
         logger.(debug) ("  Helper: " ++ credentialHelper) ;;;
         ret true)
    (fun error_ =>
       logger.(error) ("Failed to setup git credential helper: " ++ message error_) ;;;
       ret false).

Definition isGlabAuthenticated (options : Options) : M bool :=
  let logger := createDefaultLogger options.(verbose) in
  logger.(debug) "Checking GitLab CLI authentication status..." ;;;
  let args := ["auth"; "status"] in
  let args := pushIf (given options.(hostname))
                ["--hostname"; orDefault "" options.(hostname)] args in
  result <- execCommand "glab" args ;;
  if negb (Z.eqb result.(exitCode) 0) then
    logger.(debug) ("GitLab CLI is not authenticated: " ++ result.(stderr)) ;;;
    ret false
  else
    logger.(debug) "GitLab CLI is authenticated" ;;;
    ret true.

Definition getGitLabUsername (options : Options) : M string :=
  let logger := createDefaultLogger options.(verbose) in
  logger.(debug) "Getting GitLab username..." ;;;
  let args := ["api"; "user"; "--jq"; ".username"] in
  let args := pushIf (given options.(hostname))
                ["--hostname"; orDefault "" options.(hostname)] args in
  result <- execCommand "glab" args ;;
  if negb (Z.eqb result.(exitCode) 0) then
    throw (Error ("Failed to get GitLab username: " ++ result.(stderr)))
  else
    let username := result.(stdout) in
    logger.(debug) ("GitLab username: " ++ username) ;;;
    ret username.

Definition getGitLabEmail (options : Options) : M string :=
  let logger := createDefaultLogger options.(verbose) in
  logger.(debug) "Getting GitLab primary email..." ;;;
  let args := ["api"; "user"; "--jq"; ".email"] in
  let args := pushIf (given options.(hostname))
                ["--hostname"; orDefault "" options.(hostname)] args in
  result <- execCommand "glab" args ;;
  if negb (Z.eqb result.(exitCode) 0) then
    throw (Error ("Failed to get GitLab email: " ++ result.(stderr)))
  else
    let email := result.(stdout) in
    if negb (truthy email) then
      throw (Error NO_EMAIL)
    else
      logger.(debug) ("GitLab primary email: " ++ email) ;;;
      ret email.

(** [Promise.all([p, q])] of two operations started together.  The two
    children run side by side; the model runs the one started first to
    its end before the other, and when both promises reject the runtime
    says whose rejection is seen. *)
Definition Promise_all2 {A B} (p : M A) (q : M B) : M (A * B) :=
  fun w =>
    match p w with
    | (ra, w1, t1) =>
        match q w1 with
        | (rb, w2, t2) =>
            (match ra, rb with
             | Returned a, Returned b => Returned (a, b)
             | Thrown e, Returned _ => Thrown e
             | Returned _, Thrown e => Thrown e
             | Thrown e1, Thrown e2 =>
                 Thrown (if first_settles_first w then e1 else e2)
             end, w2, (t1 ++ t2)%list)
        end
    end.

Definition getGitLabUserInfo (options : Options) : M (Identity string) :=
  pair_ <- Promise_all2 (getGitLabUsername options) (getGitLabEmail options) ;;
  ret {| username := fst pair_; email := snd pair_ |}.

Definition setGitConfig (key value : string) (options : Options) : M unit :=
  let scope := orDefault "global" options.(scope) in
  let logger := createDefaultLogger options.(verbose) in
  let scopeFlag := scopeFlag scope in
  logger.(debug) ("Setting git config " ++ key ++ " = " ++ value ++ " (" ++ scope ++ ")") ;;;
  result <- execCommand "git" ["config"; scopeFlag; key; value] ;;
  if negb (Z.eqb result.(exitCode) 0) then
    throw (Error ("Failed to set git config " ++ key ++ ": " ++ result.(stderr)))
  else
    logger.(debug) ("Successfully set git config " ++ key).

(** [None] is [null]. *)
Definition getGitConfig (key : string) (options : Options) : M (option string) :=
  let scope := orDefault "global" options.(scope) in
  let logger := createDefaultLogger options.(verbose) in
  let scopeFlag := scopeFlag scope in
  logger.(debug) ("Getting git config " ++ key ++ " (" ++ scope ++ ")") ;;;
  result <- execCommand "git" ["config"; scopeFlag; key] ;;
  if negb (Z.eqb result.(exitCode) 0) then
    logger.(debug) ("Git config " ++ key ++ " not set") ;;;
    ret None
  else
    let value := result.(stdout) in
    logger.(debug) ("Git config " ++ key ++ " = " ++ value) ;;;
    ret (Some value).

(** The options handed down: [{ hostname, verbose, logger }] and
    [{ scope, verbose, logger }]. *)
Definition fetchOptions (options : Options) : Options :=
  {| hostname := options.(hostname); token := None; gitProtocol := None;
     apiProtocol := None; apiHost := None; useKeyring := None; jobToken := None;
     stdin := false; force := false; scope := None; dryRun := false;
     verbose := options.(verbose) |}.

Definition configOptions (options : Options) : Options :=
  {| hostname := None; token := None; gitProtocol := None;
     apiProtocol := None; apiHost := None; useKeyring := None; jobToken := None;
     stdin := false; force := false;
     scope := Some (orDefault "global" options.(scope)); dryRun := false;
     verbose := options.(verbose) |}.

Definition setupGitIdentity (options : Options) : M (Identity string) :=
  let scope := orDefault "global" options.(scope) in
  let logger := createDefaultLogger options.(verbose) in
  logger.(log) (NL ++ "Fetching GitLab user information...") ;;;
  info <- getGitLabUserInfo (fetchOptions options) ;;
  let username := info.(username) in
  let email := info.(email) in
  logger.(log) ("  GitLab user: " ++ username) ;;;
  logger.(log) ("  GitLab email: " ++ email) ;;;
  if options.(dryRun) then
    logger.(log) "DRY MODE: Would configure the following:" ;;;
    logger.(log) ("  git config --" ++ scope ++ " user.name " ++ quoted username) ;;;
    logger.(log) ("  git config --" ++ scope ++ " user.email " ++ quoted email) ;;;
    ret {| username := username; email := email |}
  else
    logger.(log) (NL ++ "Configuring git (" ++ scope ++ ")...") ;;;
    setGitConfig "user.name" username (configOptions options) ;;;
    setGitConfig "user.email" email (configOptions options) ;;;
    logger.(log) "  Git identity configured successfully!" ;;;
    ret {| username := username; email := email |}.

Definition verifyGitIdentity (options : Options) : M (Identity (option string)) :=
  username <- getGitConfig "user.name" (configOptions options) ;;
  email <- getGitConfig "user.email" (configOptions options) ;;
  ret {| username := username; email := email |}.

End WithRuntime.
End ChildProcess.

(** ** The [command-stream] variant *)

Module CommandStream.

(** What a run of the template tag resolves with; [code] is compared with
    [!== 0] and [=== 0], so [None] (JavaScript's [null]) is not a zero. *)
Record RunResult : Type := { code : option Z; stdout : string; stderr : string }.

(** [code === 0] *)
Definition isZero (code : option Z) : bool :=
  match code with Some n => Z.eqb n 0 | None => false end.

(** [defaultAuthOptions] *)
Definition default_hostname : string := "gitlab.com".
Definition default_gitProtocol : string := "https".
Definition default_apiProtocol : string := "https".
Definition default_useKeyring : bool := false.

(** [buildGlabAuthLoginArgs] *)
Definition buildGlabAuthLoginArgs (options : Options) : list string :=
  let hostname := options.(hostname) in
  let gitProtocol := options.(gitProtocol) in
  let apiProtocol := options.(apiProtocol) in
  let apiHost := options.(apiHost) in
  let useKeyring := orDefault false options.(useKeyring) in
  let jobToken := options.(jobToken) in
  let token := options.(token) in
  let stdin := options.(stdin) in
  let args := ["auth"; "login"] in
  let args := pushIf (given hostname) ["--hostname"; orDefault "" hostname] args in
  let args := pushIf (given gitProtocol) ["--git-protocol"; orDefault "" gitProtocol] args in
  let args := pushIf (given apiProtocol) ["--api-protocol"; orDefault "" apiProtocol] args in
  let args := pushIf (given apiHost) ["--api-host"; orDefault "" apiHost] args in
  let args := pushIf useKeyring ["--use-keyring"] args in
  (* Handle authentication method (mutually exclusive) *)
  let args :=
    if given jobToken then (args ++ ["--job-token"; orDefault "" jobToken])%list
    else if given token then (args ++ ["--token"; orDefault "" token])%list
    else if stdin then (args ++ ["--stdin"])%list
    else args in
  args.

(** The object [runGlabAuthLogin] hands to [buildGlabAuthLoginArgs], with
    the destructuring defaults applied. *)
Definition loginOptions (options : Options) : Options :=
  {| hostname := Some (orDefault default_hostname options.(hostname));
     token := options.(token);
     gitProtocol := Some (orDefault default_gitProtocol options.(gitProtocol));
     apiProtocol := Some (orDefault default_apiProtocol options.(apiProtocol));
     apiHost := options.(apiHost);
     useKeyring := Some (orDefault default_useKeyring options.(useKeyring));
     jobToken := options.(jobToken);
     stdin := options.(stdin);
     force := false; scope := None; dryRun := false;
     verbose := options.(verbose) |}.

Definition fetchOptions (options : Options) : Options :=
  {| hostname := options.(hostname); token := None; gitProtocol := None;
     apiProtocol := None; apiHost := None; useKeyring := None; jobToken := None;
     stdin := false; force := false; scope := None; dryRun := false;
     verbose := options.(verbose) |}.

Definition configOptions (options : Options) : Options :=
  {| hostname := None; token := None; gitProtocol := None;
     apiProtocol := None; apiHost := None; useKeyring := None; jobToken := None;
     stdin := false; force := false;
     scope := Some (orDefault "global" options.(scope)); dryRun := false;
     verbose := options.(verbose) |}.

(** How a run settles: resolved with the result, or rejected. *)
Definition settled (o : Outcome) : Completion RunResult :=
  match o with
  | Exited code out err => Returned {| code := code; stdout := out; stderr := err |}
  | Failed msg _ => Thrown (Error msg)
  end.

Section WithRuntime.
Context {W : Type} `{RT : Runtime W}.

(** A run of the template tag: the words of the command line, each
    interpolated string one word.  The run either resolves with the
    code and output of the child or rejects with an error. *)
Definition run (words : list string) (io : Stdio) : M RunResult :=
  o <- run_process {| argv := words; stdio := io |} ;;
  lift (settled o).

Definition getGlabPath (options : Options) : M string :=
  let logger := createDefaultLogger options.(verbose) in
  logger.(debug) "Detecting glab installation path..." ;;;
  let command := lookupCommand in
  try_catch
    (result <- run [command; "glab"] Capture ;;
     if negb (isZero result.(code)) || negb (truthy result.(stdout)) then
       throw (Error NOT_FOUND)
     else
       let glabPath := trim (firstLine result.(stdout)) in
       logger.(debug) ("Found glab at: " ++ glabPath) ;;;
       ret glabPath)
    (fun error_ =>
       if includes (message error_) "not found" then throw error_
       else throw (Error NOT_FOUND)).

Definition runGlabAuthLogin (options : Options) : M bool :=
  let logger := createDefaultLogger options.(verbose) in
  let args := buildGlabAuthLoginArgs (loginOptions options) in
  logger.(debug) ("Running: glab " ++ join " " args) ;;;
  try_catch
    (result <- run ("glab" :: args) (Mirror options.(stdin)) ;;
     if negb (isZero result.(code)) then
       logger.(error) "GitLab CLI authentication failed" ;;;
       ret false
     else
       logger.(log) (NL ++ "GitLab CLI authentication successful!") ;;;
       ret true)
    (fun error_ =>
       logger.(error) ("GitLab CLI authentication failed: " ++ message error_) ;;;
       ret false).

(** The inner [try] around the read of the existing helper either
    leaves the function with [true] (first component) or falls through
    to the set-up. *)
Definition runGlabAuthSetupGit (options : Options) : M bool :=
  let hostname := orDefault default_hostname options.(hostname) in
  let force := options.(force) in
  let logger := createDefaultLogger options.(verbose) in
  logger.(debug) "Configuring git credential helper for GitLab CLI..." ;;;
  try_catch
    (glabPath <- getGlabPath options ;;
     let credentialUrl := "https://" ++ hostname in
     let credentialHelper := "!" ++ glabPath ++ " auth git-credential" in
     configured <-
       try_catch
         (existingResult <- run
             ["git"; "config"; "--global"; "--get";
              "credential." ++ credentialUrl ++ ".helper"] Capture ;;
          if isZero existingResult.(code) && truthy existingResult.(stdout)
             && negb force then
            logger.(debug) ("Existing credential helper found for " ++ hostname ++ ": "
                            ++ trim existingResult.(stdout)) ;;;
            logger.(log) ("Git credential helper already configured for " ++ hostname
                          ++ ". Use force: true to overwrite.") ;;;
            ret true
          else ret false)
         (fun _ => ret false) ;;
     if (configured : bool) then ret true
     else
       logger.(debug) ("Clearing existing credential helpers for " ++ credentialUrl ++ "...") ;;;
       try_catch
         (_ <- run ["git"; "config"; "--global";
                    "credential." ++ credentialUrl ++ ".helper"; ""] Capture ;;
          ret tt)
         (fun _ => ret tt) ;;;
       logger.(debug) ("Setting credential helper: " ++ credentialHelper) ;;;
       result <- run
           ["git"; "config"; "--global"; "--add";
            "credential." ++ credentialUrl ++ ".helper"; credentialHelper] Capture ;;
       if negb (isZero result.(code)) then
         logger.(error) ("Failed to set git credential helper: " ++ result.(stderr)) ;;;
         ret false
       else
         logger.(log) ("Git credential helper configured for " ++ hostname) ;;;
         logger.(debug) ("  URL: " ++ credentialUrl) ;;;
         logger.(debug) ("  Helper: " ++ credentialHelper) ;;;
         ret true)
    (fun error_ =>
       logger.(error) ("Failed to setup git credential helper: " ++ message error_) ;;;
       ret false).

Definition isGlabAuthenticated (options : Options) : M bool :=
  let logger := createDefaultLogger options.(verbose) in
  logger.(debug) "Checking GitLab CLI authentication status..." ;;;
  let args := ["auth"; "status"] in
  let args := pushIf (given options.(hostname))
                ["--hostname"; orDefault "" options.(hostname)] args in
  try_catch
    (result <- run ("glab" :: args) Capture ;;
     if negb (isZero result.(code)) then
       logger.(debug) ("GitLab CLI is not authenticated: " ++ result.(stderr)) ;;;
       ret false
     else
       logger.(debug) "GitLab CLI is authenticated" ;;;
       ret true)
    (fun error_ =>
       logger.(debug) ("GitLab CLI is not authenticated: " ++ message error_) ;;;
       ret false).

(** [glab api user], then [JSON.parse(result.stdout.trim())] under its
    [try]; shared by the three fetch operations, which differ in the
    text of the first error only. *)
Definition fetchUserData (what : string) (options : Options) : M JsValue :=
  let args := ["api"; "user"] in
  let args := pushIf (given options.(hostname))
                ["--hostname"; orDefault "" options.(hostname)] args in
  result <- run ("glab" :: args) Capture ;;
  if negb (isZero result.(code)) then
    throw (Error ("Failed to get GitLab " ++ what ++ ": " ++ result.(stderr)))
  else
    match JSON_parse (trim result.(stdout)) with
    | inl userData => ret userData
    | inr parseError_message =>
        throw (Error ("Failed to parse GitLab user data: " ++ parseError_message
                      ++ ". Raw output: " ++ result.(stdout)))
    end.

Definition getGitLabUsername (options : Options) : M JsValue :=
  let logger := createDefaultLogger options.(verbose) in
  logger.(debug) "Getting GitLab username..." ;;;
  userData <- fetchUserData "username" options ;;
  username <- lift (getProperty userData "username") ;;
  if negb (toBoolean username) then throw (Error NO_USERNAME)
  else
    logger.(debug) ("GitLab username: " ++ toString username) ;;;
    ret username.

Definition getGitLabEmail (options : Options) : M JsValue :=
  let logger := createDefaultLogger options.(verbose) in
  logger.(debug) "Getting GitLab primary email..." ;;;
  userData <- fetchUserData "email" options ;;
  email <- lift (getProperty userData "email") ;;
  if negb (toBoolean email) then throw (Error NO_EMAIL)
  else
    logger.(debug) ("GitLab primary email: " ++ toString email) ;;;
    ret email.

Definition getGitLabUserInfo (options : Options) : M (Identity JsValue) :=
  let logger := createDefaultLogger options.(verbose) in
  logger.(debug) "Getting GitLab user information..." ;;;
  userData <- fetchUserData "user info" options ;;
  username <- lift (getProperty userData "username") ;;
  email <- lift (getProperty userData "email") ;;
  if negb (toBoolean username) then throw (Error NO_USERNAME)
  else if negb (toBoolean email) then throw (Error NO_EMAIL)
  else
    logger.(debug) ("GitLab username: " ++ toString username) ;;;
    logger.(debug) ("GitLab primary email: " ++ toString email) ;;;
    ret {| username := username; email := email |}.

Definition setGitConfig (key value : string) (options : Options) : M unit :=
  let scope := orDefault "global" options.(scope) in
  let logger := createDefaultLogger options.(verbose) in
  let scopeFlag := scopeFlag scope in
  logger.(debug) ("Setting git config " ++ key ++ " = " ++ value ++ " (" ++ scope ++ ")") ;;;
  result <- run ["git"; "config"; scopeFlag; key; value] Capture ;;
  if negb (isZero result.(code)) then
    throw (Error ("Failed to set git config " ++ key ++ ": " ++ result.(stderr)))
  else
    logger.(debug) ("Successfully set git config " ++ key).

(** [None] is [null]. *)
Definition getGitConfig (key : string) (options : Options) : M (option string) :=
  let scope := orDefault "global" options.(scope) in
  let logger := createDefaultLogger options.(verbose) in
  let scopeFlag := scopeFlag scope in
  logger.(debug) ("Getting git config " ++ key ++ " (" ++ scope ++ ")") ;;;
  result <- run ["git"; "config"; scopeFlag; key] Capture ;;
  if negb (isZero result.(code)) then
    logger.(debug) ("Git config " ++ key ++ " not set") ;;;
    ret None
  else
    let value := trim result.(stdout) in
    logger.(debug) ("Git config " ++ key ++ " = " ++ value) ;;;
    ret (Some value).

(** The fetched values reach the command line and the log as texts. *)
Definition setupGitIdentity (options : Options) : M (Identity JsValue) :=
  let scope := orDefault "global" options.(scope) in
  let logger := createDefaultLogger options.(verbose) in
  logger.(log) (NL ++ "Fetching GitLab user information...") ;;;
  info <- getGitLabUserInfo (fetchOptions options) ;;
  let username := info.(username) in
  let email := info.(email) in
  logger.(log) ("  GitLab user: " ++ toString username) ;;;
  logger.(log) ("  GitLab email: " ++ toString email) ;;;
  if options.(dryRun) then
    logger.(log) "DRY MODE: Would configure the following:" ;;;
    logger.(log) ("  git config --" ++ scope ++ " user.name " ++ quoted (toString username)) ;;;
    logger.(log) ("  git config --" ++ scope ++ " user.email " ++ quoted (toString email)) ;;;
    ret {| username := username; email := email |}
  else
    logger.(log) (NL ++ "Configuring git (" ++ scope ++ ")...") ;;;
    setGitConfig "user.name" (toString username) (configOptions options) ;;;
    setGitConfig "user.email" (toString email) (configOptions options) ;;;
    logger.(log) "  Git identity configured successfully!" ;;;
    ret {| username := username; email := email |}.

Definition verifyGitIdentity (options : Options) : M (Identity (option string)) :=
  username <- getGitConfig "user.name" (configOptions options) ;;
  email <- getGitConfig "user.email" (configOptions options) ;;
  ret {| username := username; email := email |}.

End WithRuntime.
End CommandStream.

(** ** A simulated machine

    One concrete runtime, used to run the operations on explicit inputs:
    a [PATH] lookup, a glab that is logged in or not and prints the user
    record of one account, and the two git configuration files as ordered
    lists of lines.  [faults] forces the outcome of chosen command lines. *)

Module Machine.

Record State : Type := {
  glabPaths : list string;                 (* what the lookup prints, a line each *)
  loggedIn : bool;
  apiUser : string;                        (* the body [glab api user] prints *)
  globalConfig : list (string * string);   (* key, value, in file order *)
  localConfig : list (string * string);
  faults : list (list string * Outcome);
  firstFirst : bool
}.

Fixpoint argvEqb (a b : list string) : bool :=
  match a, b with
  | [], [] => true
  | x :: a', y :: b' => String.eqb x y && argvEqb a' b'
  | _, _ => false
  end.

Fixpoint fault (fs : list (list string * Outcome)) (words : list string) : option Outcome :=
  match fs with
  | [] => None
  | (ws, o) :: rest => if argvEqb ws words then Some o else fault rest words
  end.

(** *** JSON texts of flat records *)

Definition DQUOTE : ascii := ascii_of_nat 34.
Definition BACKSLASH : ascii := ascii_of_nat 92.

(** The characters of a string literal up to its closing quote (escape
    sequences are not read), and the rest of the text. *)
Fixpoint readString (s : string) : option (string * string) :=
  match s with
  | EmptyString => None
  | String c r =>
      if Ascii.eqb c DQUOTE then Some (EmptyString, r)
      else if Ascii.eqb c BACKSLASH then None
      else match readString r with
           | Some (x, rest) => Some (String c x, rest)
           | None => None
           end
  end.

Definition readValue (s : string) : option (JsValue * string) :=
  match s with
  | String c r =>
      if Ascii.eqb c DQUOTE then
        match readString r with
        | Some (x, rest) => Some (JString x, rest)
        | None => None
        end
      else if String.prefix "null" s then Some (JNull, substring 4 (String.length s - 4) s)
      else if String.prefix "true" s then Some (JBool true, substring 4 (String.length s - 4) s)
      else if String.prefix "false" s then Some (JBool false, substring 5 (String.length s - 5) s)
      else None
  | EmptyString => None
  end.

(** The members after an opening brace or a comma. *)
Fixpoint readMembers (fuel : nat) (s : string) : option (list (string * JsValue)) :=
  match fuel with
  | O => None
  | S fuel' =>
      match trimStart s with
      | String q r =>
          if Ascii.eqb q DQUOTE then
            match readString r with
            | Some (key, afterKey) =>
                match trimStart afterKey with
                | String colon afterColon =>
                    if Ascii.eqb colon ":" then
                      match readValue (trimStart afterColon) with
                      | Some (v, afterValue) =>
                          match trimStart afterValue with
                          | String sep rest =>
                              if Ascii.eqb sep "}" then
                                match trimStart rest with
                                | EmptyString => Some [(key, v)]
                                | _ => None
                                end
                              else if Ascii.eqb sep "," then
                                match readMembers fuel' rest with
                                | Some ms => Some ((key, v) :: ms)
                                | None => None
                                end
                              else None
                          | EmptyString => None
                          end
                      | None => None
                      end
                    else None
                | EmptyString => None
                end
            | None => None
            end
          else None
      | EmptyString => None
      end
  end.

(** [JSON.parse] on the texts the simulated glab can print: an object
    whose members are strings without escapes, [null], [true] or
    [false]. *)
Definition parse (s : string) : JsValue + string :=
  match trimStart s with
  | String c r =>
      if Ascii.eqb c "{" then
        match trimStart r with
        | String c' r' =>
            if Ascii.eqb c' "}" then
              match trimStart r' with
              | EmptyString => inl (JObject [])
              | _ => inr "Unexpected non-whitespace character after JSON"
              end
            else
              match readMembers (String.length s) r with
              | Some ms => inl (JObject ms)
              | None => inr "Expected property name or '}' in JSON"
              end
        | EmptyString => inr "Unexpected end of JSON input"
        end
      else inr ("Unexpected token '" ++ String c EmptyString ++ "', is not valid JSON")
  | EmptyString => inr "Unexpected end of JSON input"
  end.

(** *** git config *)

Fixpoint values (key : string) (file : list (string * string)) : list string :=
  match file with
  | [] => []
  | (k, v) :: rest => if String.eqb k key then v :: values key rest else values key rest
  end.

Fixpoint replace (key value : string) (file : list (string * string))
    : list (string * string) :=
  match file with
  | [] => []
  | (k, v) :: rest =>
      if String.eqb k key then (k, value) :: rest else (k, v) :: replace key value rest
  end.

(** Reading a key prints its last value; a key without value exits 1. *)
Definition gitGet (file : list (string * string)) (key : string) : Outcome :=
  match rev (values key file) with
  | [] => Exited (Some 1%Z) "" ""
  | v :: _ => Exited (Some 0%Z) (v ++ NL) ""
  end.

(** Setting a key replaces its only value or appends one; a key with
    several values is refused with exit code 5. *)
Definition gitSet (file : list (string * string)) (key value : string)
    : Outcome * list (string * string) :=
  match values key file with
  | [] => (Exited (Some 0%Z) "" "", (file ++ [(key, value)])%list)
  | [_] => (Exited (Some 0%Z) "" "", replace key value file)
  | _ =>
      (Exited (Some 5%Z) ""
         ("warning: " ++ key ++ " has multiple values" ++ NL
          ++ "error: cannot overwrite multiple values with a single value" ++ NL),
       file)
  end.

Definition withGlobal (st : State) (file : list (string * string)) : State :=
  {| glabPaths := st.(glabPaths); loggedIn := st.(loggedIn); apiUser := st.(apiUser);
     globalConfig := file; localConfig := st.(localConfig);
     faults := st.(faults); firstFirst := st.(firstFirst) |}.

Definition withLocal (st : State) (file : list (string * string)) : State :=
  {| glabPaths := st.(glabPaths); loggedIn := st.(loggedIn); apiUser := st.(apiUser);
     globalConfig := st.(globalConfig); localConfig := file;
     faults := st.(faults); firstFirst := st.(firstFirst) |}.

Definition withLogin (st : State) : State :=
  {| glabPaths := st.(glabPaths); loggedIn := true; apiUser := st.(apiUser);
     globalConfig := st.(globalConfig); localConfig := st.(localConfig);
     faults := st.(faults); firstFirst := st.(firstFirst) |}.

Definition file (st : State) (flag : string) : list (string * string) :=
  if String.eqb flag "--local" then st.(localConfig) else st.(globalConfig).

Definition withFile (st : State) (flag : string) (f : list (string * string)) : State :=
  if String.eqb flag "--local" then withLocal st f else withGlobal st f.

Definition usage : Outcome := Exited (Some 129%Z) "" "usage: git config [<options>]".

Definition git (st : State) (args : list string) : Outcome * State :=
  match args with
  | [c; flag; key] =>
      if String.eqb c "config" then (gitGet (file st flag) key, st) else (usage, st)
  | [c; flag; a; b] =>
      if negb (String.eqb c "config") then (usage, st)
      else if String.eqb a "--get" then (gitGet (file st flag) b, st)
      else let (o, f) := gitSet (file st flag) a b in (o, withFile st flag f)
  | [c; flag; a; key; value] =>
      if String.eqb c "config" && String.eqb a "--add" then
        (Exited (Some 0%Z) "" "", withFile st flag (file st flag ++ [(key, value)])%list)
      else (usage, st)
  | _ => (usage, st)
  end.

(** *** glab *)

Definition notLoggedIn : Outcome :=
  Exited (Some 1%Z) "" ("glab: 401 Unauthorized (HTTP 401)" ++ NL).

(** What [--jq .field] prints for the record. *)
Definition jq (field : string) (body : string) : Outcome :=
  match parse body with
  | inl record =>
      match getProperty record field with
      | Returned (JString s) => Exited (Some 0%Z) (s ++ NL) ""
      | Returned v => Exited (Some 0%Z) (toString v ++ NL) ""
      | Thrown _ => Exited (Some 1%Z) "" "jq error"
      end
  | inr _ => Exited (Some 1%Z) "" "jq error"
  end.

Definition glab (st : State) (args : list string) : Outcome * State :=
  match args with
  | a :: b :: rest =>
      if String.eqb a "auth" && String.eqb b "status" then
        (if st.(loggedIn) then Exited (Some 0%Z) "" "Logged in" else notLoggedIn, st)
      else if String.eqb a "auth" && String.eqb b "login" then
        (Exited (Some 0%Z) "" "", withLogin st)
      else if String.eqb a "api" && String.eqb b "user" then
        if negb st.(loggedIn) then (notLoggedIn, st)
        else
          match rest with
          | flag :: filter :: _ =>
              if String.eqb flag "--jq" then
                (jq (substring 1 (String.length filter - 1) filter) st.(apiUser), st)
              else (Exited (Some 0%Z) (st.(apiUser) ++ NL) "", st)
          | _ => (Exited (Some 0%Z) (st.(apiUser) ++ NL) "", st)
          end
      else (Exited (Some 1%Z) "" "unknown command", st)
  | _ => (Exited (Some 1%Z) "" "unknown command", st)
  end.

Definition lookup (st : State) : Outcome :=
  match st.(glabPaths) with
  | [] => Exited (Some 1%Z) "" ""
  | paths => Exited (Some 0%Z) (join NL paths ++ NL) ""
  end.

Definition step (st : State) (i : Invocation) : Outcome * State :=
  match fault st.(faults) i.(argv) with
  | Some o => (o, st)
  | None =>
      match i.(argv) with
      | prog :: args =>
          if String.eqb prog "which" then
            match args with
            | [name] => if String.eqb name "glab" then (lookup st, st)
                        else (Exited (Some 1%Z) "" "", st)
            | _ => (Exited (Some 1%Z) "" "", st)
            end
          else if String.eqb prog "git" then git st args
          else if String.eqb prog "glab" then
            match st.(glabPaths) with
            | [] => (Failed "spawn glab ENOENT" "", st)
            | _ => glab st args
            end
          else (Failed ("spawn " ++ prog ++ " ENOENT") "", st)
      | [] => (Failed "spawn ENOENT" "", st)
      end
  end.

#[global] Instance linux : Runtime State :=
  {| platform := "linux";
     os_run := step;
     JSON_parse := parse;
     first_settles_first := firstFirst |}.

(** The JSON text of a user record. *)
Definition record (username email : string) : string :=
  "{" ++ quoted "username" ++ ":" ++ quoted username ++ ","
      ++ quoted "email" ++ ":" ++ quoted email ++ "}".

(** A workstation with glab installed and logged in as [ada], and no git
    identity or credential helper configured. *)
Definition ada : State :=
  {| glabPaths := ["/usr/bin/glab"];
     loggedIn := true;
     apiUser := record "ada" "ada@example.com";
     globalConfig := [];
     localConfig := [];
     faults := [];
     firstFirst := true |}.

(** The same workstation without glab on the [PATH]. *)
Definition bare : State :=
  {| glabPaths := [];
     loggedIn := false;
     apiUser := "";
     globalConfig := [];
     localConfig := [];
     faults := [];
     firstFirst := true |}.

(** An account whose record carries an empty username. *)
Definition nameless : State :=
  {| glabPaths := ["/usr/bin/glab"];
     loggedIn := true;
     apiUser := record "" "ada@example.com";
     globalConfig := [];
     localConfig := [];
     faults := [];
     firstFirst := true |}.

(** A gateway that answers [glab api user] with a page of HTML. *)
Definition garbled : State :=
  {| glabPaths := ["/usr/bin/glab"];
     loggedIn := true;
     apiUser := "<html>502 Bad Gateway</html>";
     globalConfig := [];
     localConfig := [];
     faults := [];
     firstFirst := true |}.

(** A global configuration file that cannot be locked for writing
    [user.name]. *)
Definition locked : State :=
  {| glabPaths := ["/usr/bin/glab"];
     loggedIn := true;
     apiUser := record "ada" "ada@example.com";
     globalConfig := [("user.name", "Old Name"); ("user.email", "old@example.com")];
     localConfig := [];
     faults := [(["git"; "config"; "--global"; "user.name"; "ada"],
                 Exited (Some 255%Z) "" "error: could not lock config file")];
     firstFirst := true |}.

(** A name configured globally and no email. *)
Definition halfConfigured : State :=
  {| glabPaths := ["/usr/bin/glab"];
     loggedIn := true;
     apiUser := record "ada" "ada@example.com";
     globalConfig := [("user.name", "Ada Lovelace")];
     localConfig := [];
     faults := [];
     firstFirst := true |}.

(** Two installations of glab on the [PATH]. *)
Definition twoGlabs : State :=
  {| glabPaths := ["/usr/local/bin/glab"; "/usr/bin/glab"];
     loggedIn := true;
     apiUser := record "ada" "ada@example.com";
     globalConfig := [];
     localConfig := [];
     faults := [];
     firstFirst := true |}.

End Machine.

(** ** The command-line front end

    The CLI script: it parses the command line into [config] (the parsing
    itself, by yargs, is outside this model), then drives the
    [command-stream] variant of the library.  [process.exit(n)] ends the
    run; [main] returns the exit code.  [console.log] and [console.error]
    are recorded as log lines; where the script prints an object or a
    stack trace, whose text is the runtime's, the line records the label
    or the message only. *)

Module Cli.

(** [config], the parsed command line with the defaults applied. *)
Record Config : Type := {
  global : bool;
  local : bool;
  verbose : bool;
  dryRun : bool;
  verify : bool;
  hostname : string;
  token : option string;
  stdin : bool;
  gitProtocol : string;
  apiProtocol : string;
  apiHost : option string;
  useKeyring : bool;
  jobToken : option string
}.

(** The validation given to [.check]. *)
Definition check (argv : Config) : Completion bool :=
  if argv.(global) && argv.(local) then
    Thrown (Error "Arguments global and local are mutually exclusive")
  else if given argv.(token) && argv.(stdin) then
    Thrown (Error "Arguments token and stdin are mutually exclusive")
  else if given argv.(token) && given argv.(jobToken) then
    Thrown (Error "Arguments token and job-token are mutually exclusive")
  else Returned true.

(** [getAuthOptions] *)
Definition getAuthOptions (config : Config) : Options :=
  Build_Options (Some config.(hostname)) config.(token) (Some config.(gitProtocol))
    (Some config.(apiProtocol)) config.(apiHost) (Some config.(useKeyring))
    config.(jobToken) config.(stdin) false None false config.(verbose).

(** [{ hostname: config.hostname, verbose: config.verbose }] *)
Definition hostOptions (config : Config) : Options :=
  Build_Options (Some config.(hostname)) None None None None None None false false None
    false config.(verbose).

(** [{ scope, verbose }] *)
Definition scopeOptions (scope : string) (verbose : bool) : Options :=
  Build_Options None None None None None None None false false (Some scope) false verbose.

(** [{ hostname: config.hostname, scope, dryRun: config.dryRun, verbose:
    config.verbose }] *)
Definition setupOptions (config : Config) (scope : string) : Options :=
  Build_Options (Some config.(hostname)) None None None None None None false false
    (Some scope) config.(dryRun) config.(verbose).

(** [if (x)] on a value that is a string or [null]. *)
Definition isSet (value : option string) : bool :=
  match value with Some s => truthy s | None => false end.

Section WithRuntime.
Context {W : Type} `{RT : Runtime W}.

Definition console_log (line : string) : @M W unit := emit LogLevel line.
Definition console_error (line : string) : @M W unit := emit ErrorLevel line.

Definition runVerify (scope : string) (verbose : bool) : M unit :=
  let scopeFlag := scopeFlag scope in
  console_log "Verifying git identity configuration..." ;;;
  console_log "" ;;;
  console_log "1. GitLab CLI authentication status:" ;;;
  console_log "   $ glab auth status" ;;;
  console_log "" ;;;
  try_catch
    (_ <- CommandStream.run ["glab"; "auth"; "status"] (Mirror false) ;; ret tt)
    (fun _ => ret tt) ;;;
  console_log "" ;;;
  console_log ("2. Git user.name (" ++ scope ++ "):") ;;;
  console_log ("   $ git config " ++ scopeFlag ++ " user.name") ;;;
  identity <- CommandStream.verifyGitIdentity (scopeOptions scope verbose) ;;
  (if isSet identity.(username) then
     console_log ("   " ++ orDefault "" identity.(username))
   else console_log "   (not set)") ;;;
  console_log "" ;;;
  console_log ("3. Git user.email (" ++ scope ++ "):") ;;;
  console_log ("   $ git config " ++ scopeFlag ++ " user.email") ;;;
  (if isSet identity.(email) then
     console_log ("   " ++ orDefault "" identity.(email))
   else console_log "   (not set)") ;;;
  console_log "" ;;;
  console_log "Verification complete!".

Definition handleAlreadyAuthenticated (config : Config) : M bool :=
  setupGitSuccess <- CommandStream.runGlabAuthSetupGit (hostOptions config) ;;
  (if negb setupGitSuccess && config.(verbose) then
     console_log "Note: Git credential helper may not be configured. Consider running:" ;;;
     console_log "  Configure manually or use --force option to overwrite existing config"
   else ret tt) ;;;
  ret true.

Definition printHeadlessAuthInstructions (config : Config) : M unit :=
  console_log "" ;;;
  console_log "=== Authentication in Docker/Server Environments ===" ;;;
  console_log "" ;;;
  console_log "If you see a browser URL but cannot open it, follow these steps:" ;;;
  console_log "" ;;;
  console_log "1. Copy the authorization URL displayed above" ;;;
  console_log "2. Open it in your local browser and complete the OAuth flow" ;;;
  console_log
    "3. You will be redirected to: http://localhost:7171/auth/redirect?code=...&state=..." ;;;
  console_log "4. Use curl to send that redirect URL back to glab:" ;;;
  console_log "" ;;;
  console_log
    ("   curl -L "
     ++ quoted "http://localhost:7171/auth/redirect?code=YOUR_CODE&state=YOUR_STATE") ;;;
  console_log "" ;;;
  console_log "Alternatively, use token-based authentication:" ;;;
  console_log "" ;;;
  console_log "1. Generate a Personal Access Token at:" ;;;
  console_log ("   https://" ++ config.(hostname) ++ "/-/profile/personal_access_tokens") ;;;
  console_log "   Required scopes: api, write_repository" ;;;
  console_log "" ;;;
  console_log "2. Re-run with your token:" ;;;
  console_log "   glab-setup-git-identity --token YOUR_TOKEN" ;;;
  console_log "" ;;;
  console_log "================================================".

Definition handleNotAuthenticated (config : Config) : M bool :=
  console_log "GitLab CLI is not authenticated. Starting authentication..." ;;;
  console_log "" ;;;
  printHeadlessAuthInstructions config ;;;
  console_log "" ;;;
  loginSuccess <- CommandStream.runGlabAuthLogin (getAuthOptions config) ;;
  if negb loginSuccess then
    console_log "" ;;;
    console_log "Authentication failed. Please try one of the following:" ;;;
    console_log "" ;;;
    console_log "Option 1: Interactive login" ;;;
    console_log "  glab auth login" ;;;
    console_log "" ;;;
    console_log "Option 2: Token-based login (recommended for headless)" ;;;
    console_log ("  glab auth login --hostname " ++ config.(hostname) ++ " --token YOUR_TOKEN") ;;;
    console_log "" ;;;
    console_log "Option 3: Use this tool with a token" ;;;
    console_log "  glab-setup-git-identity --token YOUR_TOKEN" ;;;
    ret false
  else
    setupGitSuccess <- CommandStream.runGlabAuthSetupGit (hostOptions config) ;;
    (if negb setupGitSuccess then
       console_log "" ;;;
       console_log
         "Warning: Failed to setup git credential helper. HTTPS git operations may require manual authentication."
     else ret tt) ;;;
    ret true.

Definition ensureAuthenticated (config : Config) : M bool :=
  authenticated <- CommandStream.isGlabAuthenticated (hostOptions config) ;;
  if authenticated then handleAlreadyAuthenticated config
  else handleNotAuthenticated config.

Definition displayResults (result : Identity JsValue) (scope : string) (dryRun : bool)
    : M unit :=
  console_log "" ;;;
  console_log ("  " ++ (if dryRun then "[DRY MODE] Would configure" else "Git configured")
               ++ ":") ;;;
  console_log ("    user.name:  " ++ toString result.(username)) ;;;
  console_log ("    user.email: " ++ toString result.(email)) ;;;
  console_log ("  Scope: " ++ if String.eqb scope "global" then "global (--global)"
                              else "local (--local)") ;;;
  if negb dryRun then
    console_log "" ;;;
    console_log "Git identity setup complete!" ;;;
    console_log "" ;;;
    console_log "You can verify your configuration with:" ;;;
    console_log "  glab auth status" ;;;
    console_log ("  git config " ++ (if String.eqb scope "global" then "--global" else "--local")
                 ++ " user.name") ;;;
    console_log ("  git config " ++ (if String.eqb scope "global" then "--global" else "--local")
                 ++ " user.email")
  else ret tt.

(** [main]; the value returned is the exit code of the process. *)
Definition main (config : Config) : M Z :=
  try_catch
    (let scope := if config.(local) then "local" else "global" in
     if config.(verify) then
       runVerify scope config.(verbose) ;;;
       ret 0%Z
     else
       authSuccess <- ensureAuthenticated config ;;
       if negb authSuccess then ret 1%Z
       else
         let options := setupOptions config scope in
         (if config.(verbose) then console_log "Options:" else ret tt) ;;;
         (if config.(dryRun) then
            console_log "" ;;;
            console_log "DRY MODE - No actual changes will be made"
          else ret tt) ;;;
         result <- CommandStream.setupGitIdentity options ;;
         displayResults result scope config.(dryRun) ;;;
         ret 0%Z)
    (fun error_ =>
       console_error "" ;;;
       console_error ("Error: " ++ message error_) ;;;
       (if config.(verbose) then
          console_error "Stack trace:" ;;;
          console_error (message error_)
        else ret tt) ;;;
       ret 1%Z).

End WithRuntime.

(** The command line [glab-setup-git-identity] with nothing given. *)
Definition defaults : Config :=
  {| global := false; local := false; verbose := false; dryRun := false;
     verify := false; hostname := "gitlab.com"; token := None; stdin := false;
     gitProtocol := "https"; apiProtocol := "https"; apiHost := None;
     useKeyring := false; jobToken := None |}.

(** [--dry-run] *)
Definition dry : Config :=
  {| global := false; local := false; verbose := false; dryRun := true;
     verify := false; hostname := "gitlab.com"; token := None; stdin := false;
     gitProtocol := "https"; apiProtocol := "https"; apiHost := None;
     useKeyring := false; jobToken := None |}.

(** [--verify] *)
Definition verifying : Config :=
  {| global := false; local := false; verbose := false; dryRun := false;
     verify := true; hostname := "gitlab.com"; token := None; stdin := false;
     gitProtocol := "https"; apiProtocol := "https"; apiHost := None;
     useKeyring := false; jobToken := None |}.

(** [--token glpat-123] *)
Definition withToken : Config :=
  {| global := false; local := false; verbose := false; dryRun := false;
     verify := false; hostname := "gitlab.com"; token := Some "glpat-123"; stdin := false;
     gitProtocol := "https"; apiProtocol := "https"; apiHost := None;
     useKeyring := false; jobToken := None |}.

(** [--stdin --job-token ci-job-456] *)
Definition stdinAndJobToken : Config :=
  {| global := false; local := false; verbose := false; dryRun := false;
     verify := false; hostname := "gitlab.com"; token := None; stdin := true;
     gitProtocol := "https"; apiProtocol := "https"; apiHost := None;
     useKeyring := false; jobToken := Some "ci-job-456" |}.

End Cli.

(** ** Observations of a run *)

(** The processes an operation ran, from a run of it. *)
Definition cmds {W A : Type} (x : Completion A * W * list Event)
    : list (Invocation * Outcome) :=
  execs (trace x).

(** An operation that only writes to the log. *)
Definition silent {W : Type} (m : @M W unit) : Prop :=
  forall w, result (m w) = Returned tt /\ final (m w) = w /\ cmds (m w) = [].

(** Two operations that no caller can tell apart: the same completion
    and the same machine afterwards, from every state. *)
Definition same {W A : Type} (m m' : @M W A) : Prop :=
  forall w, result (m w) = result (m' w) /\ final (m w) = final (m' w).

(** ** The command lines of the operations *)

(** [which glab] / [where glab], output captured. *)
Definition lookup {W} `{Runtime W} : Invocation :=
  {| argv := [lookupCommand; "glab"]; stdio := Capture |}.

Definition git (words : list string) : Invocation :=
  {| argv := "git" :: words; stdio := Capture |}.

(** [credential.<url>.helper] for the URL [https://<hostname>]. *)
Definition credentialKey (hostname : string) : string :=
  "credential." ++ ("https://" ++ hostname) ++ ".helper".

Definition readHelper (hostname : string) : Invocation :=
  git ["config"; "--global"; "--get"; credentialKey hostname].

Definition clearHelper (hostname : string) : Invocation :=
  git ["config"; "--global"; credentialKey hostname; ""].

Definition addHelper (hostname glabPath : string) : Invocation :=
  git ["config"; "--global"; "--add"; credentialKey hostname;
       "!" ++ glabPath ++ " auth git-credential"].

Definition readConfig (scope key : string) : Invocation :=
  git ["config"; scopeFlag scope; key].

Definition writeConfig (scope key value : string) : Invocation :=
  git ["config"; scopeFlag scope; key; value].

(** [--hostname <h>] when a hostname is given. *)
Definition hostFlag (hostname : option string) : list string :=
  match hostname with
  | Some h => if truthy h then ["--hostname"; h] else []
  | None => []
  end.

(** [glab api user [--hostname <h>]], output captured. *)
Definition apiUser (hostname : option string) : Invocation :=
  {| argv := "glab" :: "api" :: "user" :: hostFlag hostname; stdio := Capture |}.

(** [glab api user --jq <filter> [--hostname <h>]], output captured. *)
Definition apiUserField (filter : string) (hostname : option string) : Invocation :=
  {| argv := "glab" :: "api" :: "user" :: "--jq" :: filter :: hostFlag hostname;
     stdio := Capture |}.

(** The program of a command line. *)
Definition program (i : Invocation) : string := hd "" i.(argv).

(** The last of the processes run. *)
Definition lastCmd (l : list (Invocation * Outcome)) : option (Invocation * Outcome) :=
  last (map Some l) None.

(** *** Outcomes as the two variants read them *)

(** [exitCode === 0] on what [execCommand] resolved with (a child ended
    by a signal counts). *)
Definition exitedZero (o : Outcome) : bool :=
  Z.eqb (ChildProcess.exitCode (ChildProcess.resolved o)) 0.

(** The child exited with zero and printed something, as [execCommand]
    reports it: a lookup that found glab, a read that found a value. *)
Definition answeredExec (o : Outcome) : bool :=
  exitedZero o && truthy (ChildProcess.stdout (ChildProcess.resolved o)).

(** [result.code === 0] on a resolved run of the template tag; a rejected
    run is no success. *)
Definition ranZero (o : Outcome) : bool :=
  match o with
  | Exited code _ _ => CommandStream.isZero code
  | Failed _ _ => false
  end.

(** The run resolved with code zero and some output. *)
Definition answeredRun (o : Outcome) : bool :=
  match o with
  | Exited code out _ => CommandStream.isZero code && truthy out
  | Failed _ _ => false
  end.

(** The text a captured run printed. *)
Definition printed (o : Outcome) : string :=
  match o with Exited _ out _ => out | Failed _ out => out end.

(** The message of the error [CommandStream.getGlabPath] throws when the
    lookup did not find glab: a rejection that says [not found] is thrown
    again as it is. *)
Definition lookupError (o : Outcome) : string :=
  match o with
  | Failed msg _ => if includes msg "not found" then msg else NOT_FOUND
  | Exited _ _ _ => NOT_FOUND
  end.

(** The error of a write of [key] that did not succeed. *)
Definition writeError (key : string) (o : Outcome) : JsError :=
  match o with
  | Failed msg _ => Error msg
  | Exited _ _ err => Error ("Failed to set git config " ++ key ++ ": " ++ err)
  end.

(** What a read of the configuration yields once the child has exited. *)
Definition valueRead (o : Outcome) : option string :=
  match o with
  | Exited code out _ => if CommandStream.isZero code then Some (trim out) else None
  | Failed _ _ => None
  end.

(** The message of the error for a user record that does not parse. *)
Definition parseFailure (parserMessage raw : string) : string :=
  "Failed to parse GitLab user data: " ++ parserMessage ++ ". Raw output: " ++ raw.

(** *** The login flags, after the description of [glab auth login] *)

(** A named flag with its value, when the value is present. *)
Definition named (flag : string) (value : option string) : list string :=
  match value with
  | Some v => if truthy v then [flag; v] else []
  | None => []
  end.

(** [auth login] followed by the named flags for hostname, git protocol,
    API protocol, API host and keyring, each when present. *)
Definition namedFlags (options : Options) : list string :=
  (["auth"; "login"]
   ++ named "--hostname" options.(hostname)
   ++ named "--git-protocol" options.(gitProtocol)
   ++ named "--api-protocol" options.(apiProtocol)
   ++ named "--api-host" options.(apiHost)
   ++ (if orDefault false options.(useKeyring) then ["--use-keyring"] else []))%list.

(** *** A runtime without signals *)

(** A child ended by a signal, reported as one that exited with zero. *)
Definition unsignalled (o : Outcome) : Outcome :=
  match o with
  | Exited None out err => Exited (Some 0%Z) out err
  | _ => o
  end.

Definition withoutSignals {W : Type} (RT : Runtime W) : Runtime W :=
  {| platform := @platform W RT;
     os_run := fun w i => (unsignalled (fst (@os_run W RT w i)), snd (@os_run W RT w i));
     JSON_parse := @JSON_parse W RT;
     first_settles_first := @first_settles_first W RT |}.

(** ** Inputs used in the examples *)

(** [{ token: 'glpat-123' }] *)
Definition tokenOptions : Options :=
  {| hostname := None; token := Some "glpat-123"; gitProtocol := None;
     apiProtocol := None; apiHost := None; useKeyring := None; jobToken := None;
     stdin := false; force := false; scope := None; dryRun := false;
     verbose := false |}.

(** [{ scope: 'local' }] *)
Definition localScope : Options :=
  {| hostname := None; token := None; gitProtocol := None;
     apiProtocol := None; apiHost := None; useKeyring := None; jobToken := None;
     stdin := false; force := false; scope := Some "local"; dryRun := false;
     verbose := false |}.

(** [{ dryRun: true }] *)
Definition dryOptions : Options :=
  {| hostname := None; token := None; gitProtocol := None;
     apiProtocol := None; apiHost := None; useKeyring := None; jobToken := None;
     stdin := false; force := false; scope := None; dryRun := true;
     verbose := false |}.

(** [{ token: 'glpat-123', jobToken: 'ci-job-456', stdin: true }] *)
Definition everyMethod : Options :=
  {| hostname := None; token := Some "glpat-123"; gitProtocol := None;
     apiProtocol := None; apiHost := None; useKeyring := None;
     jobToken := Some "ci-job-456";
     stdin := true; force := false; scope := None; dryRun := false;
     verbose := false |}.

(** The user record of [Machine.nameless] as [JSON.parse] gives it. *)
Definition namelessRecord : JsValue :=
  JObject [("username", JString ""); ("email", JString "ada@example.com")].

(** The workstation [Machine.ada] after one [runGlabAuthSetupGit()]. *)
Definition afterSetup : Machine.State :=
  final (CommandStream.runGlabAuthSetupGit noOptions Machine.ada).

(** What [verifyGitIdentity()] reports on a state of the simulated
    machine. *)
Definition reported (st : Machine.State) : Completion (Identity (option string)) :=
  result (CommandStream.verifyGitIdentity noOptions st).

(** ** Further command lines and inputs *)

(** [glab auth status [--hostname <h>]], output captured. *)
Definition authStatus (hostname : option string) : Invocation :=
  {| argv := "glab" :: "auth" :: "status" :: hostFlag hostname; stdio := Capture |}.

(** The run of [glab auth login] by the [command-stream] variant: output
    mirrored, standard input inherited when [stdin] is set. *)
Definition loginRun (options : Options) : Invocation :=
  {| argv := "glab" :: CommandStream.buildGlabAuthLoginArgs (CommandStream.loginOptions options);
     stdio := Mirror options.(stdin) |}.


(** The options with [verbose] replaced. *)
Definition withVerbose (v : bool) (options : Options) : Options :=
  {| hostname := options.(hostname); token := options.(token);
     gitProtocol := options.(gitProtocol); apiProtocol := options.(apiProtocol);
     apiHost := options.(apiHost); useKeyring := options.(useKeyring);
     jobToken := options.(jobToken); stdin := options.(stdin);
     force := options.(force); scope := options.(scope);
     dryRun := options.(dryRun); verbose := v |}.

(** Two operations that differ in what they log at most: the same
    completion, the same machine afterwards and the same processes run,
    from every state. *)
Definition alike {W A : Type} (m m' : @M W A) : Prop :=
  forall w, result (m w) = result (m' w) /\ final (m w) = final (m' w)
            /\ cmds (m w) = cmds (m' w).

(** [{ force: true }] *)
Definition forceOptions : Options :=
  {| hostname := None; token := None; gitProtocol := None;
     apiProtocol := None; apiHost := None; useKeyring := None; jobToken := None;
     stdin := false; force := true; scope := None; dryRun := false;
     verbose := false |}.

(** [{ scope: 'system' }] *)
Definition systemScope : Options :=
  {| hostname := None; token := None; gitProtocol := None;
     apiProtocol := None; apiHost := None; useKeyring := None; jobToken := None;
     stdin := false; force := false; scope := Some "system"; dryRun := false;
     verbose := false |}.

(** The workstation with an empty helper left for [https://gitlab.com]. *)
Definition blankHelper : Machine.State :=
  {| Machine.glabPaths := ["/usr/bin/glab"];
     Machine.loggedIn := true;
     Machine.apiUser := Machine.record "ada" "ada@example.com";
     Machine.globalConfig := [(credentialKey "gitlab.com", "")];
     Machine.localConfig := [];
     Machine.faults := [];
     Machine.firstFirst := true |}.

(** The workstation with glab logged out. *)
Definition loggedOut : Machine.State :=
  {| Machine.glabPaths := ["/usr/bin/glab"];
     Machine.loggedIn := false;
     Machine.apiUser := Machine.record "ada" "ada@example.com";
     Machine.globalConfig := [];
     Machine.localConfig := [];
     Machine.faults := [];
     Machine.firstFirst := true |}.

(** What a read of the configuration yields in the [child_process]
    variant, from how the child ended. *)
Definition valueExec (o : Outcome) : option string :=
  if exitedZero o then Some (ChildProcess.stdout (ChildProcess.resolved o)) else None.

(** ** Command lines of the front end *)

(** [glab auth status], output mirrored, as [runVerify] shows it. *)
Definition shownStatus : Invocation :=
  {| argv := ["glab"; "auth"; "status"]; stdio := Mirror false |}.

(** A write of [user.name] or [user.email]: [git config <flag> <key>
    <value>] for one of the two keys. *)
Definition writesIdentity (i : Invocation) : bool :=
  match i.(argv) with
  | [g; c; _; key; _] =>
      String.eqb g "git" && String.eqb c "config"
      && (String.eqb key "user.name" || String.eqb key "user.email")
  | _ => false
  end.

(** The scope the front end derives from [--local]. *)
Definition cliScope (config : Cli.Config) : string :=
  if Cli.local config then "local" else "global".

(** The lines logged at debug level, in order. *)
Definition debugLines (t : list Event) : list string :=
  flat_map (fun e => match e with Log DebugLevel line => [line] | _ => [] end) t.

(** * Properties *)

Lemma execs_app (t1 t2 : list Event) : execs (t1 ++ t2) = (execs t1 ++ execs t2)%list.
Proof.
  induction t1 as [|[i o|l m] t1 IH]; simpl; [reflexivity| |assumption].
  now rewrite IH.
Qed.

(** The flag [setGitConfig] and [getGitConfig] pass for a scope option:
    [--local] for ['local'], [--global] for anything else and for none. *)
Lemma scopeFlag_cases (scope : option string) :
  scopeFlag (orDefault "global" scope)
  = match scope with
    | Some "local" => "--local"
    | _ => "--global"
    end.
Proof.
  destruct scope as [s|]; [|reflexivity]. cbn [orDefault]. unfold scopeFlag.
  destruct (String.eqb_spec s "local") as [->|N]; [reflexivity|].
  repeat (destruct s as [|[[] [] [] [] [] [] [] []] s]; try reflexivity).
  congruence.
Qed.

Lemma cliScope_flag (config : Cli.Config) :
  scopeFlag (cliScope config) = if Cli.local config then "--local" else "--global".
Proof. unfold cliScope. now destruct (Cli.local config). Qed.

(** Reads the spelled-out [git config] command lines of a statement as the
    reads and writes of the run lemmas. *)
Ltac fold_config :=
  rewrite <- ?scopeFlag_cases, <- ?cliScope_flag;
  repeat match goal with
  | |- context [{| argv := ["git"; "config"; scopeFlag ?s; ?k; ?v]; stdio := Capture |}] =>
      change {| argv := ["git"; "config"; scopeFlag s; k; v]; stdio := Capture |}
        with (writeConfig s k v)
  | |- context [{| argv := ["git"; "config"; scopeFlag ?s; ?k]; stdio := Capture |}] =>
      change {| argv := ["git"; "config"; scopeFlag s; k]; stdio := Capture |}
        with (readConfig s k)
  end.

(** ** Strings *)

Lemma prefix_refl_app (n b : string) : String.prefix n (n ++ b) = true.
Proof.
  induction n as [|c n IH]; simpl.
  - now destruct b.
  - destruct (ascii_dec c c) as [_|ne]; [exact IH|now destruct ne].
Qed.

Lemma includes_here (n b : string) : includes (n ++ b) n = true.
Proof.
  destruct n as [|c n]; [now destruct b|].
  change (includes (String c n ++ b) (String c n))
    with (String.prefix (String c n) (String c n ++ b)
          || includes (n ++ b) (String c n)).
  now rewrite prefix_refl_app.
Qed.

Lemma includes_app (a n b : string) : includes (a ++ n ++ b) n = true.
Proof.
  induction a as [|c a IH].
  - exact (includes_here n b).
  - change (includes (String c a ++ n ++ b) n)
      with (String.prefix n (String c (a ++ n ++ b)) || includes (a ++ n ++ b) n).
    rewrite IH. apply orb_true_r.
Qed.

Lemma includes_end (a n : string) : includes (a ++ n) n = true.
Proof.
  assert (E : n = n ++ "") by (induction n; simpl; congruence).
  rewrite E at 1. apply includes_app.
Qed.

Lemma append_assoc (a b c : string) : (a ++ b) ++ c = a ++ b ++ c.
Proof. induction a as [|x a IH]; simpl; congruence. Qed.

Lemma truthy_false (s : string) : truthy s = false <-> s = "".
Proof. destruct s; simpl; split; congruence. Qed.

Lemma truthy_true (s : string) : truthy s = true <-> s <> "".
Proof. destruct s; simpl; split; congruence. Qed.

(** ** Runs of the combinators *)

Section Runs.
Context {W : Type} `{RT : Runtime W}.
Implicit Types w : W.

Lemma result_bind {A B} (m : M A) (k : A -> M B) w :
  result (bind m k w)
  = match result (m w) with
    | Returned a => result (k a (final (m w)))
    | Thrown e => Thrown e
    end.
Proof.
  unfold result, final, bind.
  destruct (m w) as [[[a|e] w1] t1]; simpl; [|reflexivity].
  now destruct (k a w1) as [[r w2] t2].
Qed.

Lemma final_bind {A B} (m : M A) (k : A -> M B) w :
  final (bind m k w)
  = match result (m w) with
    | Returned a => final (k a (final (m w)))
    | Thrown e => final (m w)
    end.
Proof.
  unfold result, final, bind.
  destruct (m w) as [[[a|e] w1] t1]; simpl; [|reflexivity].
  now destruct (k a w1) as [[r w2] t2].
Qed.

Lemma cmds_bind {A B} (m : M A) (k : A -> M B) w :
  cmds (bind m k w)
  = (cmds (m w) ++ match result (m w) with
                   | Returned a => cmds (k a (final (m w)))
                   | Thrown e => []
                   end)%list.
Proof.
  unfold cmds, trace, result, final, bind.
  destruct (m w) as [[[a|e] w1] t1]; simpl; [|now rewrite app_nil_r].
  destruct (k a w1) as [[r w2] t2]; simpl. apply execs_app.
Qed.

Lemma result_try_catch {A} (m : M A) (h : JsError -> M A) w :
  result (try_catch m h w)
  = match result (m w) with
    | Returned a => Returned a
    | Thrown e => result (h e (final (m w)))
    end.
Proof.
  unfold result, final, try_catch.
  destruct (m w) as [[[a|e] w1] t1]; simpl; [reflexivity|].
  now destruct (h e w1) as [[r w2] t2].
Qed.

Lemma final_try_catch {A} (m : M A) (h : JsError -> M A) w :
  final (try_catch m h w)
  = match result (m w) with
    | Returned a => final (m w)
    | Thrown e => final (h e (final (m w)))
    end.
Proof.
  unfold result, final, try_catch.
  destruct (m w) as [[[a|e] w1] t1]; simpl; [reflexivity|].
  now destruct (h e w1) as [[r w2] t2].
Qed.

Lemma cmds_try_catch {A} (m : M A) (h : JsError -> M A) w :
  cmds (try_catch m h w)
  = (cmds (m w) ++ match result (m w) with
                   | Returned a => []
                   | Thrown e => cmds (h e (final (m w)))
                   end)%list.
Proof.
  unfold cmds, trace, result, final, try_catch.
  destruct (m w) as [[[a|e] w1] t1]; simpl; [now rewrite app_nil_r|].
  destruct (h e w1) as [[r w2] t2]; simpl. apply execs_app.
Qed.

Lemma silent_emit (l : Level) (line : string) : silent (emit (W := W) l line).
Proof. intro w. now cbv. Qed.

Lemma silent_log (v : bool) (line : string) : silent ((createDefaultLogger (W := W) v).(log) line).
Proof. apply silent_emit. Qed.

Lemma silent_error (v : bool) (line : string) : silent ((createDefaultLogger (W := W) v).(error) line).
Proof. apply silent_emit. Qed.

Lemma silent_warn (v : bool) (line : string) : silent ((createDefaultLogger (W := W) v).(warn) line).
Proof. apply silent_emit. Qed.

Lemma silent_debug (v : bool) (line : string) : silent ((createDefaultLogger (W := W) v).(debug) line).
Proof. destruct v; intro w; now cbv. Qed.

Lemma result_seq {B} (m : M unit) (k : M B) w :
  silent m -> result (bind m (fun _ => k) w) = result (k w).
Proof. intro S. rewrite result_bind. destruct (S w) as (-> & -> & _). reflexivity. Qed.

Lemma final_seq {B} (m : M unit) (k : M B) w :
  silent m -> final (bind m (fun _ => k) w) = final (k w).
Proof. intro S. rewrite final_bind. destruct (S w) as (-> & -> & _). reflexivity. Qed.

Lemma cmds_seq {B} (m : M unit) (k : M B) w :
  silent m -> cmds (bind m (fun _ => k) w) = cmds (k w).
Proof. intro S. rewrite cmds_bind. destruct (S w) as (-> & -> & ->). reflexivity. Qed.

Lemma result_ret {A} (a : A) w : result (ret a w) = Returned a.
Proof. reflexivity. Qed.

Lemma final_ret {A} (a : A) w : final (ret a w) = w.
Proof. reflexivity. Qed.

Lemma cmds_ret {A} (a : A) w : cmds (ret a w) = [].
Proof. reflexivity. Qed.

Lemma result_throw {A} (e : JsError) w : result (throw (A := A) e w) = Thrown e.
Proof. reflexivity. Qed.

Lemma final_throw {A} (e : JsError) w : final (throw (A := A) e w) = w.
Proof. reflexivity. Qed.

Lemma cmds_throw {A} (e : JsError) w : cmds (throw (A := A) e w) = [].
Proof. reflexivity. Qed.

Lemma result_lift {A} (c : Completion A) w : result (lift c w) = c.
Proof. reflexivity. Qed.

Lemma final_lift {A} (c : Completion A) w : final (lift c w) = w.
Proof. reflexivity. Qed.

Lemma cmds_lift {A} (c : Completion A) w : cmds (lift c w) = [].
Proof. reflexivity. Qed.

Lemma result_run_process (i : Invocation) w :
  result (run_process i w) = Returned (fst (os_run w i)).
Proof. reflexivity. Qed.

Lemma final_run_process (i : Invocation) w :
  final (run_process i w) = snd (os_run w i).
Proof. reflexivity. Qed.

Lemma cmds_run_process (i : Invocation) w :
  cmds (run_process i w) = [(i, fst (os_run w i))].
Proof. reflexivity. Qed.

End Runs.

Create HintDb silent.
Create Rewrite HintDb run.

#[export] Hint Resolve silent_emit silent_log silent_error silent_warn silent_debug : silent.

#[export] Hint Rewrite
  @result_ret @final_ret @cmds_ret @result_throw @final_throw @cmds_throw
  @result_lift @final_lift @cmds_lift
  @result_run_process @final_run_process @cmds_run_process : run.

(** Peels the log lines and the sequencing off a run. *)
Ltac run_steps :=
  repeat first
    [ rewrite result_seq by auto with silent
    | rewrite final_seq by auto with silent
    | rewrite cmds_seq by auto with silent
    | rewrite result_bind
    | rewrite final_bind
    | rewrite cmds_bind
    | rewrite result_try_catch
    | rewrite final_try_catch
    | rewrite cmds_try_catch
    | progress autorewrite with run
    | progress cbv beta iota ].

Lemma pushIf_hostFlag (h : option string) (base : list string) :
  pushIf (given h) ["--hostname"; orDefault "" h] base = (base ++ hostFlag h)%list.
Proof.
  unfold pushIf, given, hostFlag.
  destruct h as [s|]; [destruct (truthy s)|]; simpl; now rewrite ?app_nil_r.
Qed.

Lemma last_snoc {A} (l : list A) (x d : A) : last (l ++ [x]) d = x.
Proof. apply last_last. Qed.

(** ** The [node:child_process] variant, operation by operation *)

Section ChildProcessRuns.
Import ChildProcess.
Context {W : Type} `{RT : Runtime W}.
Implicit Types w : W.

Lemma result_execCommand c a w :
  result (execCommand c a w) = Returned (resolved (fst (os_run w (captured c a)))).
Proof. reflexivity. Qed.

Lemma final_execCommand c a w :
  final (execCommand c a w) = snd (os_run w (captured c a)).
Proof. reflexivity. Qed.

Lemma cmds_execCommand c a w :
  cmds (execCommand c a w) = [(captured c a, fst (os_run w (captured c a)))].
Proof. reflexivity. Qed.

Lemma result_execInteractiveCommand c a input w :
  result (execInteractiveCommand c a input w)
  = Returned (exitCode (resolved (fst (os_run w (interactive c a input))))).
Proof.
  unfold execInteractiveCommand. run_steps.
  destruct (fst (os_run w (interactive c a input))); run_steps; reflexivity.
Qed.

Lemma final_execInteractiveCommand c a input w :
  final (execInteractiveCommand c a input w) = snd (os_run w (interactive c a input)).
Proof.
  unfold execInteractiveCommand. run_steps.
  destruct (fst (os_run w (interactive c a input))); run_steps; reflexivity.
Qed.

Lemma cmds_execInteractiveCommand c a input w :
  cmds (execInteractiveCommand c a input w)
  = [(interactive c a input, fst (os_run w (interactive c a input)))].
Proof.
  unfold execInteractiveCommand. run_steps.
  destruct (fst (os_run w (interactive c a input))); run_steps; reflexivity.
Qed.

Lemma result_Promise_all2 {A B} (p : M A) (q : M B) w :
  result (Promise_all2 p q w)
  = match result (p w), result (q (final (p w))) with
    | Returned a, Returned b => Returned (a, b)
    | Thrown e, Returned _ => Thrown e
    | Returned _, Thrown e => Thrown e
    | Thrown e1, Thrown e2 => Thrown (if first_settles_first w then e1 else e2)
    end.
Proof.
  unfold Promise_all2, result, final.
  destruct (p w) as [[ra w1] t1]; simpl. now destruct (q w1) as [[rb w2] t2].
Qed.

Lemma final_Promise_all2 {A B} (p : M A) (q : M B) w :
  final (Promise_all2 p q w) = final (q (final (p w))).
Proof.
  unfold Promise_all2, result, final.
  destruct (p w) as [[ra w1] t1]; simpl. now destruct (q w1) as [[rb w2] t2].
Qed.

Lemma cmds_Promise_all2 {A B} (p : M A) (q : M B) w :
  cmds (Promise_all2 p q w) = (cmds (p w) ++ cmds (q (final (p w))))%list.
Proof.
  unfold Promise_all2, cmds, trace, final.
  destruct (p w) as [[ra w1] t1]; simpl. destruct (q w1) as [[rb w2] t2]; simpl.
  apply execs_app.
Qed.

End ChildProcessRuns.

#[export] Hint Rewrite
  @result_execCommand @final_execCommand @cmds_execCommand
  @result_execInteractiveCommand @final_execInteractiveCommand
  @cmds_execInteractiveCommand
  @result_Promise_all2 @final_Promise_all2 @cmds_Promise_all2 : run.

Section ChildProcessOperations.
Import ChildProcess.
Context {W : Type} `{RT : Runtime W}.
Implicit Types w : W.

Lemma getGlabPath_run options w :
  result (getGlabPath options w)
  = (if answeredExec (fst (os_run w lookup))
     then Returned (trim (firstLine (stdout (resolved (fst (os_run w lookup))))))
     else Thrown (Error NOT_FOUND))
  /\ final (getGlabPath options w) = snd (os_run w lookup)
  /\ cmds (getGlabPath options w) = [(lookup, fst (os_run w lookup))].
Proof.
  unfold getGlabPath, answeredExec, exitedZero. cbv zeta. run_steps.
  change (captured lookupCommand ["glab"]) with lookup.
  destruct (exitCode _ =? 0)%Z, (truthy _); cbn [negb orb andb]; run_steps;
    repeat split.
Qed.

Lemma getGitLabUsername_run options w :
  let i := apiUserField ".username" options.(hostname) in
  let r := resolved (fst (os_run w i)) in
  result (getGitLabUsername options w)
  = (if Z.eqb r.(exitCode) 0 then Returned r.(stdout)
     else Thrown (Error ("Failed to get GitLab username: " ++ r.(stderr))))
  /\ final (getGitLabUsername options w) = snd (os_run w i)
  /\ cmds (getGitLabUsername options w) = [(i, fst (os_run w i))].
Proof.
  unfold getGitLabUsername. cbv zeta. rewrite pushIf_hostFlag. run_steps.
  change (captured "glab" (["api"; "user"; "--jq"; ".username"] ++ hostFlag (hostname options)))
    with (apiUserField ".username" (hostname options)).
  destruct (exitCode _ =? 0)%Z; cbn [negb]; run_steps; repeat split.
Qed.

Lemma getGitLabEmail_run options w :
  let i := apiUserField ".email" options.(hostname) in
  let r := resolved (fst (os_run w i)) in
  result (getGitLabEmail options w)
  = (if Z.eqb r.(exitCode) 0 then
       if truthy r.(stdout) then Returned r.(stdout) else Thrown (Error NO_EMAIL)
     else Thrown (Error ("Failed to get GitLab email: " ++ r.(stderr))))
  /\ final (getGitLabEmail options w) = snd (os_run w i)
  /\ cmds (getGitLabEmail options w) = [(i, fst (os_run w i))].
Proof.
  unfold getGitLabEmail. cbv zeta. rewrite pushIf_hostFlag. run_steps.
  change (captured "glab" (["api"; "user"; "--jq"; ".email"] ++ hostFlag (hostname options)))
    with (apiUserField ".email" (hostname options)).
  destruct (exitCode _ =? 0)%Z; cbn [negb]; run_steps; [|repeat split].
  destruct (truthy _); cbn [negb]; run_steps; repeat split.
Qed.

Lemma getGitLabUserInfo_frame options w :
  let i := apiUserField ".username" options.(hostname) in
  let j := apiUserField ".email" options.(hostname) in
  final (getGitLabUserInfo options w) = snd (os_run (snd (os_run w i)) j)
  /\ cmds (getGitLabUserInfo options w)
     = [(i, fst (os_run w i)); (j, fst (os_run (snd (os_run w i)) j))].
Proof.
  cbv zeta. unfold getGitLabUserInfo.
  destruct (getGitLabUsername_run options w) as (_ & Fu & Cu).
  cbv zeta in Fu, Cu.
  destruct (getGitLabEmail_run options (snd (os_run w (apiUserField ".username" (hostname options)))))
    as (_ & Fe & Ce).
  cbv zeta in Fe, Ce.
  split.
  - rewrite final_bind, final_Promise_all2, Fu, Fe.
    now destruct (result (Promise_all2 _ _ w)).
  - rewrite cmds_bind, cmds_Promise_all2, Cu, Fu, Ce.
    now destruct (result (Promise_all2 _ _ w)).
Qed.

End ChildProcessOperations.

Section ChildProcessSetupGit.
Import ChildProcess.
Context {W : Type} `{RT : Runtime W}.
Variables (options : Options) (w : W).

Let host := orDefault default_hostname options.(hostname).
Let o_lookup := fst (os_run w lookup).
Let w1 := snd (os_run w lookup).
Let path := trim (firstLine (stdout (resolved o_lookup))).
Let o_read := fst (os_run w1 (readHelper host)).
Let w2 := snd (os_run w1 (readHelper host)).
Let o_clear := fst (os_run w2 (clearHelper host)).
Let w3 := snd (os_run w2 (clearHelper host)).
Let o_add := fst (os_run w3 (addHelper host path)).
Let w4 := snd (os_run w3 (addHelper host path)).
Let kept := answeredExec o_read && negb options.(force).

(** The whole of a run of [runGlabAuthSetupGit]: nothing after a failed
    lookup; the lookup and the read when a helper is kept; else the
    lookup, the read, the clearing write and the add. *)
Lemma runGlabAuthSetupGit_run :
  result (runGlabAuthSetupGit options w)
  = Returned (answeredExec o_lookup && (kept || exitedZero o_add))
  /\ final (runGlabAuthSetupGit options w)
     = (if answeredExec o_lookup then if kept then w2 else w4 else w1)
  /\ cmds (runGlabAuthSetupGit options w)
     = (if answeredExec o_lookup then
          if kept then [(lookup, o_lookup); (readHelper host, o_read)]
          else [(lookup, o_lookup); (readHelper host, o_read);
                (clearHelper host, o_clear); (addHelper host path, o_add)]
        else [(lookup, o_lookup)]).
Proof.
  unfold runGlabAuthSetupGit. cbv zeta. run_steps.
  destruct (getGlabPath_run options w) as (-> & -> & ->).
  fold o_lookup w1. destruct (answeredExec o_lookup); run_steps; [|repeat split].
  fold path host.
  change (captured "git" ["config"; "--global"; "--get";
                          "credential." ++ ("https://" ++ host) ++ ".helper"])
    with (readHelper host).
  fold o_read w2.
  change (_ && _ && negb (force options)) with kept.
  destruct kept; run_steps; [repeat split|].
  change (captured "git" ["config"; "--global";
                          "credential." ++ ("https://" ++ host) ++ ".helper"; ""])
    with (clearHelper host).
  fold o_clear w3.
  change (captured "git" ["config"; "--global"; "--add";
                          "credential." ++ ("https://" ++ host) ++ ".helper";
                          "!" ++ path ++ " auth git-credential"])
    with (addHelper host path).
  fold o_add w4. change (exitCode (resolved o_add) =? 0)%Z with (exitedZero o_add).
  destruct (exitedZero o_add); cbn [negb]; run_steps; repeat split.
Qed.

End ChildProcessSetupGit.

Section ChildProcessIdentity.
Import ChildProcess.
Context {W : Type} `{RT : Runtime W}.
Implicit Types w : W.

(** A dry run is the fetch and nothing else. *)
Lemma setupGitIdentity_dry options w :
  options.(dryRun) = true ->
  result (setupGitIdentity options w) = result (getGitLabUserInfo (fetchOptions options) w)
  /\ final (setupGitIdentity options w) = final (getGitLabUserInfo (fetchOptions options) w)
  /\ cmds (setupGitIdentity options w) = cmds (getGitLabUserInfo (fetchOptions options) w).
Proof.
  intro D. unfold setupGitIdentity. cbv zeta. rewrite D. run_steps.
  destruct (result (getGitLabUserInfo (fetchOptions options) w)) as [[u e]|err];
    run_steps; rewrite ?app_nil_r; repeat split.
Qed.

Lemma getGitConfig_run key options w :
  let i := readConfig (orDefault "global" options.(scope)) key in
  let r := resolved (fst (os_run w i)) in
  result (getGitConfig key options w)
  = Returned (if Z.eqb r.(exitCode) 0 then Some r.(stdout) else None)
  /\ final (getGitConfig key options w) = snd (os_run w i)
  /\ cmds (getGitConfig key options w) = [(i, fst (os_run w i))].
Proof.
  unfold getGitConfig. cbv zeta. run_steps.
  change (captured "git" ["config"; scopeFlag (orDefault "global" (scope options)); key])
    with (readConfig (orDefault "global" (scope options)) key).
  destruct (exitCode _ =? 0)%Z; cbn [negb]; run_steps; repeat split.
Qed.

End ChildProcessIdentity.

(** ** The [command-stream] variant, operation by operation *)

Section CommandStreamRuns.
Import CommandStream.
Context {W : Type} `{RT : Runtime W}.
Implicit Types w : W.

Lemma result_run words io w :
  result (run words io w) = settled (fst (os_run w {| argv := words; stdio := io |})).
Proof. unfold run. run_steps. reflexivity. Qed.

Lemma final_run words io w :
  final (run words io w) = snd (os_run w {| argv := words; stdio := io |}).
Proof. unfold run. run_steps. reflexivity. Qed.

Lemma cmds_run words io w :
  cmds (run words io w)
  = [({| argv := words; stdio := io |}, fst (os_run w {| argv := words; stdio := io |}))].
Proof. unfold run. run_steps. reflexivity. Qed.

End CommandStreamRuns.

#[export] Hint Rewrite @result_run @final_run @cmds_run : run.

Lemma includes_NOT_FOUND : includes NOT_FOUND "not found" = true.
Proof. vm_compute. reflexivity. Qed.

Lemma NOT_FOUND_names_the_url : includes NOT_FOUND INSTALL_URL = true.
Proof. vm_compute. reflexivity. Qed.

Section CommandStreamOperations.
Import CommandStream.
Context {W : Type} `{RT : Runtime W}.
Implicit Types w : W.

Lemma getGlabPath_stream_run options w :
  result (getGlabPath options w)
  = (if answeredRun (fst (os_run w lookup))
     then Returned (trim (firstLine (printed (fst (os_run w lookup)))))
     else Thrown (Error (lookupError (fst (os_run w lookup)))))
  /\ final (getGlabPath options w) = snd (os_run w lookup)
  /\ cmds (getGlabPath options w) = [(lookup, fst (os_run w lookup))].
Proof.
  unfold getGlabPath. cbv zeta. run_steps.
  change {| argv := [lookupCommand; "glab"]; stdio := Capture |} with lookup.
  destruct (fst (os_run w lookup)) as [code out err|msg out]; cbn [settled answeredRun printed lookupError];
    run_steps.
  - cbn [CommandStream.code CommandStream.stdout].
    destruct (isZero code), (truthy out); cbn [negb orb andb]; run_steps;
      cbn [message]; rewrite ?includes_NOT_FOUND; run_steps; repeat split.
  - cbn [message]. destruct (includes msg "not found"); run_steps; repeat split.
Qed.

Lemma fetchUserData_run what options w :
  let i := apiUser options.(hostname) in
  result (fetchUserData what options w)
  = match fst (os_run w i) with
    | Failed msg _ => Thrown (Error msg)
    | Exited code out err =>
        if isZero code then
          match JSON_parse (trim out) with
          | inl userData => Returned userData
          | inr parserMessage => Thrown (Error (parseFailure parserMessage out))
          end
        else Thrown (Error ("Failed to get GitLab " ++ what ++ ": " ++ err))
    end
  /\ final (fetchUserData what options w) = snd (os_run w i)
  /\ cmds (fetchUserData what options w) = [(i, fst (os_run w i))].
Proof.
  unfold fetchUserData. cbv zeta. rewrite pushIf_hostFlag. run_steps.
  change {| argv := "glab" :: ["api"; "user"] ++ hostFlag (hostname options); stdio := Capture |}
    with (apiUser (hostname options)).
  destruct (fst (os_run w (apiUser (hostname options)))) as [code out err|msg out];
    cbn [settled]; run_steps; [|repeat split].
  cbn [CommandStream.code CommandStream.stdout CommandStream.stderr].
  destruct (isZero code); cbn [negb]; run_steps; [|repeat split].
  destruct (JSON_parse (trim out)); run_steps; repeat split.
Qed.

Lemma setGitConfig_run key value options w :
  let i := writeConfig (orDefault "global" options.(scope)) key value in
  result (setGitConfig key value options w)
  = (if ranZero (fst (os_run w i)) then Returned tt
     else Thrown (writeError key (fst (os_run w i))))
  /\ final (setGitConfig key value options w) = snd (os_run w i)
  /\ cmds (setGitConfig key value options w) = [(i, fst (os_run w i))].
Proof.
  unfold setGitConfig. cbv zeta. run_steps.
  change {| argv := ["git"; "config"; scopeFlag (orDefault "global" (scope options)); key; value];
            stdio := Capture |}
    with (writeConfig (orDefault "global" (scope options)) key value).
  destruct (fst (os_run w _)) as [code out err|msg out];
    cbn [settled ranZero writeError]; run_steps; [|repeat split].
  cbn [CommandStream.code CommandStream.stderr].
  destruct (isZero code); cbn [negb]; run_steps.
  - destruct (silent_debug (W := W) (verbose options) ("Successfully set git config " ++ key)
                (snd (os_run w (writeConfig (orDefault "global" (scope options)) key value))))
      as (-> & -> & ->).
    repeat split.
  - repeat split.
Qed.

Lemma getGitConfig_stream_run key options w :
  let i := readConfig (orDefault "global" options.(scope)) key in
  result (getGitConfig key options w)
  = match fst (os_run w i) with
    | Failed msg _ => Thrown (Error msg)
    | o => Returned (valueRead o)
    end
  /\ final (getGitConfig key options w) = snd (os_run w i)
  /\ cmds (getGitConfig key options w) = [(i, fst (os_run w i))].
Proof.
  unfold getGitConfig. cbv zeta. run_steps.
  change {| argv := ["git"; "config"; scopeFlag (orDefault "global" (scope options)); key];
            stdio := Capture |}
    with (readConfig (orDefault "global" (scope options)) key).
  destruct (fst (os_run w _)) as [code out err|msg out];
    cbn [settled valueRead]; run_steps; [|repeat split].
  cbn [CommandStream.code CommandStream.stdout].
  destruct (isZero code); cbn [negb]; run_steps; repeat split.
Qed.

End CommandStreamOperations.

Section CommandStreamSetupGit.
Import CommandStream.
Context {W : Type} `{RT : Runtime W}.
Variables (options : Options) (w : W).

Let host := orDefault default_hostname options.(hostname).
Let o_lookup := fst (os_run w lookup).
Let w1 := snd (os_run w lookup).
Let path := trim (firstLine (printed o_lookup)).
Let o_read := fst (os_run w1 (readHelper host)).
Let w2 := snd (os_run w1 (readHelper host)).
Let o_clear := fst (os_run w2 (clearHelper host)).
Let w3 := snd (os_run w2 (clearHelper host)).
Let o_add := fst (os_run w3 (addHelper host path)).
Let w4 := snd (os_run w3 (addHelper host path)).
Let kept := answeredRun o_read && negb options.(force).

(** The whole of a run of [runGlabAuthSetupGit], as in the other variant;
    a rejected read or clearing write is passed over, a rejected add is
    caught and reported as [false]. *)
Lemma runGlabAuthSetupGit_stream_run :
  result (runGlabAuthSetupGit options w)
  = Returned (answeredRun o_lookup && (kept || ranZero o_add))
  /\ final (runGlabAuthSetupGit options w)
     = (if answeredRun o_lookup then if kept then w2 else w4 else w1)
  /\ cmds (runGlabAuthSetupGit options w)
     = (if answeredRun o_lookup then
          if kept then [(lookup, o_lookup); (readHelper host, o_read)]
          else [(lookup, o_lookup); (readHelper host, o_read);
                (clearHelper host, o_clear); (addHelper host path, o_add)]
        else [(lookup, o_lookup)]).
Proof.
  unfold runGlabAuthSetupGit. cbv zeta. run_steps.
  destruct (getGlabPath_stream_run options w) as (-> & -> & ->).
  fold o_lookup w1. destruct (answeredRun o_lookup); run_steps; [|repeat split].
  fold path host.
  change {| argv := ["git"; "config"; "--global"; "--get";
                     "credential." ++ ("https://" ++ host) ++ ".helper"];
            stdio := Capture |}
    with (readHelper host).
  fold o_read w2.
  destruct o_read as [code out err|msg out] eqn:Eread; unfold kept;
    cbn [settled answeredRun andb]; run_steps;
    cbn [CommandStream.code CommandStream.stdout];
    try (destruct (isZero code && truthy out && negb (force options)); run_steps;
         [repeat split|]);
    change {| argv := ["git"; "config"; "--global";
                       "credential." ++ ("https://" ++ host) ++ ".helper"; ""];
              stdio := Capture |}
      with (clearHelper host);
    fold o_clear w3;
    (destruct o_clear as [c2 out2 err2|msg2 out2]; cbn [settled]; run_steps;
     change {| argv := ["git"; "config"; "--global"; "--add";
                        "credential." ++ ("https://" ++ host) ++ ".helper";
                        "!" ++ path ++ " auth git-credential"];
               stdio := Capture |}
       with (addHelper host path);
     fold o_add w4;
     (destruct o_add as [c3 out3 err3|msg3 out3]; cbn [settled ranZero]; run_steps;
      [cbn [CommandStream.code];
       destruct (isZero c3); cbn [negb]; run_steps; repeat split
      |repeat split])).
Qed.

End CommandStreamSetupGit.

Section CommandStreamIdentity.
Import CommandStream.
Context {W : Type} `{RT : Runtime W}.
Implicit Types w : W.

Lemma getGitLabUsername_stream_run options w :
  result (getGitLabUsername options w)
  = match result (fetchUserData "username" options w) with
    | Returned userData =>
        match getProperty userData "username" with
        | Returned username =>
            if toBoolean username then Returned username else Thrown (Error NO_USERNAME)
        | Thrown e => Thrown e
        end
    | Thrown e => Thrown e
    end
  /\ final (getGitLabUsername options w) = snd (os_run w (apiUser options.(hostname)))
  /\ cmds (getGitLabUsername options w)
     = [(apiUser options.(hostname), fst (os_run w (apiUser options.(hostname))))].
Proof.
  unfold getGitLabUsername. cbv zeta. run_steps.
  destruct (fetchUserData_run "username" options w) as (_ & -> & ->).
  destruct (result (fetchUserData "username" options w)) as [v|e]; [|repeat split].
  run_steps. destruct (getProperty v "username") as [u|e]; [|repeat split].
  destruct (toBoolean u); cbn [negb]; run_steps; repeat split.
Qed.

Lemma getGitLabEmail_stream_run options w :
  result (getGitLabEmail options w)
  = match result (fetchUserData "email" options w) with
    | Returned userData =>
        match getProperty userData "email" with
        | Returned email =>
            if toBoolean email then Returned email else Thrown (Error NO_EMAIL)
        | Thrown e => Thrown e
        end
    | Thrown e => Thrown e
    end
  /\ final (getGitLabEmail options w) = snd (os_run w (apiUser options.(hostname)))
  /\ cmds (getGitLabEmail options w)
     = [(apiUser options.(hostname), fst (os_run w (apiUser options.(hostname))))].
Proof.
  unfold getGitLabEmail. cbv zeta. run_steps.
  destruct (fetchUserData_run "email" options w) as (_ & -> & ->).
  destruct (result (fetchUserData "email" options w)) as [v|e]; [|repeat split].
  run_steps. destruct (getProperty v "email") as [u|e]; [|repeat split].
  destruct (toBoolean u); cbn [negb]; run_steps; repeat split.
Qed.

Lemma getGitLabUserInfo_stream_run options w :
  result (getGitLabUserInfo options w)
  = match result (fetchUserData "user info" options w) with
    | Returned userData =>
        match getProperty userData "username", getProperty userData "email" with
        | Returned username, Returned email =>
            if toBoolean username then
              if toBoolean email then Returned {| username := username; email := email |}
              else Thrown (Error NO_EMAIL)
            else Thrown (Error NO_USERNAME)
        | Thrown e, _ => Thrown e
        | Returned _, Thrown e => Thrown e
        end
    | Thrown e => Thrown e
    end
  /\ final (getGitLabUserInfo options w) = snd (os_run w (apiUser options.(hostname)))
  /\ cmds (getGitLabUserInfo options w)
     = [(apiUser options.(hostname), fst (os_run w (apiUser options.(hostname))))].
Proof.
  unfold getGitLabUserInfo. cbv zeta. run_steps.
  destruct (fetchUserData_run "user info" options w) as (_ & -> & ->).
  destruct (result (fetchUserData "user info" options w)) as [v|e]; [|repeat split].
  run_steps. destruct (getProperty v "username") as [u|e]; [|repeat split].
  run_steps. destruct (getProperty v "email") as [m|e]; [|repeat split].
  destruct (toBoolean u); cbn [negb]; run_steps; [|repeat split].
  destruct (toBoolean m); cbn [negb]; run_steps; repeat split.
Qed.

(** A dry run is the fetch and nothing else. *)
Lemma setupGitIdentity_stream_dry options w :
  options.(dryRun) = true ->
  result (setupGitIdentity options w) = result (getGitLabUserInfo (fetchOptions options) w)
  /\ final (setupGitIdentity options w) = final (getGitLabUserInfo (fetchOptions options) w)
  /\ cmds (setupGitIdentity options w) = cmds (getGitLabUserInfo (fetchOptions options) w).
Proof.
  intro D. unfold setupGitIdentity. cbv zeta. rewrite D. run_steps.
  destruct (result (getGitLabUserInfo (fetchOptions options) w)) as [[u e]|err];
    run_steps; rewrite ?app_nil_r; repeat split.
Qed.

(** A real run after a fetch that returned [info]: the write of
    [user.name], then, if it succeeded, the write of [user.email]. *)
Lemma setupGitIdentity_stream_apply options w info :
  options.(dryRun) = false ->
  result (getGitLabUserInfo (fetchOptions options) w) = Returned info ->
  let scope := orDefault "global" options.(scope) in
  let fetch := apiUser options.(hostname) in
  let name := writeConfig scope "user.name" (toString info.(username)) in
  let mail := writeConfig scope "user.email" (toString info.(email)) in
  let w1 := snd (os_run w fetch) in
  let o1 := fst (os_run w1 name) in
  let w2 := snd (os_run w1 name) in
  let o2 := fst (os_run w2 mail) in
  let w3 := snd (os_run w2 mail) in
  result (setupGitIdentity options w)
  = (if ranZero o1 then
       if ranZero o2 then Returned info else Thrown (writeError "user.email" o2)
     else Thrown (writeError "user.name" o1))
  /\ final (setupGitIdentity options w) = (if ranZero o1 then w3 else w2)
  /\ cmds (setupGitIdentity options w)
     = ((fetch, fst (os_run w fetch)) :: (name, o1)
        :: if ranZero o1 then [(mail, o2)] else [])%list.
Proof.
  intros D F. cbv zeta.
  destruct (getGitLabUserInfo_stream_run (fetchOptions options) w) as (_ & Ff & Cf).
  change (hostname (fetchOptions options)) with (hostname options) in Ff, Cf.
  unfold setupGitIdentity. cbv zeta. rewrite D. run_steps.
  rewrite F, Ff, Cf. run_steps.
  destruct (setGitConfig_run "user.name" (toString (username info)) (configOptions options)
              (snd (os_run w (apiUser (hostname options))))) as (-> & -> & ->).
  change (orDefault "global" (scope (configOptions options)))
    with (orDefault "global" (scope options)).
  destruct (ranZero (fst (os_run _ (writeConfig _ "user.name" _)))); run_steps;
    [|repeat split].
  destruct (setGitConfig_run "user.email" (toString (email info)) (configOptions options)
              (snd (os_run (snd (os_run w (apiUser (hostname options))))
                      (writeConfig (orDefault "global" (scope options)) "user.name"
                         (toString (username info)))))) as (-> & -> & ->).
  change (orDefault "global" (scope (configOptions options)))
    with (orDefault "global" (scope options)).
  destruct (ranZero (fst (os_run _ (writeConfig _ "user.email" _)))); run_steps;
    [|repeat split].
  destruct info as [u e]. repeat split.
Qed.

Lemma verifyGitIdentity_stream_run options w :
  let scope := orDefault "global" options.(scope) in
  let o1 := fst (os_run w (readConfig scope "user.name")) in
  let w1 := snd (os_run w (readConfig scope "user.name")) in
  let o2 := fst (os_run w1 (readConfig scope "user.email")) in
  result (verifyGitIdentity options w)
  = match o1, o2 with
    | Failed msg _, _ => Thrown (Error msg)
    | Exited _ _ _, Failed msg _ => Thrown (Error msg)
    | Exited _ _ _, Exited _ _ _ =>
        Returned {| username := valueRead o1; email := valueRead o2 |}
    end.
Proof.
  cbv zeta. unfold verifyGitIdentity. run_steps.
  destruct (getGitConfig_stream_run "user.name" (configOptions options) w) as (-> & -> & _).
  change (orDefault "global" (scope (configOptions options)))
    with (orDefault "global" (scope options)).
  destruct (fst (os_run w _)) as [c1 out1 err1|m1 out1]; [|reflexivity].
  run_steps.
  destruct (getGitConfig_stream_run "user.email" (configOptions options)
              (snd (os_run w (readConfig (orDefault "global" (scope options)) "user.name"))))
    as (-> & _ & _).
  change (orDefault "global" (scope (configOptions options)))
    with (orDefault "global" (scope options)).
  destruct (fst (os_run _ (readConfig _ "user.email"))) as [c2 out2 err2|m2 out2];
    reflexivity.
Qed.

End CommandStreamIdentity.

(** ** Operations that cannot be told apart *)

Section Same.
Context {W : Type}.

Lemma same_refl {A} (m : @M W A) : same m m.
Proof. intro w. split; reflexivity. Qed.

Lemma same_bind {A B} (m m' : @M W A) (k k' : A -> @M W B) :
  same m m' -> (forall a, same (k a) (k' a)) -> same (bind m k) (bind m' k').
Proof.
  intros Hm Hk w. rewrite !result_bind, !final_bind.
  destruct (Hm w) as [-> ->].
  destruct (result (m' w)) as [a|e]; [apply Hk|split; reflexivity].
Qed.

Lemma same_try_catch {A} (m m' : @M W A) (h h' : JsError -> @M W A) :
  same m m' -> (forall e, same (h e) (h' e)) -> same (try_catch m h) (try_catch m' h').
Proof.
  intros Hm Hh w. rewrite !result_try_catch, !final_try_catch.
  destruct (Hm w) as [-> ->].
  destruct (result (m' w)) as [a|e]; [split; reflexivity|apply Hh].
Qed.

End Same.

Section WithoutSignals.
Import ChildProcess.
Context {W : Type} (RT : Runtime W).

Lemma resolved_unsignalled (o : Outcome) : resolved (unsignalled o) = resolved o.
Proof. now destruct o as [[n|] out err|msg out]. Qed.

Lemma same_execCommand c a :
  same (@execCommand W RT c a) (@execCommand W (withoutSignals RT) c a).
Proof.
  intro w. rewrite !result_execCommand, !final_execCommand. cbn [os_run withoutSignals fst snd].
  now rewrite resolved_unsignalled.
Qed.

Lemma same_execInteractiveCommand c a input :
  same (@execInteractiveCommand W RT c a input)
       (@execInteractiveCommand W (withoutSignals RT) c a input).
Proof.
  intro w. rewrite !result_execInteractiveCommand, !final_execInteractiveCommand.
  cbn [os_run withoutSignals fst snd]. now rewrite resolved_unsignalled.
Qed.

Lemma same_Promise_all2 {A B} (p p' : @M W A) (q q' : @M W B) :
  same p p' -> same q q' ->
  same (@Promise_all2 W RT A B p q) (@Promise_all2 W (withoutSignals RT) A B p' q').
Proof.
  intros Hp Hq w. rewrite !result_Promise_all2, !final_Promise_all2.
  destruct (Hp w) as [-> ->].
  destruct (Hq (final (p' w))) as [-> ->].
  split; reflexivity.
Qed.

End WithoutSignals.

(** Walks two operations that differ in the runtime only, down to the
    subprocess calls. *)
Ltac same_steps :=
  repeat first
    [ apply same_refl
    | apply same_execCommand
    | apply same_execInteractiveCommand
    | solve [auto with same]
    | apply same_bind; [|intro]
    | apply same_try_catch; [|intro]
    | apply same_Promise_all2
    | match goal with
      | |- same (if ?c then _ else _) (if ?c then _ else _) => destruct c
      | |- same (match ?o with Exited _ _ _ => _ | Failed _ _ => _ end) _ => destruct o
      end ].

Create HintDb same.

Section WithoutSignalsOperations.
Import ChildProcess.
Context {W : Type} (RT : Runtime W).

Lemma same_getGlabPath options :
  same (@getGlabPath W RT options) (@getGlabPath W (withoutSignals RT) options).
Proof. unfold getGlabPath. cbv zeta. same_steps. Qed.

Lemma same_runGlabAuthLogin options :
  same (@runGlabAuthLogin W RT options) (@runGlabAuthLogin W (withoutSignals RT) options).
Proof. unfold runGlabAuthLogin. cbv zeta. same_steps. Qed.

Hint Resolve same_getGlabPath : same.

Lemma same_runGlabAuthSetupGit options :
  same (@runGlabAuthSetupGit W RT options)
       (@runGlabAuthSetupGit W (withoutSignals RT) options).
Proof. unfold runGlabAuthSetupGit. cbv zeta. same_steps. Qed.

Lemma same_isGlabAuthenticated options :
  same (@isGlabAuthenticated W RT options)
       (@isGlabAuthenticated W (withoutSignals RT) options).
Proof. unfold isGlabAuthenticated. cbv zeta. same_steps. Qed.

Lemma same_getGitLabUsername options :
  same (@getGitLabUsername W RT options) (@getGitLabUsername W (withoutSignals RT) options).
Proof. unfold getGitLabUsername. cbv zeta. same_steps. Qed.

Lemma same_getGitLabEmail options :
  same (@getGitLabEmail W RT options) (@getGitLabEmail W (withoutSignals RT) options).
Proof. unfold getGitLabEmail. cbv zeta. same_steps. Qed.

Hint Resolve same_getGitLabUsername same_getGitLabEmail : same.

Lemma same_getGitLabUserInfo options :
  same (@getGitLabUserInfo W RT options) (@getGitLabUserInfo W (withoutSignals RT) options).
Proof. unfold getGitLabUserInfo. same_steps. Qed.

Lemma same_setGitConfig key value options :
  same (@setGitConfig W RT key value options)
       (@setGitConfig W (withoutSignals RT) key value options).
Proof. unfold setGitConfig. cbv zeta. same_steps. Qed.

Lemma same_getGitConfig key options :
  same (@getGitConfig W RT key options) (@getGitConfig W (withoutSignals RT) key options).
Proof. unfold getGitConfig. cbv zeta. same_steps. Qed.

Hint Resolve same_getGitLabUserInfo same_setGitConfig same_getGitConfig : same.

Lemma same_setupGitIdentity options :
  same (@setupGitIdentity W RT options) (@setupGitIdentity W (withoutSignals RT) options).
Proof. unfold setupGitIdentity. cbv zeta. same_steps. Qed.

Lemma same_verifyGitIdentity options :
  same (@verifyGitIdentity W RT options) (@verifyGitIdentity W (withoutSignals RT) options).
Proof. unfold verifyGitIdentity. same_steps. Qed.

End WithoutSignalsOperations.

(** ** The lookup of the executable *)

Lemma isZero_true (code : option Z) : CommandStream.isZero code = true <-> code = Some 0%Z.
Proof.
  destruct code as [n|]; simpl; [|split; discriminate].
  rewrite Z.eqb_eq. split; congruence.
Qed.

Lemma isZero_false (code : option Z) : CommandStream.isZero code = false <-> code <> Some 0%Z.
Proof.
  rewrite <- isZero_true. destruct (CommandStream.isZero code); split; congruence.
Qed.

(** C8.  [getGlabPath] runs the lookup ([which glab], [where glab] on
    Windows).  When the lookup exits with zero and its output is not empty,
    the operation returns the first line of that output (the text before
    the first line feed, with surrounding white space stripped, so the
    carriage return of a CRLF ending is dropped); when the exit code is not
    zero or there is no output, it throws the error whose message is
    [NOT_FOUND], which names the installation URL.  Shown for the
    [child_process] variant on what [execCommand] reports, and for the
    [command-stream] variant on what the run resolved with. *)
Theorem getGlabPath_first_line_or_not_found
    {W : Type} `{RT : Runtime W} (options : Options) (w : W) :
  let o := fst (os_run w lookup) in
  let r := ChildProcess.resolved o in
  ((ChildProcess.exitCode r = 0%Z /\ ChildProcess.stdout r <> "" ->
    result (ChildProcess.getGlabPath options w)
    = Returned (trim (firstLine (ChildProcess.stdout r))))
   /\ (ChildProcess.exitCode r <> 0%Z \/ ChildProcess.stdout r = "" ->
       result (ChildProcess.getGlabPath options w) = Thrown (Error NOT_FOUND)))
  /\ (forall code out err, o = Exited code out err ->
      (code = Some 0%Z /\ out <> "" ->
       result (CommandStream.getGlabPath options w) = Returned (trim (firstLine out)))
      /\ (code <> Some 0%Z \/ out = "" ->
          result (CommandStream.getGlabPath options w) = Thrown (Error NOT_FOUND)))
  /\ includes NOT_FOUND INSTALL_URL = true.
Proof.
  cbv zeta. split; [split|split].
  - intros [E S]. destruct (getGlabPath_run options w) as (-> & _).
    unfold answeredExec, exitedZero. rewrite E. apply truthy_true in S. now rewrite S.
  - intros D. destruct (getGlabPath_run options w) as (-> & _).
    unfold answeredExec, exitedZero. destruct D as [E|S].
    + apply Z.eqb_neq in E. now rewrite E.
    + apply truthy_false in S. rewrite S. now rewrite andb_false_r.
  - intros code out err E.
    destruct (getGlabPath_stream_run options w) as (-> & _). rewrite E.
    cbn [answeredRun printed lookupError]. split.
    + intros [C S]. apply isZero_true in C. apply truthy_true in S. now rewrite C, S.
    + intros [C|S].
      * apply isZero_false in C. now rewrite C.
      * apply truthy_false in S. rewrite S. now rewrite andb_false_r.
  - exact NOT_FOUND_names_the_url.
Qed.

(** With two installations on the [PATH] the first one printed is
    returned. *)
Lemma getGlabPath_first_of_two :
  result (ChildProcess.getGlabPath noOptions Machine.twoGlabs)
  = Returned "/usr/local/bin/glab".
Proof.
  etransitivity.
  - apply (proj1 (proj1 (getGlabPath_first_line_or_not_found noOptions Machine.twoGlabs))).
    split; [reflexivity|vm_compute; discriminate].
  - vm_compute. reflexivity.
Defined.

(** ** The command executor *)

(** C10.  [execCommand] and [execInteractiveCommand] always resolve: a
    run of either returns a value, whatever the child does, and never
    throws.  A child that closes with a [null] exit code (ended by a
    signal) is resolved with exit code 0, the very result of a child that
    exited with 0 and the same output.  Hence no operation of the
    [child_process] variant can tell the two apart: on a runtime and on
    the same runtime with every signalled child reported as exited with 0,
    each operation returns (or throws) the same and leaves the same
    machine. *)
Theorem signalled_child_is_reported_as_success
    {W : Type} (RT : Runtime W) (command key value : string) (args : list string)
    (input : option string) (out err : string) (options : Options) (w : W) :
  result (@ChildProcess.execCommand W RT command args w)
  = Returned (ChildProcess.resolved (fst (os_run w (ChildProcess.captured command args))))
  /\ result (@ChildProcess.execInteractiveCommand W RT command args input w)
     = Returned (ChildProcess.exitCode
                   (ChildProcess.resolved
                      (fst (os_run w (ChildProcess.interactive command args input)))))
  /\ ChildProcess.resolved (Exited None out err)
     = {| ChildProcess.stdout := trim out; ChildProcess.stderr := trim err;
          ChildProcess.exitCode := 0 |}
  /\ ChildProcess.resolved (Exited None out err)
     = ChildProcess.resolved (Exited (Some 0%Z) out err)
  /\ same (@ChildProcess.execCommand W RT command args)
          (@ChildProcess.execCommand W (withoutSignals RT) command args)
  /\ same (@ChildProcess.execInteractiveCommand W RT command args input)
          (@ChildProcess.execInteractiveCommand W (withoutSignals RT) command args input)
  /\ same (@ChildProcess.getGlabPath W RT options)
          (@ChildProcess.getGlabPath W (withoutSignals RT) options)
  /\ same (@ChildProcess.runGlabAuthLogin W RT options)
          (@ChildProcess.runGlabAuthLogin W (withoutSignals RT) options)
  /\ same (@ChildProcess.runGlabAuthSetupGit W RT options)
          (@ChildProcess.runGlabAuthSetupGit W (withoutSignals RT) options)
  /\ same (@ChildProcess.isGlabAuthenticated W RT options)
          (@ChildProcess.isGlabAuthenticated W (withoutSignals RT) options)
  /\ same (@ChildProcess.getGitLabUsername W RT options)
          (@ChildProcess.getGitLabUsername W (withoutSignals RT) options)
  /\ same (@ChildProcess.getGitLabEmail W RT options)
          (@ChildProcess.getGitLabEmail W (withoutSignals RT) options)
  /\ same (@ChildProcess.getGitLabUserInfo W RT options)
          (@ChildProcess.getGitLabUserInfo W (withoutSignals RT) options)
  /\ same (@ChildProcess.setGitConfig W RT key value options)
          (@ChildProcess.setGitConfig W (withoutSignals RT) key value options)
  /\ same (@ChildProcess.getGitConfig W RT key options)
          (@ChildProcess.getGitConfig W (withoutSignals RT) key options)
  /\ same (@ChildProcess.setupGitIdentity W RT options)
          (@ChildProcess.setupGitIdentity W (withoutSignals RT) options)
  /\ same (@ChildProcess.verifyGitIdentity W RT options)
          (@ChildProcess.verifyGitIdentity W (withoutSignals RT) options).
Proof.
  repeat match goal with |- _ /\ _ => split end;
    try reflexivity;
    auto using result_execInteractiveCommand, same_execCommand,
      same_execInteractiveCommand, same_getGlabPath, same_runGlabAuthLogin,
      same_runGlabAuthSetupGit, same_isGlabAuthenticated, same_getGitLabUsername,
      same_getGitLabEmail, same_getGitLabUserInfo, same_setGitConfig,
      same_getGitConfig, same_setupGitIdentity, same_verifyGitIdentity.
Qed.

(** ** The user record *)

(** C9.  When [glab api user] exits with zero and its output, trimmed,
    is not JSON ([JSON.parse] throws a SyntaxError with message
    [parserMessage]), each of [getGitLabUsername], [getGitLabEmail] and
    [getGitLabUserInfo] throws an error whose message contains both the
    parser's message and the raw output of the command, untrimmed. *)
Theorem malformed_user_record_is_reported
    {W : Type} `{RT : Runtime W} (options : Options) (w : W)
    (code : option Z) (out err parserMessage : string) :
  fst (os_run w (apiUser options.(hostname))) = Exited code out err ->
  code = Some 0%Z ->
  JSON_parse (trim out) = inr parserMessage ->
  let e := Error (parseFailure parserMessage out) in
  result (CommandStream.getGitLabUsername options w) = Thrown e
  /\ result (CommandStream.getGitLabEmail options w) = Thrown e
  /\ result (CommandStream.getGitLabUserInfo options w) = Thrown e
  /\ includes (message e) parserMessage = true
  /\ includes (message e) out = true.
Proof.
  intros O C P. cbv zeta.
  assert (F : forall what,
             result (CommandStream.fetchUserData what options w)
             = Thrown (Error (parseFailure parserMessage out))).
  { intro what. destruct (fetchUserData_run what options w) as (-> & _).
    rewrite O. apply isZero_true in C. now rewrite C, P. }
  repeat split.
  - destruct (getGitLabUsername_stream_run options w) as (-> & _). now rewrite F.
  - destruct (getGitLabEmail_stream_run options w) as (-> & _). now rewrite F.
  - destruct (getGitLabUserInfo_stream_run options w) as (-> & _). now rewrite F.
  - cbn [message]. unfold parseFailure. apply includes_app.
  - cbn [message]. unfold parseFailure.
    rewrite <- !append_assoc. apply includes_end.
Qed.

(** A gateway page instead of the record: the error quotes it. *)
Lemma gateway_page_is_reported :
  result (CommandStream.getGitLabUserInfo noOptions Machine.garbled)
  = Thrown (Error (parseFailure "Unexpected token '<', is not valid JSON"
                     ("<html>502 Bad Gateway</html>" ++ NL))).
Proof.
  apply (malformed_user_record_is_reported noOptions Machine.garbled
           (code := Some 0%Z) (err := ""));
    reflexivity.
Defined.

(** ** Reading the configuration *)

(** C7.  [getGitConfig] never throws on a child that exited: whatever the
    exit code and the output of [git config <scope> <key>], it returns, and
    it returns [null] when the exit code is not zero (the trimmed output
    otherwise).  Hence [verifyGitIdentity] returns an identity whenever the
    two reads exit: each field is [null] or a text, decided by its own
    read alone. *)
Theorem unset_config_reads_as_null
    {W : Type} `{RT : Runtime W} (key : string) (options : Options) (w : W) :
  let scope := orDefault "global" options.(scope) in
  (forall code out err,
     fst (os_run w (readConfig scope key)) = Exited code out err ->
     result (CommandStream.getGitConfig key options w)
     = Returned (if CommandStream.isZero code then Some (trim out) else None)
     /\ (code <> Some 0%Z -> result (CommandStream.getGitConfig key options w) = Returned None))
  /\ (forall c1 out1 err1 c2 out2 err2,
        fst (os_run w (readConfig scope "user.name")) = Exited c1 out1 err1 ->
        fst (os_run (snd (os_run w (readConfig scope "user.name")))
               (readConfig scope "user.email")) = Exited c2 out2 err2 ->
        result (CommandStream.verifyGitIdentity options w)
        = Returned {| username := if CommandStream.isZero c1 then Some (trim out1) else None;
                      email := if CommandStream.isZero c2 then Some (trim out2) else None |}).
Proof.
  cbv zeta. split.
  - intros code out err O.
    destruct (getGitConfig_stream_run key options w) as (-> & _). rewrite O.
    split; [reflexivity|].
    intro C. apply isZero_false in C. cbn [valueRead]. now rewrite C.
  - intros c1 out1 err1 c2 out2 err2 O1 O2.
    rewrite verifyGitIdentity_stream_run. cbv zeta. now rewrite O1, O2.
Qed.

(** A name and no email: the name comes back, the email is [null]. *)
Lemma half_configured_identity :
  result (CommandStream.verifyGitIdentity noOptions Machine.halfConfigured)
  = Returned {| username := Some "Ada Lovelace"; email := None |}.
Proof.
  apply (proj2 (unset_config_reads_as_null "user.name" noOptions Machine.halfConfigured)
           (Some 0%Z) ("Ada Lovelace" ++ NL) "" (Some 1%Z) "" "");
    reflexivity.
Defined.

(** ** The simulated machine *)

Lemma glab_run_state (st : Machine.State) (i : Invocation) :
  program i = "glab" ->
  snd (Machine.step st i) = st \/ snd (Machine.step st i) = Machine.withLogin st.
Proof.
  unfold program, Machine.step. destruct i as [[|prog args] io]; cbn [argv hd].
  - intros _. destruct (Machine.fault _ _); auto.
  - intros ->. destruct (Machine.fault _ _); [auto|].
    cbn. destruct (Machine.glabPaths st); [auto|].
    unfold Machine.glab.
    destruct args as [|a [|b rest]]; [auto..|].
    repeat match goal with
    | |- context [if ?c then _ else _] => destruct c
    | |- context [match ?l with [] => _ | _ :: _ => _ end] => destruct l
    end; auto.
Qed.

Lemma read_step (st : Machine.State) (s k : string) :
  Machine.step st (readConfig s k)
  = (match Machine.fault (Machine.faults st) (argv (readConfig s k)) with
     | Some o => o
     | None => Machine.gitGet (Machine.file st (scopeFlag s)) k
     end, st).
Proof.
  unfold Machine.step. destruct (Machine.fault _ _); reflexivity.
Qed.

Lemma reported_withLogin (st : Machine.State) :
  reported (Machine.withLogin st) = reported st.
Proof.
  unfold reported. rewrite !verifyGitIdentity_stream_run. cbv zeta.
  change (@os_run _ Machine.linux) with Machine.step.
  rewrite !read_step. reflexivity.
Qed.

(** On the simulated machine glab never touches what [verifyGitIdentity]
    reports. *)
Lemma glab_keeps_reported (st : Machine.State) (i : Invocation) :
  program i = "glab" -> reported (snd (os_run st i)) = reported st.
Proof.
  intro P. change (@os_run _ Machine.linux) with Machine.step.
  destruct (glab_run_state st i P) as [-> | ->]; [reflexivity|apply reported_withLogin].
Qed.

(** ** Setting the identity *)

(** C5.  With [dryRun] set, [setupGitIdentity] completes as the fetch of
    the user record completes (it returns the identity fetched, or throws
    the error of the fetch), and the only processes it runs are those of
    the fetch: [glab api user] in the [command-stream] variant, the two
    [glab api user --jq] calls in the [child_process] variant.  No [git]
    process is run, so nothing is written; the machine is left as those
    glab processes leave it, and whatever observation of the machine glab
    does not change (what [verifyGitIdentity] reports, where glab does not
    write git's configuration) is the same after the call as before. *)
Theorem dry_run_writes_nothing
    {W : Type} `{RT : Runtime W} (options : Options) (w : W) :
  options.(dryRun) = true ->
  let fetch := apiUser options.(hostname) in
  let fetchName := apiUserField ".username" options.(hostname) in
  let fetchMail := apiUserField ".email" options.(hostname) in
  (result (CommandStream.setupGitIdentity options w)
   = result (CommandStream.getGitLabUserInfo (CommandStream.fetchOptions options) w)
   /\ cmds (CommandStream.setupGitIdentity options w) = [(fetch, fst (os_run w fetch))]
   /\ final (CommandStream.setupGitIdentity options w) = snd (os_run w fetch))
  /\ (result (ChildProcess.setupGitIdentity options w)
      = result (ChildProcess.getGitLabUserInfo (ChildProcess.fetchOptions options) w)
      /\ cmds (ChildProcess.setupGitIdentity options w)
         = [(fetchName, fst (os_run w fetchName));
            (fetchMail, fst (os_run (snd (os_run w fetchName)) fetchMail))]
      /\ final (ChildProcess.setupGitIdentity options w)
         = snd (os_run (snd (os_run w fetchName)) fetchMail))
  /\ (forall (X : Type) (observe : W -> X),
        (forall w0 i, program i = "glab" -> observe (snd (os_run w0 i)) = observe w0) ->
        observe (final (CommandStream.setupGitIdentity options w)) = observe w
        /\ observe (final (ChildProcess.setupGitIdentity options w)) = observe w).
Proof.
  intro D. cbv zeta.
  destruct (setupGitIdentity_stream_dry options w D) as (R1 & F1 & C1).
  destruct (getGitLabUserInfo_stream_run (CommandStream.fetchOptions options) w)
    as (_ & F1' & C1').
  change (hostname (CommandStream.fetchOptions options)) with (hostname options) in F1', C1'.
  destruct (setupGitIdentity_dry options w D) as (R2 & F2 & C2).
  destruct (getGitLabUserInfo_frame (ChildProcess.fetchOptions options) w) as (F2' & C2').
  change (hostname (ChildProcess.fetchOptions options)) with (hostname options) in F2', C2'.
  rewrite F1' in F1. rewrite C1' in C1. rewrite F2' in F2. rewrite C2' in C2.
  repeat split; try assumption.
  - rewrite F1. now apply H.
  - rewrite F2. rewrite !H; reflexivity.
Qed.

(** A dry run on the workstation: the identity of [ada] comes back and
    [verifyGitIdentity] reports what it reported before. *)
Lemma dry_run_on_the_workstation :
  result (CommandStream.setupGitIdentity dryOptions Machine.ada)
  = Returned {| username := JString "ada"; email := JString "ada@example.com" |}
  /\ reported (final (CommandStream.setupGitIdentity dryOptions Machine.ada))
     = reported Machine.ada.
Proof.
  destruct (dry_run_writes_nothing dryOptions Machine.ada eq_refl) as ((R & _) & _ & O).
  split.
  - rewrite R. vm_compute. reflexivity.
  - apply (O _ reported glab_keeps_reported).
Defined.

(** C6.  A run of [setupGitIdentity] that is not a dry run, after a fetch
    that returned [info], writes [user.name] first and [user.email] after
    it, both at the given scope: the two processes are [git config --local
    user.name <name>] and [git config --local user.email <email>] when the
    scope is ['local'], and the same with [--global] for any other scope
    and for none.  When the write of [user.name] does not succeed the error
    of that write is thrown, the write of [user.email] is never run and no
    other process follows: nothing is rolled back, the machine is left as
    the failed write left it. *)
Theorem name_is_written_before_email
    {W : Type} `{RT : Runtime W} (options : Options) (w : W) (info : Identity JsValue) :
  options.(dryRun) = false ->
  result (CommandStream.getGitLabUserInfo (CommandStream.fetchOptions options) w)
  = Returned info ->
  let flag := match options.(scope) with
              | Some "local" => "--local"
              | _ => "--global"
              end in
  let fetch := apiUser options.(hostname) in
  let name := {| argv := ["git"; "config"; flag; "user.name"; toString info.(username)];
                 stdio := Capture |} in
  let mail := {| argv := ["git"; "config"; flag; "user.email"; toString info.(email)];
                 stdio := Capture |} in
  let w1 := snd (os_run w fetch) in
  let o1 := fst (os_run w1 name) in
  let w2 := snd (os_run w1 name) in
  let o2 := fst (os_run w2 mail) in
  let w3 := snd (os_run w2 mail) in
  (ranZero o1 = true ->
   cmds (CommandStream.setupGitIdentity options w)
   = [(fetch, fst (os_run w fetch)); (name, o1); (mail, o2)]
   /\ final (CommandStream.setupGitIdentity options w) = w3
   /\ (ranZero o2 = true ->
       result (CommandStream.setupGitIdentity options w) = Returned info)
   /\ (ranZero o2 = false ->
       result (CommandStream.setupGitIdentity options w)
       = Thrown (writeError "user.email" o2)))
  /\ (ranZero o1 = false ->
      cmds (CommandStream.setupGitIdentity options w)
      = [(fetch, fst (os_run w fetch)); (name, o1)]
      /\ final (CommandStream.setupGitIdentity options w) = w2
      /\ result (CommandStream.setupGitIdentity options w)
         = Thrown (writeError "user.name" o1)).
Proof.
  intros D F. cbv zeta.
  rewrite <- (scopeFlag_cases options.(scope)).
  change {| argv := ["git"; "config"; scopeFlag (orDefault "global" options.(scope));
                     "user.name"; toString info.(username)];
            stdio := Capture |}
    with (writeConfig (orDefault "global" options.(scope)) "user.name"
            (toString info.(username))).
  change {| argv := ["git"; "config"; scopeFlag (orDefault "global" options.(scope));
                     "user.email"; toString info.(email)];
            stdio := Capture |}
    with (writeConfig (orDefault "global" options.(scope)) "user.email"
            (toString info.(email))).
  destruct (setupGitIdentity_stream_apply options w D F) as (R & Fi & C).
  cbv zeta in R, Fi, C. rewrite R, Fi, C.
  split; intros ->; repeat split; now intros ->.
Qed.

(** With the scope ['local'] the identity goes to the repository, by two
    [--local] writes, and the global file stays empty.  With no scope and a
    global file that cannot be locked, the [--global] write of [user.name]
    fails, [user.email] is not attempted and the old values stay. *)
Lemma identity_is_written_at_the_given_scope :
  (cmds (CommandStream.setupGitIdentity localScope Machine.ada)
   = [(apiUser None,
       Exited (Some 0%Z) (Machine.record "ada" "ada@example.com" ++ NL) "");
      ({| argv := ["git"; "config"; "--local"; "user.name"; "ada"]; stdio := Capture |},
       Exited (Some 0%Z) "" "");
      ({| argv := ["git"; "config"; "--local"; "user.email"; "ada@example.com"];
          stdio := Capture |},
       Exited (Some 0%Z) "" "")]
   /\ Machine.localConfig (final (CommandStream.setupGitIdentity localScope Machine.ada))
      = [("user.name", "ada"); ("user.email", "ada@example.com")]
   /\ Machine.globalConfig (final (CommandStream.setupGitIdentity localScope Machine.ada))
      = [])
  /\ (cmds (CommandStream.setupGitIdentity noOptions Machine.locked)
      = [(apiUser None,
          Exited (Some 0%Z) (Machine.record "ada" "ada@example.com" ++ NL) "");
         ({| argv := ["git"; "config"; "--global"; "user.name"; "ada"]; stdio := Capture |},
          Exited (Some 255%Z) "" "error: could not lock config file")]
      /\ final (CommandStream.setupGitIdentity noOptions Machine.locked) = Machine.locked
      /\ result (CommandStream.setupGitIdentity noOptions Machine.locked)
         = Thrown (Error "Failed to set git config user.name: error: could not lock config file")).
Proof.
  split.
  - assert (F : result (CommandStream.getGitLabUserInfo
                          (CommandStream.fetchOptions localScope) Machine.ada)
                = Returned {| username := JString "ada";
                              email := JString "ada@example.com" |})
      by (vm_compute; reflexivity).
    destruct (name_is_written_before_email localScope Machine.ada eq_refl F)
      as (Written & _).
    destruct Written as (C & Fi & _); [vm_compute; reflexivity|].
    rewrite C, Fi. vm_compute. repeat split.
  - assert (F : result (CommandStream.getGitLabUserInfo
                          (CommandStream.fetchOptions noOptions) Machine.locked)
                = Returned {| username := JString "ada";
                              email := JString "ada@example.com" |})
      by (vm_compute; reflexivity).
    destruct (name_is_written_before_email noOptions Machine.locked eq_refl F)
      as (_ & Failing).
    destruct Failing as (C & Fi & R); [vm_compute; reflexivity|].
    rewrite C, Fi, R. vm_compute. repeat split.
Defined.

(** ** The credential helper *)

(** C4.  When the lookup of glab succeeds and the read of the global
    [credential.https://<hostname>.helper] exits with zero and prints a
    value (the state a successful set-up leaves behind), a call of
    [runGlabAuthSetupGit] with [force] unset returns [true] and runs these
    two processes only: no [git config] write is run, and the machine is
    left as the lookup and the read left it, the helper value with it. *)
Theorem configured_helper_is_kept
    {W : Type} `{RT : Runtime W} (options : Options) (w : W) :
  options.(force) = false ->
  let host := orDefault "gitlab.com" options.(hostname) in
  let o_lookup := fst (os_run w lookup) in
  let w1 := snd (os_run w lookup) in
  let o_read := fst (os_run w1 (readHelper host)) in
  let w2 := snd (os_run w1 (readHelper host)) in
  (answeredRun o_lookup = true -> answeredRun o_read = true ->
   result (CommandStream.runGlabAuthSetupGit options w) = Returned true
   /\ cmds (CommandStream.runGlabAuthSetupGit options w)
      = [(lookup, o_lookup); (readHelper host, o_read)]
   /\ final (CommandStream.runGlabAuthSetupGit options w) = w2)
  /\ (answeredExec o_lookup = true -> answeredExec o_read = true ->
      result (ChildProcess.runGlabAuthSetupGit options w) = Returned true
      /\ cmds (ChildProcess.runGlabAuthSetupGit options w)
         = [(lookup, o_lookup); (readHelper host, o_read)]
      /\ final (ChildProcess.runGlabAuthSetupGit options w) = w2).
Proof.
  intro F. cbv zeta. split; intros L R.
  - destruct (runGlabAuthSetupGit_stream_run options w) as (-> & -> & ->).
    change CommandStream.default_hostname with "gitlab.com".
    rewrite L, R, F. repeat split.
  - destruct (runGlabAuthSetupGit_run options w) as (-> & -> & ->).
    change ChildProcess.default_hostname with "gitlab.com".
    rewrite L, R, F. repeat split.
Qed.

(** Two calls in a row on the workstation: the first configures the
    helper, the second returns [true] and leaves the machine as it was. *)
Lemma second_setup_changes_nothing :
  result (CommandStream.runGlabAuthSetupGit noOptions Machine.ada) = Returned true
  /\ result (CommandStream.runGlabAuthSetupGit noOptions afterSetup) = Returned true
  /\ final (CommandStream.runGlabAuthSetupGit noOptions afterSetup) = afterSetup.
Proof.
  split; [vm_compute; reflexivity|].
  destruct (configured_helper_is_kept noOptions afterSetup eq_refl) as (Stream & _).
  destruct Stream as (R & _ & Fi); [vm_compute; reflexivity..|].
  rewrite R, Fi. split; [reflexivity|vm_compute; reflexivity].
Defined.

Lemma lookup_is_no_add {W : Type} `{RT : Runtime W} (hostname path : string) :
  lookup <> addHelper hostname path.
Proof. unfold lookup, addHelper, git. intro E. inversion E. Qed.

Lemma read_is_no_add (hostname hostname' path : string) :
  readHelper hostname <> addHelper hostname' path.
Proof. unfold readHelper, addHelper, git. intro E. inversion E. Qed.

Lemma setup_git_false_by_exec {W : Type} `{RT : Runtime W} (options : Options) (w : W) :
  let host := orDefault "gitlab.com" options.(hostname) in
  let run := ChildProcess.runGlabAuthSetupGit options w in
  exists b : bool,
    result run = Returned b
    /\ (b = false <->
        (answeredExec (fst (os_run w lookup)) = false
         /\ cmds run = [(lookup, fst (os_run w lookup))])
        \/ (exists path o,
              lastCmd (cmds run) = Some (addHelper host path, o)
              /\ exitedZero o = false)).
Proof.
  cbv zeta.
  destruct (runGlabAuthSetupGit_run options w) as (-> & _ & ->).
  change ChildProcess.default_hostname with "gitlab.com".
  eexists. split; [reflexivity|].
  destruct (answeredExec (fst (os_run w lookup))) eqn:L; cbn [andb].
  - destruct (answeredExec _ && negb (force options)); cbn [orb].
    + split; [discriminate|]. intros [[E _]|(path & o & E & _)]; [discriminate|].
      unfold lastCmd in E. cbn [map last] in E. exfalso.
      apply (read_is_no_add (hostname' := orDefault "gitlab.com" (hostname options))
               (path := path) (hostname := orDefault "gitlab.com" (hostname options))).
      congruence.
    + match goal with |- context [exitedZero ?o] => destruct (exitedZero o) eqn:A end.
      * split; [discriminate|]. intros [[E _]|(path & o & E & Z)]; [discriminate|].
        unfold lastCmd in E. cbn [map last] in E. congruence.
      * split; [|reflexivity]. intros _. right. eexists _, _. split; [reflexivity|exact A].
  - split; [|reflexivity]. intros _. left. split; reflexivity.
Qed.

Lemma setup_git_false_by_run {W : Type} `{RT : Runtime W} (options : Options) (w : W) :
  let host := orDefault "gitlab.com" options.(hostname) in
  let run := CommandStream.runGlabAuthSetupGit options w in
  exists b : bool,
    result run = Returned b
    /\ (b = false <->
        (answeredRun (fst (os_run w lookup)) = false
         /\ cmds run = [(lookup, fst (os_run w lookup))])
        \/ (exists path o,
              lastCmd (cmds run) = Some (addHelper host path, o)
              /\ ranZero o = false)).
Proof.
  cbv zeta.
  destruct (runGlabAuthSetupGit_stream_run options w) as (-> & _ & ->).
  change CommandStream.default_hostname with "gitlab.com".
  eexists. split; [reflexivity|].
  destruct (answeredRun (fst (os_run w lookup))) eqn:L; cbn [andb].
  - destruct (answeredRun _ && negb (force options)); cbn [orb].
    + split; [discriminate|]. intros [[E _]|(path & o & E & _)]; [discriminate|].
      unfold lastCmd in E. cbn [map last] in E. exfalso.
      apply (read_is_no_add (hostname' := orDefault "gitlab.com" (hostname options))
               (path := path) (hostname := orDefault "gitlab.com" (hostname options))).
      congruence.
    + match goal with |- context [ranZero ?o] => destruct (ranZero o) eqn:A end.
      * split; [discriminate|]. intros [[E _]|(path & o & E & Z)]; [discriminate|].
        unfold lastCmd in E. cbn [map last] in E. congruence.
      * split; [|reflexivity]. intros _. right. eexists _, _. split; [reflexivity|exact A].
  - split; [|reflexivity]. intros _. left. split; reflexivity.
Qed.

(** C1, as the code has it.  [runGlabAuthSetupGit] always returns a
    boolean, and it returns [false] in exactly two cases: the lookup of the
    glab executable did not find it (the error of [getGlabPath] is caught;
    the lookup is then the only process run), or the last process run is
    the final add [git config --global --add credential.<url>.helper
    <helper>] and it did not succeed (a non-zero exit code; in the
    [command-stream] variant also a rejected run). *)
Theorem setup_git_returns_false_in_two_cases
    {W : Type} `{RT : Runtime W} (options : Options) (w : W) :
  let host := orDefault "gitlab.com" options.(hostname) in
  (exists b : bool,
     result (CommandStream.runGlabAuthSetupGit options w) = Returned b
     /\ (b = false <->
         (answeredRun (fst (os_run w lookup)) = false
          /\ cmds (CommandStream.runGlabAuthSetupGit options w)
             = [(lookup, fst (os_run w lookup))])
         \/ (exists path o,
               lastCmd (cmds (CommandStream.runGlabAuthSetupGit options w))
               = Some (addHelper host path, o)
               /\ ranZero o = false)))
  /\ (exists b : bool,
        result (ChildProcess.runGlabAuthSetupGit options w) = Returned b
        /\ (b = false <->
            (answeredExec (fst (os_run w lookup)) = false
             /\ cmds (ChildProcess.runGlabAuthSetupGit options w)
                = [(lookup, fst (os_run w lookup))])
            \/ (exists path o,
                  lastCmd (cmds (ChildProcess.runGlabAuthSetupGit options w))
                  = Some (addHelper host path, o)
                  /\ exitedZero o = false))).
Proof.
  split; [apply setup_git_false_by_run|apply setup_git_false_by_exec].
Qed.

(** C1, as stated, fails where glab is not installed: both variants
    return [false] although the lookup is the only process run, so the add
    step was never run and did not fail. *)
Lemma setup_git_false_without_add_step :
  result (CommandStream.runGlabAuthSetupGit noOptions Machine.bare) = Returned false
  /\ cmds (CommandStream.runGlabAuthSetupGit noOptions Machine.bare)
     = [({| argv := ["which"; "glab"]; stdio := Capture |}, Exited (Some 1%Z) "" "")]
  /\ result (ChildProcess.runGlabAuthSetupGit noOptions Machine.bare) = Returned false
  /\ cmds (ChildProcess.runGlabAuthSetupGit noOptions Machine.bare)
     = [({| argv := ["which"; "glab"]; stdio := Capture |}, Exited (Some 1%Z) "" "")].
Proof. vm_compute. repeat split. Qed.

(** ** Logging in *)

Lemma pushIf_named (flag : string) (v : option string) (args : list string) :
  pushIf (given v) [flag; orDefault "" v] args = (args ++ named flag v)%list.
Proof.
  unfold pushIf, given, named.
  destruct v as [s|]; [destruct (truthy s)|]; simpl; now rewrite ?app_nil_r.
Qed.

Lemma pushIf_named_some (flag v : string) (args : list string) :
  pushIf (truthy v) [flag; v] args = (args ++ named flag (Some v))%list.
Proof. exact (pushIf_named flag (Some v) args). Qed.

Lemma pushIf_switch (on : bool) (flag : string) (args : list string) :
  pushIf on [flag] args = (args ++ if on then [flag] else [])%list.
Proof. destruct on; simpl; now rewrite ?app_nil_r. Qed.

Lemma truthy_with_newline (s : string) : truthy (s ++ NL) = true.
Proof. now destruct s. Qed.

(** The named flags first, the authentication method last. *)
Lemma buildGlabAuthLoginArgs_split (options : Options) :
  CommandStream.buildGlabAuthLoginArgs options
  = (namedFlags options
     ++ if given options.(jobToken) then ["--job-token"; orDefault "" options.(jobToken)]
        else if given options.(token) then ["--token"; orDefault "" options.(token)]
        else if options.(stdin) then ["--stdin"]
        else [])%list.
Proof.
  unfold CommandStream.buildGlabAuthLoginArgs, namedFlags. cbv zeta.
  rewrite !pushIf_named, pushIf_switch.
  destruct (given (jobToken options)), (given (token options)), (stdin options);
    rewrite <- ?app_assoc, ?app_nil_r; cbn [app]; rewrite <- ?app_assoc; reflexivity.
Qed.

Lemma loginArgs_split (options : Options) :
  ChildProcess.loginArgs options
  = (["auth"; "login"]
     ++ named "--hostname" (Some (orDefault "gitlab.com" options.(hostname)))
     ++ named "--git-protocol" (Some (orDefault "https" options.(gitProtocol)))
     ++ (if orDefault false options.(useKeyring) then ["--use-keyring"] else [])
     ++ if given options.(token) then ["--stdin"] else [])%list.
Proof.
  unfold ChildProcess.loginArgs. cbv zeta.
  rewrite !pushIf_named_some, !pushIf_switch. rewrite <- !app_assoc. reflexivity.
Qed.

Lemma runGlabAuthLogin_cmds {W : Type} `{RT : Runtime W} (options : Options) (w : W) :
  let i := ChildProcess.interactive "glab" (ChildProcess.loginArgs options)
             (match options.(token) with
              | Some token => if truthy token then Some (token ++ NL) else None
              | None => None
              end) in
  cmds (ChildProcess.runGlabAuthLogin options w) = [(i, fst (os_run w i))].
Proof.
  cbv zeta. unfold ChildProcess.runGlabAuthLogin. cbv zeta. run_steps.
  destruct (negb _); run_steps; reflexivity.
Qed.

(** C3, as the code has it.  When at least one of [jobToken], [token]
    and [stdin] is set, [buildGlabAuthLoginArgs] (the [command-stream]
    variant) yields the named flags followed by exactly one method:
    [--job-token <value>] when a job token is set, else [--token <value>]
    when a token is set, else [--stdin].  The [child_process] variant of
    [runGlabAuthLogin] knows the token only: for a set token its arguments
    end in [--stdin], never in [--token <value>], and glab is run with the
    token and a line feed on its standard input. *)
Theorem login_method_by_precedence
    {W : Type} `{RT : Runtime W} (options : Options) (w : W) :
  given options.(jobToken) = true \/ given options.(token) = true
  \/ options.(stdin) = true ->
  (exists method : list string,
     CommandStream.buildGlabAuthLoginArgs options = (namedFlags options ++ method)%list
     /\ ((given options.(jobToken) = true
          /\ method = ["--job-token"; orDefault "" options.(jobToken)])
         \/ (given options.(jobToken) = false /\ given options.(token) = true
             /\ method = ["--token"; orDefault "" options.(token)])
         \/ (given options.(jobToken) = false /\ given options.(token) = false
             /\ options.(stdin) = true /\ method = ["--stdin"])))
  /\ (given options.(token) = true ->
      ChildProcess.loginArgs options
      = (["auth"; "login"]
         ++ named "--hostname" (Some (orDefault "gitlab.com" options.(hostname)))
         ++ named "--git-protocol" (Some (orDefault "https" options.(gitProtocol)))
         ++ (if orDefault false options.(useKeyring) then ["--use-keyring"] else [])
         ++ ["--stdin"])%list
      /\ exists o,
           cmds (ChildProcess.runGlabAuthLogin options w)
           = [({| argv := "glab" :: ChildProcess.loginArgs options;
                  stdio := PipeInput (orDefault "" options.(token) ++ NL) |}, o)]).
Proof.
  intro Set_. split.
  - eexists. split; [apply buildGlabAuthLoginArgs_split|].
    destruct (given (jobToken options)); [left; split; reflexivity|].
    destruct (given (token options)); [right; left; repeat split|].
    destruct (stdin options); [right; right; repeat split|].
    now destruct Set_ as [|[|]].
  - intro T. split.
    + rewrite loginArgs_split, T. reflexivity.
    + rewrite runGlabAuthLogin_cmds. cbv zeta.
      unfold ChildProcess.interactive.
      unfold given in T. destruct (token options) as [t|]; [|discriminate].
      rewrite T, truthy_with_newline. eexists. reflexivity.
Qed.

(** With all three set the job token wins. *)
Lemma job_token_wins :
  CommandStream.buildGlabAuthLoginArgs everyMethod
  = ["auth"; "login"; "--job-token"; "ci-job-456"].
Proof.
  destruct (login_method_by_precedence (W := Machine.State) everyMethod Machine.ada
              (or_introl eq_refl)) as ((method & -> & Cases) & _).
  destruct Cases as [(_ & ->)|[(J & _)|(J & _)]]; [reflexivity|discriminate J..].
Defined.

(** C3, as stated, fails in the [child_process] variant: a set token and
    no job token yield [--stdin], with the token piped to glab, and no
    [--token] argument at all. *)
Lemma token_login_passes_stdin_flag :
  ChildProcess.loginArgs tokenOptions
  = ["auth"; "login"; "--hostname"; "gitlab.com"; "--git-protocol"; "https"; "--stdin"]
  /\ existsb (String.eqb "--token") (ChildProcess.loginArgs tokenOptions) = false
  /\ cmds (ChildProcess.runGlabAuthLogin tokenOptions Machine.ada)
     = [({| argv := ["glab"; "auth"; "login"; "--hostname"; "gitlab.com";
                     "--git-protocol"; "https"; "--stdin"];
            stdio := PipeInput ("glpat-123" ++ NL) |},
         Exited (Some 0%Z) "" "")].
Proof. vm_compute. repeat split. Qed.

(** ** Empty fields of the user record *)

(** In the [command-stream] variant a record without a usable username
    is refused by [getGitLabUsername] and [getGitLabUserInfo]. *)
Lemma falsy_username_is_refused
    {W : Type} `{RT : Runtime W} (options : Options) (w : W) (members : list (string * JsValue)) :
  (forall what, result (CommandStream.fetchUserData what options w)
                = Returned (JObject members)) ->
  toBoolean (assoc "username" members) = false ->
  result (CommandStream.getGitLabUsername options w) = Thrown (Error NO_USERNAME)
  /\ result (CommandStream.getGitLabUserInfo options w) = Thrown (Error NO_USERNAME).
Proof.
  intros F U. split.
  - destruct (getGitLabUsername_stream_run options w) as (-> & _).
    rewrite F. cbn [getProperty]. now rewrite U.
  - destruct (getGitLabUserInfo_stream_run options w) as (-> & _).
    rewrite F. cbn [getProperty]. now rewrite U.
Qed.

(** Likewise for the email; [getGitLabUserInfo] checks the username
    first. *)
Lemma falsy_email_is_refused
    {W : Type} `{RT : Runtime W} (options : Options) (w : W) (members : list (string * JsValue)) :
  (forall what, result (CommandStream.fetchUserData what options w)
                = Returned (JObject members)) ->
  toBoolean (assoc "email" members) = false ->
  result (CommandStream.getGitLabEmail options w) = Thrown (Error NO_EMAIL)
  /\ (toBoolean (assoc "username" members) = true ->
      result (CommandStream.getGitLabUserInfo options w) = Thrown (Error NO_EMAIL)).
Proof.
  intros F E. split.
  - destruct (getGitLabEmail_stream_run options w) as (-> & _).
    rewrite F. cbn [getProperty]. now rewrite E.
  - intro U. destruct (getGitLabUserInfo_stream_run options w) as (-> & _).
    rewrite F. cbn [getProperty]. now rewrite U, E.
Qed.

(** What the [command-stream] variant returns for a field is truthy, so
    never the empty string. *)
Lemma returned_fields_are_truthy
    {W : Type} `{RT : Runtime W} (options : Options) (w : W) :
  (forall v, result (CommandStream.getGitLabUsername options w) = Returned v ->
             toBoolean v = true)
  /\ (forall v, result (CommandStream.getGitLabEmail options w) = Returned v ->
                toBoolean v = true)
  /\ (forall info, result (CommandStream.getGitLabUserInfo options w) = Returned info ->
                   toBoolean info.(username) = true /\ toBoolean info.(email) = true).
Proof.
  repeat split.
  - intros v. destruct (getGitLabUsername_stream_run options w) as (-> & _).
    destruct (result _) as [d|]; [|discriminate].
    destruct (getProperty d "username") as [u|]; [|discriminate].
    destruct (toBoolean u) eqn:T; [|discriminate]. congruence.
  - intros v. destruct (getGitLabEmail_stream_run options w) as (-> & _).
    destruct (result _) as [d|]; [|discriminate].
    destruct (getProperty d "email") as [u|]; [|discriminate].
    destruct (toBoolean u) eqn:T; [|discriminate]. congruence.
  - destruct (getGitLabUserInfo_stream_run options w) as (R & _). rewrite R in H. clear R.
    destruct (result _) as [d|]; [|discriminate].
    destruct (getProperty d "username") as [u|]; [|discriminate].
    destruct (getProperty d "email") as [m|]; [|discriminate].
    destruct (toBoolean u) eqn:T; [|discriminate].
    destruct (toBoolean m); [|discriminate]. injection H as <-. exact T.
  - destruct (getGitLabUserInfo_stream_run options w) as (R & _). rewrite R in H. clear R.
    destruct (result _) as [d|]; [|discriminate].
    destruct (getProperty d "username") as [u|]; [|discriminate].
    destruct (getProperty d "email") as [m|]; [|discriminate].
    destruct (toBoolean u); [|discriminate].
    destruct (toBoolean m) eqn:T; [|discriminate]. injection H as <-. exact T.
Qed.

(** In the [child_process] variant [getGitLabUsername] returns whatever
    glab printed, trimmed, once it exited with zero: there is no check. *)
Lemma jq_username_is_returned_unchecked
    {W : Type} `{RT : Runtime W} (options : Options) (w : W) (code : option Z) (out err : string) :
  fst (os_run w (apiUserField ".username" options.(hostname))) = Exited code out err ->
  ChildProcess.orZero code = 0%Z ->
  result (ChildProcess.getGitLabUsername options w) = Returned (trim out).
Proof.
  intros O C. destruct (getGitLabUsername_run options w) as (-> & _).
  cbv zeta. rewrite O. cbn [ChildProcess.resolved ChildProcess.exitCode ChildProcess.stdout].
  now rewrite C.
Qed.

(** C2.  On an account whose record carries an empty username, the
    [child_process] variant of [getGitLabUsername] returns the empty
    string and [getGitLabUserInfo] returns an identity with an empty
    username; no error is thrown.  On the same machine the [command-stream]
    variant throws the [NO_USERNAME] error from both, and the sibling
    [getGitLabEmail] of the [child_process] variant does check its value. *)
Theorem empty_username_is_returned :
  result (ChildProcess.getGitLabUsername noOptions Machine.nameless) = Returned ""
  /\ result (ChildProcess.getGitLabUserInfo noOptions Machine.nameless)
     = Returned {| username := ""; email := "ada@example.com" |}
  /\ cmds (ChildProcess.getGitLabUsername noOptions Machine.nameless)
     = [(apiUserField ".username" None, Exited (Some 0%Z) NL "")]
  /\ JSON_parse (Machine.apiUser Machine.nameless) = inl namelessRecord
  /\ result (CommandStream.getGitLabUsername noOptions Machine.nameless)
     = Thrown (Error NO_USERNAME)
  /\ result (CommandStream.getGitLabUserInfo noOptions Machine.nameless)
     = Thrown (Error NO_USERNAME).
Proof. vm_compute. repeat split. Qed.

(** * Further properties of the library *)

(** ** Authentication status and login *)

Lemma isGlabAuthenticated_stream_run
    {W : Type} `{RT : Runtime W} (options : Options) (w : W) :
  let i := authStatus options.(hostname) in
  result (CommandStream.isGlabAuthenticated options w) = Returned (ranZero (fst (os_run w i)))
  /\ final (CommandStream.isGlabAuthenticated options w) = snd (os_run w i)
  /\ cmds (CommandStream.isGlabAuthenticated options w) = [(i, fst (os_run w i))].
Proof.
  cbv zeta. unfold CommandStream.isGlabAuthenticated. cbv zeta.
  rewrite pushIf_hostFlag. run_steps.
  change {| argv := "glab" :: ["auth"; "status"] ++ hostFlag (hostname options);
            stdio := Capture |}
    with (authStatus (hostname options)).
  destruct (fst (os_run w (authStatus (hostname options)))) as [code out err|msg out];
    cbn [CommandStream.settled ranZero]; run_steps; [|repeat split].
  cbn [CommandStream.code].
  destruct (CommandStream.isZero code); cbn [negb]; run_steps; repeat split.
Qed.

Lemma isGlabAuthenticated_run
    {W : Type} `{RT : Runtime W} (options : Options) (w : W) :
  let i := authStatus options.(hostname) in
  result (ChildProcess.isGlabAuthenticated options w)
  = Returned (exitedZero (fst (os_run w i)))
  /\ final (ChildProcess.isGlabAuthenticated options w) = snd (os_run w i)
  /\ cmds (ChildProcess.isGlabAuthenticated options w) = [(i, fst (os_run w i))].
Proof.
  cbv zeta. unfold ChildProcess.isGlabAuthenticated. cbv zeta.
  rewrite pushIf_hostFlag. run_steps.
  change (ChildProcess.captured "glab" (["auth"; "status"] ++ hostFlag (hostname options)))
    with (authStatus (hostname options)).
  unfold exitedZero.
  destruct (_ =? 0)%Z; cbn [negb]; run_steps; repeat split.
Qed.

(** X1.  [isGlabAuthenticated] never throws.  It runs [glab auth status]
    (with [--hostname <h>] when a hostname is given) once and returns
    whether that process exited with zero; a rejected run of the
    [command-stream] tag is caught and reported as [false], and a child
    that could not be spawned is reported as [false] by the
    [child_process] variant. *)
Theorem isGlabAuthenticated_is_the_exit_status
    {W : Type} `{RT : Runtime W} (options : Options) (w : W) :
  let i := authStatus options.(hostname) in
  let o := fst (os_run w i) in
  (result (CommandStream.isGlabAuthenticated options w) = Returned (ranZero o)
   /\ cmds (CommandStream.isGlabAuthenticated options w) = [(i, o)])
  /\ (result (ChildProcess.isGlabAuthenticated options w) = Returned (exitedZero o)
      /\ cmds (ChildProcess.isGlabAuthenticated options w) = [(i, o)])
  /\ (forall msg out, o = Failed msg out -> ranZero o = false /\ exitedZero o = false)
  /\ (forall code out err, o = Exited (Some code) out err ->
        ranZero o = Z.eqb code 0 /\ exitedZero o = Z.eqb code 0).
Proof.
  cbv zeta.
  destruct (isGlabAuthenticated_stream_run options w) as (R1 & _ & C1).
  destruct (isGlabAuthenticated_run options w) as (R2 & _ & C2).
  repeat split; try assumption.
  - now rewrite H.
  - now rewrite H.
  - now rewrite H.
  - now rewrite H.
Qed.

Lemma runGlabAuthLogin_stream_run
    {W : Type} `{RT : Runtime W} (options : Options) (w : W) :
  let i := loginRun options in
  result (CommandStream.runGlabAuthLogin options w) = Returned (ranZero (fst (os_run w i)))
  /\ final (CommandStream.runGlabAuthLogin options w) = snd (os_run w i)
  /\ cmds (CommandStream.runGlabAuthLogin options w) = [(i, fst (os_run w i))].
Proof.
  cbv zeta. unfold CommandStream.runGlabAuthLogin. cbv zeta. run_steps.
  change {| argv := "glab" :: CommandStream.buildGlabAuthLoginArgs
                               (CommandStream.loginOptions options);
            stdio := Mirror (stdin options) |}
    with (loginRun options).
  destruct (fst (os_run w (loginRun options))) as [code out err|msg out];
    cbn [CommandStream.settled ranZero]; run_steps; [|repeat split].
  cbn [CommandStream.code].
  destruct (CommandStream.isZero code); cbn [negb]; run_steps; repeat split.
Qed.




(** ** The configuration accessors *)

Lemma setGitConfig_exec_run
    {W : Type} `{RT : Runtime W} (key value : string) (options : Options) (w : W) :
  let i := writeConfig (orDefault "global" options.(scope)) key value in
  result (ChildProcess.setGitConfig key value options w)
  = (if exitedZero (fst (os_run w i)) then Returned tt
     else Thrown (Error ("Failed to set git config " ++ key ++ ": "
                         ++ ChildProcess.stderr (ChildProcess.resolved (fst (os_run w i))))))
  /\ final (ChildProcess.setGitConfig key value options w) = snd (os_run w i)
  /\ cmds (ChildProcess.setGitConfig key value options w) = [(i, fst (os_run w i))].
Proof.
  cbv zeta. unfold ChildProcess.setGitConfig. cbv zeta. run_steps.
  change (ChildProcess.captured "git"
            ["config"; scopeFlag (orDefault "global" (scope options)); key; value])
    with (writeConfig (orDefault "global" (scope options)) key value).
  unfold exitedZero. destruct (_ =? 0)%Z; cbn [negb]; run_steps; [|repeat split].
  destruct (silent_debug (W := W) (verbose options) ("Successfully set git config " ++ key)
              (snd (os_run w (writeConfig (orDefault "global" (scope options)) key value))))
    as (-> & -> & ->).
  repeat split.
Qed.

Lemma verifyGitIdentity_exec_run
    {W : Type} `{RT : Runtime W} (options : Options) (w : W) :
  let scope := orDefault "global" options.(scope) in
  let w1 := snd (os_run w (readConfig scope "user.name")) in
  result (ChildProcess.verifyGitIdentity options w)
  = Returned {| username := valueExec (fst (os_run w (readConfig scope "user.name")));
                email := valueExec (fst (os_run w1 (readConfig scope "user.email"))) |}
  /\ final (ChildProcess.verifyGitIdentity options w)
     = snd (os_run w1 (readConfig scope "user.email"))
  /\ cmds (ChildProcess.verifyGitIdentity options w)
     = [(readConfig scope "user.name", fst (os_run w (readConfig scope "user.name")));
        (readConfig scope "user.email", fst (os_run w1 (readConfig scope "user.email")))].
Proof.
  cbv zeta. unfold ChildProcess.verifyGitIdentity. run_steps.
  destruct (getGitConfig_run "user.name" (ChildProcess.configOptions options) w)
    as (-> & -> & ->).
  cbv zeta. change (orDefault "global" (scope (ChildProcess.configOptions options)))
    with (orDefault "global" (scope options)).
  run_steps.
  destruct (getGitConfig_run "user.email" (ChildProcess.configOptions options)
              (snd (os_run w (readConfig (orDefault "global" (scope options)) "user.name"))))
    as (-> & -> & ->).
  cbv zeta. change (orDefault "global" (scope (ChildProcess.configOptions options)))
    with (orDefault "global" (scope options)).
  run_steps. repeat split.
Qed.

(** X3.  In the [child_process] variant the reads never throw, whatever
    the child does: [getGitConfig] returns the trimmed output of [git
    config <flag> <key>] ([--local] for the scope ['local'], [--global]
    otherwise) when the child exited with zero and [null] otherwise, also
    when git could not be spawned; [verifyGitIdentity] always returns an
    identity, from two reads, [user.name] first. *)
Theorem child_process_reads_never_throw
    {W : Type} `{RT : Runtime W} (key : string) (options : Options) (w : W) :
  let flag := match options.(scope) with
              | Some "local" => "--local"
              | _ => "--global"
              end in
  let read key := {| argv := ["git"; "config"; flag; key]; stdio := Capture |} in
  let w1 := snd (os_run w (read "user.name")) in
  result (ChildProcess.getGitConfig key options w)
  = Returned (valueExec (fst (os_run w (read key))))
  /\ result (ChildProcess.verifyGitIdentity options w)
     = Returned {| username := valueExec (fst (os_run w (read "user.name")));
                   email := valueExec (fst (os_run w1 (read "user.email"))) |}
  /\ cmds (ChildProcess.verifyGitIdentity options w)
     = [(read "user.name", fst (os_run w (read "user.name")));
        (read "user.email", fst (os_run w1 (read "user.email")))]
  /\ (forall msg out, valueExec (Failed msg out) = None)
  /\ (forall code out err,
        valueExec (Exited (Some code) out err)
        = if Z.eqb code 0 then Some (trim out) else None).
Proof.
  cbv beta zeta. fold_config.
  destruct (getGitConfig_run key options w) as (R & _).
  destruct (verifyGitIdentity_exec_run options w) as (V & _ & C).
  repeat split; assumption.
Qed.

(** X4.  [setGitConfig] runs [git config <flag> <key> <value>] once, the
    flag [--local] for the scope ['local'] and [--global] otherwise.
    It returns when the child exited with zero and otherwise throws
    [Failed to set git config <key>: <stderr>] with the standard error of
    git (trimmed in the [child_process] variant); a run that could not be
    started throws its own error in the [command-stream] variant and is
    reported with its message in place of the standard error in the
    [child_process] variant. *)
Theorem setGitConfig_throws_the_stderr
    {W : Type} `{RT : Runtime W} (key value : string) (options : Options) (w : W) :
  let flag := match options.(scope) with
              | Some "local" => "--local"
              | _ => "--global"
              end in
  let i := {| argv := ["git"; "config"; flag; key; value]; stdio := Capture |} in
  let o := fst (os_run w i) in
  (cmds (CommandStream.setGitConfig key value options w) = [(i, o)]
   /\ cmds (ChildProcess.setGitConfig key value options w) = [(i, o)])
  /\ (forall code out err, o = Exited (Some code) out err ->
      result (CommandStream.setGitConfig key value options w)
      = (if Z.eqb code 0 then Returned tt
         else Thrown (Error ("Failed to set git config " ++ key ++ ": " ++ err)))
      /\ result (ChildProcess.setGitConfig key value options w)
         = (if Z.eqb code 0 then Returned tt
            else Thrown (Error ("Failed to set git config " ++ key ++ ": " ++ trim err))))
  /\ (forall msg out, o = Failed msg out ->
      result (CommandStream.setGitConfig key value options w) = Thrown (Error msg)
      /\ result (ChildProcess.setGitConfig key value options w)
         = Thrown (Error ("Failed to set git config " ++ key ++ ": " ++ msg))).
Proof.
  cbv zeta. fold_config.
  destruct (setGitConfig_run key value options w) as (R1 & _ & C1).
  destruct (setGitConfig_exec_run key value options w) as (R2 & _ & C2).
  cbv zeta in R1, C1, R2, C2.
  split; [split; assumption|]. split.
  - intros code out err O. rewrite R1, R2, O. unfold exitedZero.
    cbn [ranZero writeError CommandStream.isZero ChildProcess.resolved
         ChildProcess.exitCode ChildProcess.stderr ChildProcess.orZero].
    split; reflexivity.
  - intros msg out O. rewrite R1, R2, O. split; reflexivity.
Qed.

(** A write that git refuses: the error carries git's standard error. *)
Lemma refused_write_quotes_git :
  result (CommandStream.setGitConfig "user.name" "ada" noOptions Machine.locked)
  = Thrown (Error "Failed to set git config user.name: error: could not lock config file").
Proof.
  exact (proj1 (proj1 (proj2 (setGitConfig_throws_the_stderr "user.name" "ada" noOptions
                                Machine.locked))
                  255%Z "" "error: could not lock config file" eq_refl)).
Defined.

(** X5.  One test decides the file: [setGitConfig] and [getGitConfig]
    pass [--local] to git when the scope is ['local'], and [--global] for
    any other text (['system'], a misspelling) and when no scope is
    given. *)
Theorem only_the_local_scope_is_local
    {W : Type} `{RT : Runtime W} (key value : string) (options : Options) (w : W) :
  let write flag := {| argv := ["git"; "config"; flag; key; value]; stdio := Capture |} in
  let read flag := {| argv := ["git"; "config"; flag; key]; stdio := Capture |} in
  let passes flag :=
    cmds (CommandStream.setGitConfig key value options w)
    = [(write flag, fst (os_run w (write flag)))]
    /\ cmds (ChildProcess.setGitConfig key value options w)
       = [(write flag, fst (os_run w (write flag)))]
    /\ cmds (CommandStream.getGitConfig key options w)
       = [(read flag, fst (os_run w (read flag)))]
    /\ cmds (ChildProcess.getGitConfig key options w)
       = [(read flag, fst (os_run w (read flag)))] in
  (options.(scope) = Some "local" -> passes "--local")
  /\ (options.(scope) <> Some "local" -> passes "--global").
Proof.
  cbv beta zeta.
  assert (L : scope options = Some "local" ->
              scopeFlag (orDefault "global" (scope options)) = "--local")
    by (intros ->; reflexivity).
  assert (G : scope options <> Some "local" ->
              scopeFlag (orDefault "global" (scope options)) = "--global").
  { intro S. unfold scopeFlag. destruct (scope options) as [s|]; [|reflexivity].
    cbn [orDefault]. destruct (String.eqb_spec s "local"); [congruence|reflexivity]. }
  destruct (setGitConfig_run key value options w) as (_ & _ & ->).
  destruct (setGitConfig_exec_run key value options w) as (_ & _ & ->).
  destruct (getGitConfig_stream_run key options w) as (_ & _ & ->).
  destruct (getGitConfig_run key options w) as (_ & _ & ->).
  unfold writeConfig, readConfig, git.
  split; intro S; [rewrite (L S)|rewrite (G S)]; repeat split.
Qed.

(** The scope ['local'] is written to the repository, the scope
    ['system'] to the global file. *)
Lemma local_and_system_scope :
  cmds (CommandStream.setGitConfig "user.name" "ada" localScope Machine.ada)
  = [({| argv := ["git"; "config"; "--local"; "user.name"; "ada"]; stdio := Capture |},
      Exited (Some 0%Z) "" "")]
  /\ cmds (CommandStream.setGitConfig "user.name" "ada" systemScope Machine.ada)
     = [({| argv := ["git"; "config"; "--global"; "user.name"; "ada"]; stdio := Capture |},
         Exited (Some 0%Z) "" "")].
Proof.
  split.
  - exact (proj1 (proj1 (only_the_local_scope_is_local "user.name" "ada" localScope
                           Machine.ada) eq_refl)).
  - refine (proj1 (proj2 (only_the_local_scope_is_local "user.name" "ada" systemScope
                            Machine.ada) _)).
    discriminate.
Defined.






(** ** More on the lookup and the credential helper *)

(** X6.  Every error [getGlabPath] throws has a message that contains
    [not found].  The [child_process] variant only ever throws the
    [NOT_FOUND] error; the [command-stream] variant throws a rejection of
    the lookup again as it is when its message already says [not found],
    and the [NOT_FOUND] error for any other failure. *)
Theorem getGlabPath_errors_say_not_found
    {W : Type} `{RT : Runtime W} (options : Options) (w : W) (e : JsError) :
  (result (ChildProcess.getGlabPath options w) = Thrown e -> e = Error NOT_FOUND)
  /\ (result (CommandStream.getGlabPath options w) = Thrown e ->
      includes (message e) "not found" = true
      /\ (e = Error NOT_FOUND
          \/ exists out, fst (os_run w lookup) = Failed (message e) out))
  /\ includes NOT_FOUND "not found" = true.
Proof.
  split; [|split].
  - destruct (getGlabPath_run options w) as (-> & _).
    destruct (answeredExec _); congruence.
  - destruct (getGlabPath_stream_run options w) as (-> & _).
    destruct (answeredRun _); [discriminate|]. intro E. injection E as <-.
    cbn [message].
    destruct (fst (os_run w lookup)) as [code out err|msg out]; cbn [lookupError].
    + split; [exact includes_NOT_FOUND|now left].
    + destruct (includes msg "not found") eqn:I.
      * split; [exact I|right; now exists out].
      * split; [exact includes_NOT_FOUND|now left].
  - exact includes_NOT_FOUND.
Qed.

(** Without glab on the [PATH] the error is the [NOT_FOUND] one. *)
Lemma missing_glab_is_not_found :
  result (CommandStream.getGlabPath noOptions Machine.bare) = Thrown (Error NOT_FOUND)
  /\ includes (message (Error NOT_FOUND)) "not found" = true.
Proof.
  assert (R : result (CommandStream.getGlabPath noOptions Machine.bare)
              = Thrown (Error NOT_FOUND)) by (vm_compute; reflexivity).
  split; [exact R|].
  exact (proj1 (proj1 (proj2 (getGlabPath_errors_say_not_found
                                noOptions Machine.bare (Error NOT_FOUND))) R)).
Defined.

(** X7.  With [force] set and glab found, [runGlabAuthSetupGit] never
    keeps an existing helper: it always runs the lookup, the read, the
    clearing write and the add, in this order, and returns whether the add
    succeeded, whatever the read and the clearing write gave. *)
Theorem forced_setup_always_rewrites
    {W : Type} `{RT : Runtime W} (options : Options) (w : W) :
  options.(force) = true ->
  let host := orDefault "gitlab.com" options.(hostname) in
  let o_lookup := fst (os_run w lookup) in
  let w1 := snd (os_run w lookup) in
  let o_read := fst (os_run w1 (readHelper host)) in
  let w2 := snd (os_run w1 (readHelper host)) in
  let o_clear := fst (os_run w2 (clearHelper host)) in
  let w3 := snd (os_run w2 (clearHelper host)) in
  (answeredRun o_lookup = true ->
   let path := trim (firstLine (printed o_lookup)) in
   let o_add := fst (os_run w3 (addHelper host path)) in
   result (CommandStream.runGlabAuthSetupGit options w) = Returned (ranZero o_add)
   /\ cmds (CommandStream.runGlabAuthSetupGit options w)
      = [(lookup, o_lookup); (readHelper host, o_read);
         (clearHelper host, o_clear); (addHelper host path, o_add)])
  /\ (answeredExec o_lookup = true ->
      let path := trim (firstLine (ChildProcess.stdout (ChildProcess.resolved o_lookup))) in
      let o_add := fst (os_run w3 (addHelper host path)) in
      result (ChildProcess.runGlabAuthSetupGit options w) = Returned (exitedZero o_add)
      /\ cmds (ChildProcess.runGlabAuthSetupGit options w)
         = [(lookup, o_lookup); (readHelper host, o_read);
            (clearHelper host, o_clear); (addHelper host path, o_add)]).
Proof.
  intro F. cbv zeta. split; intro L.
  - destruct (runGlabAuthSetupGit_stream_run options w) as (-> & _ & ->).
    change CommandStream.default_hostname with "gitlab.com".
    rewrite L, F, andb_false_r. split; reflexivity.
  - destruct (runGlabAuthSetupGit_run options w) as (-> & _ & ->).
    change ChildProcess.default_hostname with "gitlab.com".
    rewrite L, F, andb_false_r. split; reflexivity.
Qed.

(** A forced set-up on the configured workstation adds the helper
    again. *)
Lemma forced_setup_adds_again :
  result (CommandStream.runGlabAuthSetupGit forceOptions afterSetup) = Returned true
  /\ Machine.values (credentialKey "gitlab.com")
       (Machine.globalConfig
          (final (CommandStream.runGlabAuthSetupGit forceOptions afterSetup)))
     = [""; "!/usr/bin/glab auth git-credential"; "!/usr/bin/glab auth git-credential"].
Proof.
  destruct (forced_setup_always_rewrites forceOptions afterSetup eq_refl) as (Stream & _).
  destruct Stream as (R & _); [vm_compute; reflexivity|].
  rewrite R. split; vm_compute; reflexivity.
Defined.

(** X8.  A helper value that is blank is treated differently by the two
    variants.  When the read of the helper exits with zero and prints white
    space only (an empty value and its line feed), the [command-stream]
    variant, which tests the raw output, takes the helper as configured,
    returns [true] and writes nothing; the [child_process] variant, which
    tests the trimmed output, goes on to the clearing write and the add. *)
Theorem blank_helper_is_kept_by_one_variant
    {W : Type} `{RT : Runtime W} (options : Options) (w : W) (out err : string) :
  options.(force) = false ->
  let host := orDefault "gitlab.com" options.(hostname) in
  let o_lookup := fst (os_run w lookup) in
  let w1 := snd (os_run w lookup) in
  let w2 := snd (os_run w1 (readHelper host)) in
  let w3 := snd (os_run w2 (clearHelper host)) in
  fst (os_run w1 (readHelper host)) = Exited (Some 0%Z) out err ->
  out <> "" -> trim out = "" ->
  (answeredRun o_lookup = true ->
   result (CommandStream.runGlabAuthSetupGit options w) = Returned true
   /\ cmds (CommandStream.runGlabAuthSetupGit options w)
      = [(lookup, o_lookup); (readHelper host, Exited (Some 0%Z) out err)])
  /\ (answeredExec o_lookup = true ->
      let path := trim (firstLine (ChildProcess.stdout (ChildProcess.resolved o_lookup))) in
      cmds (ChildProcess.runGlabAuthSetupGit options w)
      = [(lookup, o_lookup); (readHelper host, Exited (Some 0%Z) out err);
         (clearHelper host, fst (os_run w2 (clearHelper host)));
         (addHelper host path, fst (os_run w3 (addHelper host path)))]).
Proof.
  intros F. cbv zeta. intros O N T. split; intro L.
  - destruct (runGlabAuthSetupGit_stream_run options w) as (-> & _ & ->).
    change CommandStream.default_hostname with "gitlab.com".
    rewrite L, O, F. cbn [answeredRun CommandStream.isZero Z.eqb].
    apply truthy_true in N. rewrite N. split; reflexivity.
  - destruct (runGlabAuthSetupGit_run options w) as (_ & _ & ->).
    change ChildProcess.default_hostname with "gitlab.com".
    rewrite L, O. unfold answeredExec at 1, exitedZero.
    cbn [ChildProcess.resolved ChildProcess.exitCode ChildProcess.stdout
         ChildProcess.orZero Z.eqb].
    rewrite T. reflexivity.
Qed.

(** On the workstation with an empty helper the [command-stream] variant
    reports success and leaves the empty helper in place. *)
Lemma empty_helper_stays :
  result (CommandStream.runGlabAuthSetupGit noOptions blankHelper) = Returned true
  /\ cmds (CommandStream.runGlabAuthSetupGit noOptions blankHelper)
     = [(lookup, Exited (Some 0%Z) ("/usr/bin/glab" ++ NL) "");
        (readHelper "gitlab.com", Exited (Some 0%Z) NL "")].
Proof.
  refine (proj1 (blank_helper_is_kept_by_one_variant noOptions blankHelper
                   (out := NL) (err := "") eq_refl _ _ _) _);
    try (vm_compute; reflexivity).
  discriminate.
Defined.

(** ** Fetching the user record *)

Lemma fetchUserData_value
    {W : Type} `{RT : Runtime W} (what what' : string) (options : Options) (w : W)
    (v : JsValue) :
  result (CommandStream.fetchUserData what options w) = Returned v ->
  result (CommandStream.fetchUserData what' options w) = Returned v.
Proof.
  destruct (fetchUserData_run what options w) as (-> & _).
  destruct (fetchUserData_run what' options w) as (-> & _).
  destruct (fst (os_run w (apiUser (hostname options)))) as [code out err|msg out];
    [|discriminate].
  destruct (CommandStream.isZero code); [|discriminate].
  now destruct (JSON_parse (trim out)).
Qed.

(** X9.  In the [command-stream] variant [getGitLabUserInfo] returns an
    identity exactly when, from the same state, [getGitLabUsername] and
    [getGitLabEmail] return its two fields; each of the three runs the one
    process [glab api user], so the combined operation saves a call. *)
Theorem getGitLabUserInfo_agrees_with_the_single_fetches
    {W : Type} `{RT : Runtime W} (options : Options) (w : W) (u e : JsValue) :
  (result (CommandStream.getGitLabUserInfo options w)
   = Returned {| username := u; email := e |}
   <-> result (CommandStream.getGitLabUsername options w) = Returned u
       /\ result (CommandStream.getGitLabEmail options w) = Returned e)
  /\ cmds (CommandStream.getGitLabUserInfo options w)
     = [(apiUser options.(hostname), fst (os_run w (apiUser options.(hostname))))]
  /\ cmds (CommandStream.getGitLabUsername options w)
     = cmds (CommandStream.getGitLabUserInfo options w)
  /\ cmds (CommandStream.getGitLabEmail options w)
     = cmds (CommandStream.getGitLabUserInfo options w).
Proof.
  destruct (getGitLabUserInfo_stream_run options w) as (Ri & _ & Ci).
  destruct (getGitLabUsername_stream_run options w) as (Ru & _ & Cu).
  destruct (getGitLabEmail_stream_run options w) as (Re & _ & Ce).
  rewrite Ci, Cu, Ce. split; [|repeat split].
  rewrite Ri, Ru, Re. clear Ri Ru Re Ci Cu Ce.
  destruct (result (CommandStream.fetchUserData "user info" options w)) as [v|x] eqn:Fi.
  - rewrite (fetchUserData_value "user info" "username" options w Fi),
      (fetchUserData_value "user info" "email" options w Fi).
    destruct (getProperty v "username") as [u'|x];
      [|split; [discriminate|intros [? _]; discriminate]].
    destruct (getProperty v "email") as [e'|x];
      [|split; [discriminate|intros [_ ?]; discriminate]].
    destruct (toBoolean u'), (toBoolean e'); split;
      try discriminate; try (intros [? ?]; discriminate).
    + intro E. injection E as -> ->. split; reflexivity.
    + intros [E1 E2]. injection E1 as ->. injection E2 as ->. reflexivity.
  - split; [discriminate|]. intros [U _].
    destruct (result (CommandStream.fetchUserData "username" options w)) as [v|y] eqn:Fu;
      [|discriminate].
    rewrite (fetchUserData_value "username" "user info" options w Fu) in Fi. discriminate.
Qed.

(** X10.  In the [child_process] variant [getGitLabUserInfo] always runs
    both [glab api user --jq] processes, the one for the username first,
    also when the first fails.  It returns the two trimmed outputs when
    both exit with zero and the email is not empty, and throws
    otherwise. *)
Theorem child_process_user_info_runs_both_fetches
    {W : Type} `{RT : Runtime W} (options : Options) (w : W) :
  let i := apiUserField ".username" options.(hostname) in
  let j := apiUserField ".email" options.(hostname) in
  let o1 := fst (os_run w i) in
  let o2 := fst (os_run (snd (os_run w i)) j) in
  cmds (ChildProcess.getGitLabUserInfo options w) = [(i, o1); (j, o2)]
  /\ (exitedZero o1 = true /\ answeredExec o2 = true ->
      result (ChildProcess.getGitLabUserInfo options w)
      = Returned {| username := ChildProcess.stdout (ChildProcess.resolved o1);
                    email := ChildProcess.stdout (ChildProcess.resolved o2) |})
  /\ (exitedZero o1 = false \/ answeredExec o2 = false ->
      exists e, result (ChildProcess.getGitLabUserInfo options w) = Thrown e).
Proof.
  cbv zeta.
  destruct (getGitLabUserInfo_frame options w) as (_ & C). cbv zeta in C.
  split; [exact C|].
  unfold ChildProcess.getGitLabUserInfo. rewrite result_bind, result_Promise_all2.
  destruct (getGitLabUsername_run options w) as (-> & -> & _).
  destruct (getGitLabEmail_run options
              (snd (os_run w (apiUserField ".username" (hostname options)))))
    as (-> & _ & _).
  cbv zeta. unfold answeredExec, exitedZero.
  set (a := (ChildProcess.exitCode (ChildProcess.resolved (fst (os_run w _))) =? 0)%Z).
  set (b := (ChildProcess.exitCode _ =? 0)%Z).
  set (c := truthy _).
  split.
  - intros [Z1 A2]. rewrite Z1. apply andb_true_iff in A2. destruct A2 as [-> ->].
    reflexivity.
  - intros D. destruct a, b, c; cbn [andb] in D;
      try (destruct D; discriminate); eexists; reflexivity.
Qed.

(** On the workstation both fields are fetched, the username first. *)
Lemma both_fields_are_fetched :
  result (ChildProcess.getGitLabUserInfo noOptions Machine.ada)
  = Returned {| username := "ada"; email := "ada@example.com" |}.
Proof.
  etransitivity.
  - apply (proj1 (proj2 (child_process_user_info_runs_both_fetches noOptions Machine.ada))).
    split; vm_compute; reflexivity.
  - vm_compute. reflexivity.
Defined.

(** X13.  The [child_process] variant of [setupGitIdentity], when it is
    no dry run and the fetch returned [info], runs the two fetches, then
    the write of [user.name] and, only if that child exited with zero, the
    write of [user.email], both with [--local] for the scope ['local'] and
    with [--global] otherwise; a failed write throws [Failed to set git
    config <key>: <stderr>] and nothing is run after it. *)
Theorem child_process_setup_writes_name_first
    {W : Type} `{RT : Runtime W} (options : Options) (w : W) (info : Identity string) :
  options.(dryRun) = false ->
  result (ChildProcess.getGitLabUserInfo (ChildProcess.fetchOptions options) w)
  = Returned info ->
  let flag := match options.(scope) with
              | Some "local" => "--local"
              | _ => "--global"
              end in
  let fetched := cmds (ChildProcess.getGitLabUserInfo (ChildProcess.fetchOptions options) w) in
  let w1 := final (ChildProcess.getGitLabUserInfo (ChildProcess.fetchOptions options) w) in
  let name := {| argv := ["git"; "config"; flag; "user.name"; info.(username)];
                 stdio := Capture |} in
  let mail := {| argv := ["git"; "config"; flag; "user.email"; info.(email)];
                 stdio := Capture |} in
  let o1 := fst (os_run w1 name) in
  let w2 := snd (os_run w1 name) in
  let o2 := fst (os_run w2 mail) in
  (exitedZero o1 = false ->
   cmds (ChildProcess.setupGitIdentity options w) = (fetched ++ [(name, o1)])%list
   /\ final (ChildProcess.setupGitIdentity options w) = w2
   /\ result (ChildProcess.setupGitIdentity options w)
      = Thrown (Error ("Failed to set git config user.name: "
                       ++ ChildProcess.stderr (ChildProcess.resolved o1))))
  /\ (exitedZero o1 = true ->
      cmds (ChildProcess.setupGitIdentity options w)
      = (fetched ++ [(name, o1); (mail, o2)])%list
      /\ result (ChildProcess.setupGitIdentity options w)
         = if exitedZero o2 then Returned info
           else Thrown (Error ("Failed to set git config user.email: "
                               ++ ChildProcess.stderr (ChildProcess.resolved o2)))).
Proof.
  intros D F. cbv zeta. fold_config.
  unfold ChildProcess.setupGitIdentity. cbv zeta. rewrite D. run_steps. rewrite F. run_steps.
  destruct (setGitConfig_exec_run "user.name" (username info)
              (ChildProcess.configOptions options)
              (final (ChildProcess.getGitLabUserInfo (ChildProcess.fetchOptions options) w)))
    as (-> & -> & ->).
  cbv zeta. change (orDefault "global" (scope (ChildProcess.configOptions options)))
    with (orDefault "global" (scope options)).
  split; intros ->; run_steps; [repeat split|].
  destruct (setGitConfig_exec_run "user.email" (email info)
              (ChildProcess.configOptions options)
              (snd (os_run (final (ChildProcess.getGitLabUserInfo
                                     (ChildProcess.fetchOptions options) w))
                      (writeConfig (orDefault "global" (scope options)) "user.name"
                         (username info))))) as (-> & _ & ->).
  cbv zeta. change (orDefault "global" (scope (ChildProcess.configOptions options)))
    with (orDefault "global" (scope options)).
  destruct (exitedZero _); run_steps; destruct info; repeat split.
Qed.

(** The locked configuration file, seen by the [child_process] variant. *)
Lemma locked_configuration_stops_the_setup :
  result (ChildProcess.setupGitIdentity noOptions Machine.locked)
  = Thrown (Error "Failed to set git config user.name: error: could not lock config file").
Proof.
  assert (F : result (ChildProcess.getGitLabUserInfo
                        (ChildProcess.fetchOptions noOptions) Machine.locked)
              = Returned {| username := "ada"; email := "ada@example.com" |})
    by (vm_compute; reflexivity).
  destruct (child_process_setup_writes_name_first noOptions Machine.locked eq_refl F)
    as (Failing & _).
  destruct Failing as (_ & _ & R); [vm_compute; reflexivity|].
  rewrite R. vm_compute. reflexivity.
Defined.

(** ** Verbose mode *)

Section Alike.
Context {W : Type} `{RT : Runtime W}.

Lemma alike_refl {A} (m : @M W A) : alike m m.
Proof. intro w. repeat split. Qed.

Lemma alike_bind {A B} (m m' : @M W A) (k k' : A -> @M W B) :
  alike m m' -> (forall a, alike (k a) (k' a)) -> alike (bind m k) (bind m' k').
Proof.
  intros Hm Hk w. rewrite !result_bind, !final_bind, !cmds_bind.
  destruct (Hm w) as (-> & -> & ->).
  destruct (result (m' w)) as [a|e]; [|repeat split].
  destruct (Hk a (final (m' w))) as (-> & -> & ->). repeat split.
Qed.

Lemma alike_try_catch {A} (m m' : @M W A) (h h' : JsError -> @M W A) :
  alike m m' -> (forall e, alike (h e) (h' e)) -> alike (try_catch m h) (try_catch m' h').
Proof.
  intros Hm Hh w. rewrite !result_try_catch, !final_try_catch, !cmds_try_catch.
  destruct (Hm w) as (-> & -> & ->).
  destruct (result (m' w)) as [a|e]; [repeat split|].
  destruct (Hh e (final (m' w))) as (-> & -> & ->). repeat split.
Qed.

Lemma alike_silent (m m' : @M W unit) : silent m -> silent m' -> alike m m'.
Proof.
  intros S S' w. destruct (S w) as (-> & -> & ->). destruct (S' w) as (-> & -> & ->).
  repeat split.
Qed.

Lemma alike_seq {B} (m m' : @M W unit) (k k' : @M W B) :
  silent m -> silent m' -> alike k k' ->
  alike (bind m (fun _ => k)) (bind m' (fun _ => k')).
Proof.
  intros S S' K. apply alike_bind; [now apply alike_silent|intros _; exact K].
Qed.

Lemma alike_Promise_all2 {A B} (p p' : @M W A) (q q' : @M W B) :
  alike p p' -> alike q q' ->
  alike (ChildProcess.Promise_all2 p q) (ChildProcess.Promise_all2 p' q').
Proof.
  intros Hp Hq w.
  rewrite !result_Promise_all2, !final_Promise_all2, !cmds_Promise_all2.
  destruct (Hp w) as (-> & -> & ->).
  destruct (Hq (final (p' w))) as (-> & -> & ->).
  repeat split.
Qed.

End Alike.

Create HintDb alike.

(** Walks two operations that differ in their log lines only. *)
Ltac alike_steps :=
  cbn [withVerbose hostname token gitProtocol apiProtocol apiHost useKeyring
       jobToken stdin force scope dryRun verbose];
  repeat first
    [ apply alike_refl
    | solve [auto with alike]
    | apply alike_silent; solve [auto with silent]
    | apply alike_seq; [solve [auto with silent]|solve [auto with silent]|]
    | apply alike_bind; [|intro]
    | apply alike_try_catch; [|intro]
    | apply alike_Promise_all2
    | match goal with
      | |- alike (if ?c then _ else _) (if ?c then _ else _) => destruct c
      | |- alike (match ?o with inl _ => _ | inr _ => _ end) _ => destruct o
      end ].

Section VerboseStream.
Import CommandStream.
Context {W : Type} `{RT : Runtime W}.
Variables (options : Options) (v : bool).

Lemma verbose_getGlabPath : alike (getGlabPath options) (getGlabPath (withVerbose v options)).
Proof. unfold getGlabPath. cbv zeta. alike_steps. Qed.

Lemma verbose_runGlabAuthLogin :
  alike (runGlabAuthLogin options) (runGlabAuthLogin (withVerbose v options)).
Proof. unfold runGlabAuthLogin. cbv zeta. alike_steps. Qed.

Hint Resolve verbose_getGlabPath : alike.

Lemma verbose_runGlabAuthSetupGit :
  alike (runGlabAuthSetupGit options) (runGlabAuthSetupGit (withVerbose v options)).
Proof. unfold runGlabAuthSetupGit. cbv zeta. alike_steps. Qed.

Lemma verbose_isGlabAuthenticated :
  alike (isGlabAuthenticated options) (isGlabAuthenticated (withVerbose v options)).
Proof. unfold isGlabAuthenticated. cbv zeta. alike_steps. Qed.

Lemma verbose_fetchUserData what :
  alike (fetchUserData what options) (fetchUserData what (withVerbose v options)).
Proof. unfold fetchUserData. cbv zeta. alike_steps. Qed.

Hint Resolve verbose_fetchUserData : alike.

Lemma verbose_getGitLabUsername :
  alike (getGitLabUsername options) (getGitLabUsername (withVerbose v options)).
Proof. unfold getGitLabUsername. cbv zeta. alike_steps. Qed.

Lemma verbose_getGitLabEmail :
  alike (getGitLabEmail options) (getGitLabEmail (withVerbose v options)).
Proof. unfold getGitLabEmail. cbv zeta. alike_steps. Qed.

Lemma verbose_getGitLabUserInfo :
  alike (getGitLabUserInfo options) (getGitLabUserInfo (withVerbose v options)).
Proof. unfold getGitLabUserInfo. cbv zeta. alike_steps. Qed.

Lemma verbose_setGitConfig key value :
  alike (setGitConfig key value options) (setGitConfig key value (withVerbose v options)).
Proof. unfold setGitConfig. cbv zeta. alike_steps. Qed.

Lemma verbose_getGitConfig key :
  alike (getGitConfig key options) (getGitConfig key (withVerbose v options)).
Proof. unfold getGitConfig. cbv zeta. alike_steps. Qed.

End VerboseStream.

Section VerboseStreamIdentity.
Import CommandStream.
Context {W : Type} `{RT : Runtime W}.
Variables (options : Options) (v : bool).

Lemma verbose_setupGitIdentity :
  alike (setupGitIdentity options) (setupGitIdentity (withVerbose v options)).
Proof.
  unfold setupGitIdentity. cbv zeta.
  pose proof (verbose_getGitLabUserInfo (fetchOptions options) v) as F.
  pose proof (fun key value => verbose_setGitConfig (configOptions options) v key value) as S.
  change (withVerbose v (fetchOptions options)) with (fetchOptions (withVerbose v options)) in F.
  change (withVerbose v (configOptions options))
    with (configOptions (withVerbose v options)) in S.
  alike_steps; auto.
Qed.

Lemma verbose_verifyGitIdentity :
  alike (verifyGitIdentity options) (verifyGitIdentity (withVerbose v options)).
Proof.
  unfold verifyGitIdentity.
  pose proof (fun key => verbose_getGitConfig (configOptions options) v key) as G.
  change (withVerbose v (configOptions options))
    with (configOptions (withVerbose v options)) in G.
  alike_steps; auto.
Qed.

End VerboseStreamIdentity.

Section VerboseExec.
Import ChildProcess.
Context {W : Type} `{RT : Runtime W}.
Variables (options : Options) (v : bool).

Lemma verbose_exec_getGlabPath :
  alike (getGlabPath options) (getGlabPath (withVerbose v options)).
Proof. unfold getGlabPath. cbv zeta. alike_steps. Qed.

Lemma verbose_exec_runGlabAuthLogin :
  alike (runGlabAuthLogin options) (runGlabAuthLogin (withVerbose v options)).
Proof.
  unfold runGlabAuthLogin. cbv zeta.
  change (loginArgs (withVerbose v options)) with (loginArgs options).
  alike_steps.
Qed.

Hint Resolve verbose_exec_getGlabPath : alike.

Lemma verbose_exec_runGlabAuthSetupGit :
  alike (runGlabAuthSetupGit options) (runGlabAuthSetupGit (withVerbose v options)).
Proof. unfold runGlabAuthSetupGit. cbv zeta. alike_steps. Qed.

Lemma verbose_exec_isGlabAuthenticated :
  alike (isGlabAuthenticated options) (isGlabAuthenticated (withVerbose v options)).
Proof. unfold isGlabAuthenticated. cbv zeta. alike_steps. Qed.

Lemma verbose_exec_getGitLabUsername :
  alike (getGitLabUsername options) (getGitLabUsername (withVerbose v options)).
Proof. unfold getGitLabUsername. cbv zeta. alike_steps. Qed.

Lemma verbose_exec_getGitLabEmail :
  alike (getGitLabEmail options) (getGitLabEmail (withVerbose v options)).
Proof. unfold getGitLabEmail. cbv zeta. alike_steps. Qed.

Hint Resolve verbose_exec_getGitLabUsername verbose_exec_getGitLabEmail : alike.

Lemma verbose_exec_getGitLabUserInfo :
  alike (getGitLabUserInfo options) (getGitLabUserInfo (withVerbose v options)).
Proof. unfold getGitLabUserInfo. alike_steps. Qed.

Lemma verbose_exec_setGitConfig key value :
  alike (setGitConfig key value options) (setGitConfig key value (withVerbose v options)).
Proof. unfold setGitConfig. cbv zeta. alike_steps. Qed.

Lemma verbose_exec_getGitConfig key :
  alike (getGitConfig key options) (getGitConfig key (withVerbose v options)).
Proof. unfold getGitConfig. cbv zeta. alike_steps. Qed.

End VerboseExec.

Section VerboseExecIdentity.
Import ChildProcess.
Context {W : Type} `{RT : Runtime W}.
Variables (options : Options) (v : bool).

Lemma verbose_exec_setupGitIdentity :
  alike (setupGitIdentity options) (setupGitIdentity (withVerbose v options)).
Proof.
  unfold setupGitIdentity. cbv zeta.
  pose proof (verbose_exec_getGitLabUserInfo (fetchOptions options) v) as F.
  pose proof (fun key value => verbose_exec_setGitConfig (configOptions options) v key value)
    as S.
  change (withVerbose v (fetchOptions options)) with (fetchOptions (withVerbose v options)) in F.
  change (withVerbose v (configOptions options))
    with (configOptions (withVerbose v options)) in S.
  alike_steps; auto.
Qed.

Lemma verbose_exec_verifyGitIdentity :
  alike (verifyGitIdentity options) (verifyGitIdentity (withVerbose v options)).
Proof.
  unfold verifyGitIdentity.
  pose proof (fun key => verbose_exec_getGitConfig (configOptions options) v key) as G.
  change (withVerbose v (configOptions options))
    with (configOptions (withVerbose v options)) in G.
  alike_steps; auto.
Qed.

End VerboseExecIdentity.

(** X12.  The [verbose] option changes what is logged and nothing else:
    with [verbose] set either way, every exported operation of either
    variant completes the same (the same value returned or error thrown),
    runs the same processes in the same order and leaves the same
    machine. *)
Theorem verbose_changes_the_log_only
    {W : Type} `{RT : Runtime W} (options : Options) (v : bool) (key value : string) :
  (alike (CommandStream.getGlabPath options)
         (CommandStream.getGlabPath (withVerbose v options))
   /\ alike (CommandStream.runGlabAuthLogin options)
            (CommandStream.runGlabAuthLogin (withVerbose v options))
   /\ alike (CommandStream.runGlabAuthSetupGit options)
            (CommandStream.runGlabAuthSetupGit (withVerbose v options))
   /\ alike (CommandStream.isGlabAuthenticated options)
            (CommandStream.isGlabAuthenticated (withVerbose v options))
   /\ alike (CommandStream.getGitLabUsername options)
            (CommandStream.getGitLabUsername (withVerbose v options))
   /\ alike (CommandStream.getGitLabEmail options)
            (CommandStream.getGitLabEmail (withVerbose v options))
   /\ alike (CommandStream.getGitLabUserInfo options)
            (CommandStream.getGitLabUserInfo (withVerbose v options))
   /\ alike (CommandStream.setGitConfig key value options)
            (CommandStream.setGitConfig key value (withVerbose v options))
   /\ alike (CommandStream.getGitConfig key options)
            (CommandStream.getGitConfig key (withVerbose v options))
   /\ alike (CommandStream.setupGitIdentity options)
            (CommandStream.setupGitIdentity (withVerbose v options))
   /\ alike (CommandStream.verifyGitIdentity options)
            (CommandStream.verifyGitIdentity (withVerbose v options)))
  /\ (alike (ChildProcess.getGlabPath options)
            (ChildProcess.getGlabPath (withVerbose v options))
      /\ alike (ChildProcess.runGlabAuthLogin options)
               (ChildProcess.runGlabAuthLogin (withVerbose v options))
      /\ alike (ChildProcess.runGlabAuthSetupGit options)
               (ChildProcess.runGlabAuthSetupGit (withVerbose v options))
      /\ alike (ChildProcess.isGlabAuthenticated options)
               (ChildProcess.isGlabAuthenticated (withVerbose v options))
      /\ alike (ChildProcess.getGitLabUsername options)
               (ChildProcess.getGitLabUsername (withVerbose v options))
      /\ alike (ChildProcess.getGitLabEmail options)
               (ChildProcess.getGitLabEmail (withVerbose v options))
      /\ alike (ChildProcess.getGitLabUserInfo options)
               (ChildProcess.getGitLabUserInfo (withVerbose v options))
      /\ alike (ChildProcess.setGitConfig key value options)
               (ChildProcess.setGitConfig key value (withVerbose v options))
      /\ alike (ChildProcess.getGitConfig key options)
               (ChildProcess.getGitConfig key (withVerbose v options))
      /\ alike (ChildProcess.setupGitIdentity options)
               (ChildProcess.setupGitIdentity (withVerbose v options))
      /\ alike (ChildProcess.verifyGitIdentity options)
               (ChildProcess.verifyGitIdentity (withVerbose v options))).
Proof.
  repeat match goal with |- _ /\ _ => split end;
    auto using verbose_getGlabPath, verbose_runGlabAuthLogin, verbose_runGlabAuthSetupGit,
      verbose_isGlabAuthenticated, verbose_getGitLabUsername, verbose_getGitLabEmail,
      verbose_getGitLabUserInfo, verbose_setGitConfig, verbose_getGitConfig,
      verbose_setupGitIdentity, verbose_verifyGitIdentity,
      verbose_exec_getGlabPath, verbose_exec_runGlabAuthLogin,
      verbose_exec_runGlabAuthSetupGit, verbose_exec_isGlabAuthenticated,
      verbose_exec_getGitLabUsername, verbose_exec_getGitLabEmail,
      verbose_exec_getGitLabUserInfo, verbose_exec_setGitConfig,
      verbose_exec_getGitConfig, verbose_exec_setupGitIdentity,
      verbose_exec_verifyGitIdentity.
Qed.

(** ** The command-line front end *)

(** ** The command-line front end *)

Section SilentBlocks.
Context {W : Type} `{RT : Runtime W}.

Lemma silent_ret : silent (ret (W := W) tt).
Proof. intro w. repeat split. Qed.

Lemma silent_seq (a b : @M W unit) : silent a -> silent b -> silent (bind a (fun _ => b)).
Proof.
  intros A B w. rewrite result_seq, final_seq, cmds_seq by assumption. apply B.
Qed.

Lemma silent_if (c : bool) (a b : @M W unit) :
  silent a -> silent b -> silent (if c then a else b).
Proof. now destruct c. Qed.

Lemma silent_console_log (line : string) : silent (Cli.console_log (W := W) line).
Proof. apply silent_emit. Qed.

Lemma silent_console_error (line : string) : silent (Cli.console_error (W := W) line).
Proof. apply silent_emit. Qed.

End SilentBlocks.

#[export] Hint Resolve silent_ret silent_seq silent_if silent_console_log
  silent_console_error : silent.

(** Proves that a block of log lines is silent. *)
Ltac silence :=
  repeat first
    [ apply silent_console_log | apply silent_console_error | apply silent_emit
    | apply silent_ret | apply silent_seq | apply silent_if ].

Section CliRuns.
Context {W : Type} `{RT : Runtime W}.
Implicit Types (w : W) (config : Cli.Config).

Lemma silent_printHeadlessAuthInstructions config :
  silent (Cli.printHeadlessAuthInstructions (W := W) config).
Proof. unfold Cli.printHeadlessAuthInstructions. silence. Qed.

Lemma silent_displayResults info scope dryRun :
  silent (Cli.displayResults (W := W) info scope dryRun).
Proof. unfold Cli.displayResults. silence. Qed.

Hint Resolve silent_printHeadlessAuthInstructions silent_displayResults : silent.

Lemma handleAlreadyAuthenticated_run config w :
  let setup := CommandStream.runGlabAuthSetupGit (Cli.hostOptions config) w in
  result (Cli.handleAlreadyAuthenticated config w) = Returned true
  /\ final (Cli.handleAlreadyAuthenticated config w) = final setup
  /\ cmds (Cli.handleAlreadyAuthenticated config w) = cmds setup.
Proof.
  cbv zeta. unfold Cli.handleAlreadyAuthenticated. run_steps.
  destruct (runGlabAuthSetupGit_stream_run (Cli.hostOptions config) w) as (-> & _ & _).
  run_steps. rewrite app_nil_r. repeat split.
Qed.

Lemma handleNotAuthenticated_run config w :
  let login := loginRun (Cli.getAuthOptions config) in
  let o := fst (os_run w login) in
  let w1 := snd (os_run w login) in
  let setup := CommandStream.runGlabAuthSetupGit (Cli.hostOptions config) w1 in
  result (Cli.handleNotAuthenticated config w) = Returned (ranZero o)
  /\ final (Cli.handleNotAuthenticated config w) = (if ranZero o then final setup else w1)
  /\ cmds (Cli.handleNotAuthenticated config w)
     = (login, o) :: if ranZero o then cmds setup else [].
Proof.
  cbv zeta. unfold Cli.handleNotAuthenticated. run_steps.
  destruct (runGlabAuthLogin_stream_run (Cli.getAuthOptions config) w) as (-> & -> & ->).
  cbv zeta. run_steps.
  destruct (ranZero _); cbn [negb]; run_steps; [|repeat split].
  destruct (runGlabAuthSetupGit_stream_run (Cli.hostOptions config)
              (snd (os_run w (loginRun (Cli.getAuthOptions config))))) as (-> & _ & _).
  run_steps. rewrite app_nil_r. repeat split.
Qed.

Lemma ensureAuthenticated_run config w :
  let status := authStatus (Some (Cli.hostname config)) in
  let o_s := fst (os_run w status) in
  let w1 := snd (os_run w status) in
  let login := loginRun (Cli.getAuthOptions config) in
  let o_l := fst (os_run w1 login) in
  let w2 := snd (os_run w1 login) in
  let setup w' := CommandStream.runGlabAuthSetupGit (Cli.hostOptions config) w' in
  result (Cli.ensureAuthenticated config w) = Returned (ranZero o_s || ranZero o_l)
  /\ final (Cli.ensureAuthenticated config w)
     = (if ranZero o_s then final (setup w1)
        else if ranZero o_l then final (setup w2) else w2)
  /\ cmds (Cli.ensureAuthenticated config w)
     = (status, o_s)
       :: if ranZero o_s then cmds (setup w1)
          else (login, o_l) :: if ranZero o_l then cmds (setup w2) else [].
Proof.
  cbv zeta. unfold Cli.ensureAuthenticated. run_steps.
  destruct (isGlabAuthenticated_stream_run (Cli.hostOptions config) w) as (-> & -> & ->).
  cbv zeta. change (hostname (Cli.hostOptions config)) with (Some (Cli.hostname config)).
  destruct (ranZero (fst (os_run w (authStatus (Some (Cli.hostname config)))))); cbn [orb].
  - destruct (handleAlreadyAuthenticated_run config
                (snd (os_run w (authStatus (Some (Cli.hostname config))))))
      as (-> & -> & ->).
    repeat split.
  - destruct (handleNotAuthenticated_run config
                (snd (os_run w (authStatus (Some (Cli.hostname config))))))
      as (-> & -> & ->).
    repeat split.
Qed.

End CliRuns.

#[export] Hint Resolve silent_printHeadlessAuthInstructions silent_displayResults : silent.


(** X11.  [ensureAuthenticated] never throws.  It returns [true] when
    [glab auth status] exits with zero, without running a login, and
    otherwise whether [glab auth login] exited with zero.  After a failed
    login nothing else is run: the credential helper is not set up.  When
    it returns [true] the set-up of the credential helper has been run,
    and its outcome does not change the result. *)
Theorem ensureAuthenticated_is_status_or_login
    {W : Type} `{RT : Runtime W} (config : Cli.Config) (w : W) :
  let status := authStatus (Some (Cli.hostname config)) in
  let o_s := fst (os_run w status) in
  let w1 := snd (os_run w status) in
  let login := loginRun (Cli.getAuthOptions config) in
  let o_l := fst (os_run w1 login) in
  let w2 := snd (os_run w1 login) in
  let setup w' := CommandStream.runGlabAuthSetupGit (Cli.hostOptions config) w' in
  result (Cli.ensureAuthenticated config w) = Returned (ranZero o_s || ranZero o_l)
  /\ (ranZero o_s = true ->
      cmds (Cli.ensureAuthenticated config w) = (status, o_s) :: cmds (setup w1))
  /\ (ranZero o_s = false -> ranZero o_l = true ->
      cmds (Cli.ensureAuthenticated config w)
      = (status, o_s) :: (login, o_l) :: cmds (setup w2))
  /\ (ranZero o_s = false -> ranZero o_l = false ->
      result (Cli.ensureAuthenticated config w) = Returned false
      /\ cmds (Cli.ensureAuthenticated config w) = [(status, o_s); (login, o_l)]
      /\ final (Cli.ensureAuthenticated config w) = w2).
Proof.
  cbv zeta. destruct (ensureAuthenticated_run config w) as (R & F & C).
  cbv zeta in R, F, C. rewrite R, F, C.
  split; [reflexivity|]. split; [now intros ->|]. split; [now intros -> ->|].
  intros -> ->. repeat split.
Qed.

(** On the logged-out workstation the login is run and the helper set up
    after it. *)
Lemma logged_out_workstation_logs_in :
  result (Cli.ensureAuthenticated Cli.defaults loggedOut) = Returned true
  /\ map (fun c => argv (fst c)) (cmds (Cli.ensureAuthenticated Cli.defaults loggedOut))
     = [["glab"; "auth"; "status"; "--hostname"; "gitlab.com"];
        ["glab"; "auth"; "login"; "--hostname"; "gitlab.com"; "--git-protocol"; "https";
         "--api-protocol"; "https"];
        ["which"; "glab"];
        ["git"; "config"; "--global"; "--get"; "credential.https://gitlab.com.helper"];
        ["git"; "config"; "--global"; "credential.https://gitlab.com.helper"; ""];
        ["git"; "config"; "--global"; "--add"; "credential.https://gitlab.com.helper";
         "!/usr/bin/glab auth git-credential"]].
Proof.
  destruct (ensureAuthenticated_is_status_or_login Cli.defaults loggedOut)
    as (R & _ & C & _).
  rewrite R, C by (vm_compute; reflexivity).
  split; vm_compute; reflexivity.
Defined.


Section CliMain.
Context {W : Type} `{RT : Runtime W}.
Implicit Types (w : W) (config : Cli.Config).

Lemma verifyGitIdentity_stream_frame options w :
  let scope := orDefault "global" options.(scope) in
  let read1 := readConfig scope "user.name" in
  let read2 := readConfig scope "user.email" in
  let o1 := fst (os_run w read1) in
  let w1 := snd (os_run w read1) in
  final (CommandStream.verifyGitIdentity options w)
  = match o1 with Failed _ _ => w1 | Exited _ _ _ => snd (os_run w1 read2) end
  /\ cmds (CommandStream.verifyGitIdentity options w)
     = (read1, o1) :: match o1 with
                      | Failed _ _ => []
                      | Exited _ _ _ => [(read2, fst (os_run w1 read2))]
                      end.
Proof.
  cbv zeta. unfold CommandStream.verifyGitIdentity. run_steps.
  destruct (getGitConfig_stream_run "user.name" (CommandStream.configOptions options) w)
    as (-> & -> & ->).
  cbv zeta. change (orDefault "global" (scope (CommandStream.configOptions options)))
    with (orDefault "global" (scope options)).
  destruct (fst (os_run w _)) as [c1 out1 err1|m1 out1]; [|split; reflexivity].
  run_steps.
  destruct (getGitConfig_stream_run "user.email" (CommandStream.configOptions options)
              (snd (os_run w (readConfig (orDefault "global" (scope options)) "user.name"))))
    as (-> & -> & ->).
  cbv zeta. change (orDefault "global" (scope (CommandStream.configOptions options)))
    with (orDefault "global" (scope options)).
  destruct (fst (os_run _ (readConfig _ "user.email"))); run_steps; split; reflexivity.
Qed.

Lemma runVerify_run scope verbose w :
  let w1 := snd (os_run w shownStatus) in
  let verify := CommandStream.verifyGitIdentity (Cli.scopeOptions scope verbose) w1 in
  result (Cli.runVerify scope verbose w)
  = match result verify with Returned _ => Returned tt | Thrown e => Thrown e end
  /\ final (Cli.runVerify scope verbose w) = final verify
  /\ cmds (Cli.runVerify scope verbose w) = (shownStatus, fst (os_run w shownStatus)) :: cmds verify.
Proof.
  cbv zeta. unfold Cli.runVerify. cbv zeta. run_steps.
  change {| argv := ["glab"; "auth"; "status"]; stdio := Mirror false |} with shownStatus.
  destruct (CommandStream.settled (fst (os_run w shownStatus))) as [shown|rejected];
    run_steps;
    (destruct (result (CommandStream.verifyGitIdentity (Cli.scopeOptions scope verbose)
                         (snd (os_run w shownStatus)))) as [identity|failure];
     [|rewrite ?app_nil_r; repeat split]);
    run_steps;
    destruct (Cli.isSet (username identity)), (Cli.isSet (email identity));
    run_steps; rewrite ?app_nil_r; repeat split.
Qed.

End CliMain.


Section CliMainRuns.
Context {W : Type} `{RT : Runtime W}.
Implicit Types (w : W) (config : Cli.Config).

Lemma main_verify_run config w :
  Cli.verify config = true ->
  let verify := Cli.runVerify (cliScope config) (Cli.verbose config) w in
  result (Cli.main config w)
  = Returned (match result verify with Returned _ => 0 | Thrown _ => 1 end)%Z
  /\ cmds (Cli.main config w) = cmds verify.
Proof.
  intro V. cbv zeta. unfold Cli.main. cbv zeta. rewrite V. run_steps.
  fold (cliScope config).
  destruct (result (Cli.runVerify (cliScope config) (Cli.verbose config) w)) as [u|e];
    run_steps; rewrite ?app_nil_r; [split; reflexivity|].
  destruct (Cli.verbose config); run_steps; rewrite ?app_nil_r; split; reflexivity.
Qed.

Lemma main_setup_run config w (authenticated : bool) :
  Cli.verify config = false ->
  result (Cli.ensureAuthenticated config w) = Returned authenticated ->
  let auth := Cli.ensureAuthenticated config w in
  let setup := CommandStream.setupGitIdentity (Cli.setupOptions config (cliScope config))
                 (final auth) in
  result (Cli.main config w)
  = Returned (if authenticated
              then match result setup with Returned _ => 0 | Thrown _ => 1 end
              else 1)%Z
  /\ cmds (Cli.main config w) = (cmds auth ++ if authenticated then cmds setup else [])%list.
Proof.
  intros V A. cbv zeta. unfold Cli.main. cbv zeta. rewrite V. run_steps.
  fold (cliScope config). rewrite A.
  destruct authenticated; cbn [negb]; run_steps; rewrite ?app_nil_r; [|split; reflexivity].
  destruct (result (CommandStream.setupGitIdentity _ _)) as [info|e];
    run_steps; rewrite ?app_nil_r; [split; reflexivity|].
  destruct (Cli.verbose config); run_steps; rewrite ?app_nil_r; split; reflexivity.
Qed.

End CliMainRuns.


(** What [main] runs and returns with [--verify]. *)
Lemma main_verify_frame
    {W : Type} `{RT : Runtime W} (config : Cli.Config) (w : W) :
  Cli.verify config = true ->
  let scope := cliScope config in
  let w1 := snd (os_run w shownStatus) in
  let read1 := readConfig scope "user.name" in
  let read2 := readConfig scope "user.email" in
  let o1 := fst (os_run w1 read1) in
  let o2 := fst (os_run (snd (os_run w1 read1)) read2) in
  cmds (Cli.main config w)
  = (shownStatus, fst (os_run w shownStatus))
    :: (read1, o1) :: match o1 with
                      | Failed _ _ => []
                      | Exited _ _ _ => [(read2, o2)]
                      end
  /\ result (Cli.main config w)
     = Returned (match o1, o2 with
                 | Exited _ _ _, Exited _ _ _ => 0
                 | _, _ => 1
                 end)%Z.
Proof.
  intro V. cbv zeta.
  destruct (main_verify_run config w V) as (-> & ->). cbv zeta.
  destruct (runVerify_run (cliScope config) (Cli.verbose config) w) as (-> & _ & ->).
  cbv zeta.
  destruct (verifyGitIdentity_stream_frame
              (Cli.scopeOptions (cliScope config) (Cli.verbose config))
              (snd (os_run w shownStatus))) as (_ & ->).
  rewrite verifyGitIdentity_stream_run. cbv zeta.
  change (orDefault "global" (scope (Cli.scopeOptions (cliScope config) (Cli.verbose config))))
    with (cliScope config).
  split; [reflexivity|].
  destruct (fst (os_run (snd (os_run w shownStatus)) _)); [|reflexivity].
  now destruct (fst (os_run _ (readConfig (cliScope config) "user.email"))).
Qed.

(** X15.  With [--verify] the front end only looks: it runs [glab auth
    status] (its outcome is ignored), then reads [user.name] and
    [user.email] with [--local] when [--local] was given and with
    [--global] otherwise, and nothing else; no login, no write.  The exit code is 0 whatever the reads find, set or
    unset; it is 1 only when a read could not be run at all. *)
Theorem verify_mode_only_reads
    {W : Type} `{RT : Runtime W} (config : Cli.Config) (w : W) :
  Cli.verify config = true ->
  let flag := if Cli.local config then "--local" else "--global" in
  let w1 := snd (os_run w shownStatus) in
  let read1 := {| argv := ["git"; "config"; flag; "user.name"]; stdio := Capture |} in
  let read2 := {| argv := ["git"; "config"; flag; "user.email"]; stdio := Capture |} in
  let o1 := fst (os_run w1 read1) in
  let o2 := fst (os_run (snd (os_run w1 read1)) read2) in
  cmds (Cli.main config w)
  = (shownStatus, fst (os_run w shownStatus))
    :: (read1, o1) :: match o1 with
                      | Failed _ _ => []
                      | Exited _ _ _ => [(read2, o2)]
                      end
  /\ result (Cli.main config w)
     = Returned (match o1, o2 with
                 | Exited _ _ _, Exited _ _ _ => 0
                 | _, _ => 1
                 end)%Z.
Proof.
  intro V. cbv zeta. fold_config. exact (main_verify_frame config w V).
Qed.

(** [--verify] on the workstation without an identity: exit code 0. *)
Lemma verify_without_identity_exits_zero :
  result (Cli.main Cli.verifying Machine.ada) = Returned 0%Z.
Proof.
  rewrite (proj2 (verify_mode_only_reads Cli.verifying Machine.ada eq_refl)).
  vm_compute. reflexivity.
Defined.

(** X16.  Without [--verify], [main] never throws and its exit code is 0
    exactly when [ensureAuthenticated] returned [true] and
    [setupGitIdentity] then returned; it is 1 when the login failed (the
    identity is then not even fetched) and when [setupGitIdentity] threw,
    the error being caught and printed. *)
Theorem main_exit_code
    {W : Type} `{RT : Runtime W} (config : Cli.Config) (w : W) :
  Cli.verify config = false ->
  let auth := Cli.ensureAuthenticated config w in
  let setup := CommandStream.setupGitIdentity (Cli.setupOptions config (cliScope config))
                 (final auth) in
  (result auth = Returned false ->
   result (Cli.main config w) = Returned 1%Z /\ cmds (Cli.main config w) = cmds auth)
  /\ (result auth = Returned true ->
      cmds (Cli.main config w) = (cmds auth ++ cmds setup)%list
      /\ (forall info, result setup = Returned info ->
                       result (Cli.main config w) = Returned 0%Z)
      /\ (forall e, result setup = Thrown e -> result (Cli.main config w) = Returned 1%Z)).
Proof.
  intro V. cbv zeta. split; intro A.
  - destruct (@main_setup_run _ _ config w _ V A) as (-> & ->). now rewrite app_nil_r.
  - destruct (@main_setup_run _ _ config w _ V A) as (-> & ->). cbv zeta.
    split; [reflexivity|]. split; intros x ->; reflexivity.
Qed.

(** A plain run on the workstation: exit code 0 and the identity of the
    account in the global configuration. *)
Lemma plain_run_configures_the_identity :
  result (Cli.main Cli.defaults Machine.ada) = Returned 0%Z
  /\ reported (final (Cli.main Cli.defaults Machine.ada))
     = Returned {| username := Some "ada"; email := Some "ada@example.com" |}.
Proof.
  destruct (main_exit_code Cli.defaults Machine.ada eq_refl) as (_ & Ok).
  destruct Ok as (_ & Zero & _); [vm_compute; reflexivity|].
  split.
  - eapply Zero. vm_compute. reflexivity.
  - vm_compute. reflexivity.
Defined.

Lemma writesIdentity_glab (words : list string) (io : Stdio) :
  writesIdentity {| argv := "glab" :: words; stdio := io |} = false.
Proof. now destruct words as [|a [|b [|c [|d [|e words]]]]]. Qed.

Lemma authStatus_is_no_write (h : option string) : writesIdentity (authStatus h) = false.
Proof. apply writesIdentity_glab. Qed.

Lemma loginRun_is_no_write (options : Options) : writesIdentity (loginRun options) = false.
Proof. apply writesIdentity_glab. Qed.

Lemma apiUser_is_no_write (h : option string) : writesIdentity (apiUser h) = false.
Proof. apply writesIdentity_glab. Qed.

Lemma setup_git_writes_no_identity
    {W : Type} `{RT : Runtime W} (options : Options) (w : W) :
  existsb (fun c => writesIdentity (fst c))
    (cmds (CommandStream.runGlabAuthSetupGit options w)) = false.
Proof.
  destruct (runGlabAuthSetupGit_stream_run options w) as (_ & _ & ->).
  destruct (answeredRun _); [destruct (_ && _)|]; reflexivity.
Qed.

(** X17.  With [--dry-run], and with [--verify], the front end never
    writes [user.name] or [user.email]: no process it runs is a [git
    config <flag> user.name <value>] or a [git config <flag> user.email
    <value>]. *)
Theorem dry_run_and_verify_write_no_identity
    {W : Type} `{RT : Runtime W} (config : Cli.Config) (w : W) :
  Cli.dryRun config = true \/ Cli.verify config = true ->
  existsb (fun c => writesIdentity (fst c)) (cmds (Cli.main config w)) = false.
Proof.
  intro H. destruct (Cli.verify config) eqn:V.
  - destruct (main_verify_frame config w V) as (-> & _).
    cbn [existsb fst]. now destruct (fst (os_run _ (readConfig _ "user.name"))).
  - destruct H as [D|]; [|discriminate].
    destruct (ensureAuthenticated_run config w) as (R & Fi & C). cbv zeta in R, Fi, C.
    destruct (@main_setup_run _ _ config w _ V R) as (_ & ->). cbv zeta.
    rewrite existsb_app, C. cbn [existsb fst]. rewrite authStatus_is_no_write.
    apply orb_false_iff. split.
    + destruct (ranZero _); cbn [orb].
      * apply setup_git_writes_no_identity.
      * cbn [existsb fst]. rewrite loginRun_is_no_write.
        destruct (ranZero _); [apply setup_git_writes_no_identity|reflexivity].
    + destruct (_ || _); [|reflexivity].
      destruct (setupGitIdentity_stream_dry (Cli.setupOptions config (cliScope config))
                  (final (Cli.ensureAuthenticated config w)) D) as (_ & _ & ->).
      destruct (getGitLabUserInfo_stream_run
                  (CommandStream.fetchOptions (Cli.setupOptions config (cliScope config)))
                  (final (Cli.ensureAuthenticated config w))) as (_ & _ & ->).
      cbn [existsb fst]. now rewrite apiUser_is_no_write.
Qed.

(** [--dry-run] on the workstation: no identity afterwards. *)
Lemma dry_run_leaves_no_identity :
  existsb (fun c => writesIdentity (fst c)) (cmds (Cli.main Cli.dry Machine.ada)) = false
  /\ reported (final (Cli.main Cli.dry Machine.ada))
     = Returned {| username := None; email := None |}.
Proof.
  split.
  - exact (dry_run_and_verify_write_no_identity Cli.dry Machine.ada (or_introl eq_refl)).
  - vm_compute. reflexivity.
Defined.

(** X18.  [--dry-run] is not free of writes: the front end sets up the
    credential helper before it looks at [--dry-run].  Whenever glab is
    authenticated and found and no helper is configured yet, [main]
    (without [--verify], with or without [--dry-run]) runs the add [git
    config --global --add credential.https://<hostname>.helper !<path>
    auth git-credential]. *)
Theorem dry_run_still_sets_up_the_helper
    {W : Type} `{RT : Runtime W} (config : Cli.Config) (w : W) :
  Cli.verify config = false ->
  let host := Cli.hostname config in
  let status := authStatus (Some host) in
  let w1 := snd (os_run w status) in
  let o_lookup := fst (os_run w1 lookup) in
  let w2 := snd (os_run w1 lookup) in
  let path := trim (firstLine (printed o_lookup)) in
  let w3 := snd (os_run w2 (readHelper host)) in
  let w4 := snd (os_run w3 (clearHelper host)) in
  ranZero (fst (os_run w status)) = true ->
  answeredRun o_lookup = true ->
  answeredRun (fst (os_run w2 (readHelper host))) = false ->
  In (addHelper host path, fst (os_run w4 (addHelper host path))) (cmds (Cli.main config w)).
Proof.
  intros V. cbv zeta. intros S L R.
  destruct (ensureAuthenticated_run config w) as (A & _ & C). cbv zeta in A, C.
  destruct (@main_setup_run _ _ config w _ V A) as (_ & ->). cbv zeta.
  apply in_or_app. left. rewrite C, S.
  destruct (runGlabAuthSetupGit_stream_run (Cli.hostOptions config)
              (snd (os_run w (authStatus (Some (Cli.hostname config))))))
    as (_ & _ & ->).
  change (orDefault CommandStream.default_hostname (hostname (Cli.hostOptions config)))
    with (Cli.hostname config).
  rewrite L, R. cbn [andb]. right. right. right. right. left. reflexivity.
Qed.

(** [--dry-run] on the fresh workstation leaves the helper behind. *)
Lemma dry_run_configures_the_helper :
  Machine.values (credentialKey "gitlab.com")
    (Machine.globalConfig (final (Cli.main Cli.dry Machine.ada)))
  = [""; "!/usr/bin/glab auth git-credential"]
  /\ In (addHelper "gitlab.com" "/usr/bin/glab", Exited (Some 0%Z) "" "")
        (cmds (Cli.main Cli.dry Machine.ada)).
Proof.
  split; [vm_compute; reflexivity|].
  refine (dry_run_still_sets_up_the_helper Cli.dry Machine.ada eq_refl _ _ _);
    vm_compute; reflexivity.
Defined.


(** X19.  On a command line that the [.check] of the front end accepts,
    a given [--token] is the login method: [glab auth login] is run with
    the named flags followed by [--token <token>], standard input not
    inherited.  And [--stdin] without a job token runs it with [--stdin],
    standard input inherited. *)
Theorem accepted_command_line_logs_in_as_asked (config : Cli.Config) :
  Cli.check config = Returned true ->
  let options := Cli.getAuthOptions config in
  let flags := namedFlags (CommandStream.loginOptions options) in
  (given (Cli.token config) = true ->
   loginRun options
   = {| argv := "glab" :: (flags ++ ["--token"; orDefault "" (Cli.token config)])%list;
        stdio := Mirror false |})
  /\ (Cli.stdin config = true -> given (Cli.jobToken config) = false ->
      loginRun options
      = {| argv := "glab" :: (flags ++ ["--stdin"])%list; stdio := Mirror true |}).
Proof.
  unfold Cli.check. intro Accepted. cbv zeta.
  unfold loginRun. rewrite buildGlabAuthLoginArgs_split.
  change (jobToken (CommandStream.loginOptions (Cli.getAuthOptions config)))
    with (Cli.jobToken config).
  change (token (CommandStream.loginOptions (Cli.getAuthOptions config)))
    with (Cli.token config).
  change (stdin (CommandStream.loginOptions (Cli.getAuthOptions config)))
    with (Cli.stdin config).
  change (stdin (Cli.getAuthOptions config)) with (Cli.stdin config).
  destruct (Cli.global config && Cli.local config); [discriminate|].
  destruct (given (Cli.token config)), (Cli.stdin config); cbn [andb] in Accepted;
    try discriminate.
  - destruct (given (Cli.jobToken config)); [discriminate|].
    split; [reflexivity|discriminate].
  - split; [discriminate|]. now intros _ ->.
  - split; discriminate.
Qed.

(** [--token glpat-123] is accepted and is what glab is given. *)
Lemma given_token_is_passed_to_glab :
  Cli.check Cli.withToken = Returned true
  /\ loginRun (Cli.getAuthOptions Cli.withToken)
     = {| argv := ["glab"; "auth"; "login"; "--hostname"; "gitlab.com";
                   "--git-protocol"; "https"; "--api-protocol"; "https";
                   "--token"; "glpat-123"];
          stdio := Mirror false |}.
Proof.
  split; [reflexivity|].
  exact (proj1 (accepted_command_line_logs_in_as_asked Cli.withToken eq_refl) eq_refl).
Defined.

(** ** What the verbose log shows *)

Lemma join_snoc2 (sep a b : string) (l : list string) :
  l <> [] -> join sep (l ++ [a; b])%list = join sep l ++ sep ++ a ++ sep ++ b.
Proof.
  unfold join. induction l as [|x [|y l] IH]; intro N; [congruence| |].
  - reflexivity.
  - specialize (IH ltac:(discriminate)). cbn [app] in IH |- *.
    change (String.concat sep (x :: y :: (l ++ [a; b])%list))
      with (x ++ sep ++ String.concat sep (y :: (l ++ [a; b])%list)).
    rewrite IH.
    change (String.concat sep (x :: y :: l)) with (x ++ sep ++ String.concat sep (y :: l)).
    now rewrite !append_assoc.
Qed.

Lemma namedFlags_not_empty (options : Options) : namedFlags options <> [].
Proof. unfold namedFlags. discriminate. Qed.

(** X20.  With [verbose] set, the [command-stream] variant of
    [runGlabAuthLogin] writes the secret to the log: its one debug line is
    [Running: glab <named flags> --job-token <job token>] when a job token
    is given and [Running: glab <named flags> --token <token>] when only a
    token is.  The [child_process] variant, which pipes the token to glab,
    logs a line built from the hostname, the git protocol and the keyring
    flag alone, ending in [--stdin] when a token is given. *)
Theorem verbose_login_logs_the_token
    {W : Type} `{RT : Runtime W} (options : Options) (w : W) :
  options.(verbose) = true ->
  let flags := join " " (namedFlags (CommandStream.loginOptions options)) in
  (given options.(jobToken) = true ->
   debugLines (trace (CommandStream.runGlabAuthLogin options w))
   = ["Running: glab " ++ flags ++ " --job-token " ++ orDefault "" options.(jobToken)])
  /\ (given options.(jobToken) = false -> given options.(token) = true ->
      debugLines (trace (CommandStream.runGlabAuthLogin options w))
      = ["Running: glab " ++ flags ++ " --token " ++ orDefault "" options.(token)])
  /\ debugLines (trace (ChildProcess.runGlabAuthLogin options w))
     = ["Running: glab "
        ++ join " " (["auth"; "login"]
                     ++ named "--hostname" (Some (orDefault "gitlab.com" options.(hostname)))
                     ++ named "--git-protocol"
                          (Some (orDefault "https" options.(gitProtocol)))
                     ++ (if orDefault false options.(useKeyring) then ["--use-keyring"]
                         else [])
                     ++ if given options.(token) then ["--stdin"] else [])%list].
Proof.
  intro V. cbv zeta.
  assert (Stream : debugLines (trace (CommandStream.runGlabAuthLogin options w))
                   = ["Running: glab "
                      ++ join " " (CommandStream.buildGlabAuthLoginArgs
                                     (CommandStream.loginOptions options))]).
  { unfold CommandStream.runGlabAuthLogin, createDefaultLogger, debug, error, log.
    cbv zeta. rewrite V.
    unfold bind, try_catch, CommandStream.run, run_process, lift, emit, ret, trace.
    cbn [bind fst snd].
    destruct (fst (os_run w _)) as [code out err|msg out]; cbn [CommandStream.settled].
    - now destruct (negb _).
    - reflexivity. }
  split; [|split].
  - intro J. rewrite Stream, buildGlabAuthLoginArgs_split.
    change (jobToken (CommandStream.loginOptions options)) with (jobToken options).
    rewrite J, join_snoc2 by apply namedFlags_not_empty. reflexivity.
  - intros J T. rewrite Stream, buildGlabAuthLoginArgs_split.
    change (jobToken (CommandStream.loginOptions options)) with (jobToken options).
    change (token (CommandStream.loginOptions options)) with (token options).
    rewrite J, T, join_snoc2 by apply namedFlags_not_empty. reflexivity.
  - rewrite <- loginArgs_split.
    unfold ChildProcess.runGlabAuthLogin, createDefaultLogger, debug, error, log.
    cbv zeta. rewrite V.
    unfold bind, ChildProcess.execInteractiveCommand, bind, run_process, emit, ret, trace.
    cbn [fst snd].
    destruct (fst (os_run w _)) as [code out err|msg out].
    + now destruct (negb _).
    + reflexivity.
Qed.

(** A verbose token login: the token is in the log of one variant only. *)
Lemma token_is_in_the_verbose_log :
  debugLines (trace (CommandStream.runGlabAuthLogin (withVerbose true tokenOptions) loggedOut))
  = ["Running: glab auth login --hostname gitlab.com --git-protocol https --api-protocol https --token glpat-123"].
Proof.
  pose proof (verbose_login_logs_the_token (withVerbose true tokenOptions)
                loggedOut eq_refl) as (_ & T & _).
  rewrite T by reflexivity. vm_compute. reflexivity.
Defined.
